(** * ritmex-bot: risk gating, fee-aware close pricing, volume admission,
      resilient requests and position PnL

    A shallow embedding of the decision logic of the bot:

    - [Fee]    [ASTER_FEE_RATES]          src/unnamed/part_000
                                          (imported as "./fee-calculator")
    - [Risk]   [RiskManager]              src/src/utils/risk-manager.ts
    - [Close]  [CloseStrategyManager]     src/src/config.ts (third part)
    - [Volume] [VolumeStrategyOptimizer]  src/unnamed/part_003
    - [Http]   [safeFetch]                src/src/utils/http.ts
    - [Pnl]    [computePositionPnl],
               [computeGrossPnl]          src/unnamed/part_002 (second part)
    - [TradeFees] [calculateTradeFee],
               [calculateTotalFees]       src/unnamed/part_001 (first part)
    - [Optimizer] [getOptimizedConfig],
               [analyzeStrategy]          src/unnamed/part_002 (first part)
    - [Tracker] [TradeTracker]            src/src/utils/trade-tracker.ts

    Numbers.  A TypeScript [number] is an IEEE 754 binary64 value.  The
    finite ones are rationals ([Q]); equalities of such values are
    stated up to [==].  Module [Binary64] gives the rounding of a
    rational to the nearest binary64 value (ties to even, with gradual
    underflow) and the four operations as the exact operation followed
    by that rounding; module [Ieee754] compares them with the IEEE 754
    specification of the Standard Library.  Overflow to [Infinity] is
    outside [Binary64]: a result is taken to stay below [2^1024] in
    magnitude, and a divisor to be non-zero.

    The methods whose result depends on how sums, products and quotients
    are rounded are embedded with the operations of [Binary64]:

    - [Risk64]   [recordTrade], [updateDrawdown] of [RiskManager]
    - [Close64]  [calculateClosePrice] of [CloseStrategyManager]
    - [Volume64] [getRecentVolume], [canExecuteTrade] of
                 [VolumeStrategyOptimizer]

    The modules [Risk], [Close], [Volume] and the others embed the
    methods with the exact operations of [Q].  Their properties are
    about the order of the tests, comparisons of given values, counters
    and pairs of computations made of the same operations in the same
    order; the bounds among them (on [Risk.getSuggestedTradeSize],
    [Optimizer.getOptimizedConfig], [Http.backoff] and the like) are
    bounds on the exact results.

    [Date.now()] is an integer count of milliseconds ([Z]) and is passed
    explicitly to every method that reads the clock.  Counters are
    [nat].  Where the code tests for missing or non-finite numbers
    (module [Pnl]) the values carry [NaN], the infinities, [null] and
    [undefined] explicitly. *)

From Stdlib Require Import String.
From Stdlib Require Import QArith Qminmax Qabs Qround Qpower Lqa.
From Stdlib Require Import ZArith Lia List Bool.
From Stdlib Require SpecFloat.
Import ListNotations.

Open Scope Q_scope.

(** ** Comparisons of numbers, as the operators of the language *)

Module JsCmp.

(** [a < b] *)
Definition lt (a b : Q) : bool := negb (Qle_bool b a).
(** [a > b] *)
Definition gt (a b : Q) : bool := lt b a.
(** [a >= b] *)
Definition ge (a b : Q) : bool := Qle_bool b a.
(** [a <= b] *)
Definition le (a b : Q) : bool := Qle_bool a b.

End JsCmp.

(** ** The arithmetic of [number]: IEEE 754 binary64 *)

Module Binary64.

(** [2^e] *)
Definition pow2 (e : Z) : Q := 2 ^ e.

(** For [x > 0], the integer [e] with [2^e <= x < 2^(e+1)]. *)
Definition ilog2 (x : Q) : Z :=
  let e0 := (Z.log2 (Qnum x) - Z.log2 (Zpos (Qden x)))%Z in
  if Qle_bool (pow2 e0) x then e0 else (e0 - 1)%Z.

(** The binary exponent of a non-zero value. *)
Definition magnitude (x : Q) : Z := ilog2 (Qabs (Qred x)).

(** The exponent of the unit in the last place: 53 significant bits,
    and no unit below [2^-1074], the smallest positive binary64
    value. *)
Definition ulp_exponent (x : Q) : Z := Z.max (magnitude x - 52) (-1074).

(** The integer nearest to [m]; of two equally near, the even one. *)
Definition nearest_even (m : Q) : Z :=
  let f := Qfloor m in
  match Qcompare (m - inject_Z f) (1 # 2) with
  | Lt => f
  | Gt => (f + 1)%Z
  | Eq => if Z.even f then f else (f + 1)%Z
  end.

(** The binary64 value nearest to [x].  A decimal literal of the source
    denotes the rounding of the decimal it writes. *)
Definition round (x : Q) : Q :=
  let c := ulp_exponent x in
  inject_Z (nearest_even (x / pow2 c)) * pow2 c.

(** [x + y], [x - y], [x * y] and [x / y] on binary64 values. *)
Definition add (x y : Q) : Q := round (x + y).
Definition sub (x y : Q) : Q := round (x - y).
Definition mul (x y : Q) : Q := round (x * y).
Definition div (x y : Q) : Q := round (x / y).

(** Whether a rounded result is out of the finite range: its magnitude
    reaches [2^1024], where the machine gives [Infinity]. *)
Definition overflows (x : Q) : bool := Qle_bool (pow2 1024) (Qabs x).

End Binary64.

(** ** The operations of [Binary64] against the IEEE 754 specification
       of the Standard Library ([SpecFloat], with 53 bits of precision
       and the exponent bound 1024) *)

Module Ieee754.

(** The number a finite float stands for. *)
Definition value (f : SpecFloat.spec_float) : option Q :=
  match f with
  | SpecFloat.S754_zero _ => Some 0
  | SpecFloat.S754_finite s m e =>
      Some (inject_Z (if s then Zneg m else Zpos m) * Binary64.pow2 e)
  | _ => None
  end.

(** The float of [m * 2^e], and of the quotient of two integers. *)
Definition float_of (m e : Z) : SpecFloat.spec_float :=
  SpecFloat.binary_normalize 53 1024 m e false.

Definition ratio (n d : Z) : SpecFloat.spec_float :=
  SpecFloat.SFdiv 53 1024 (float_of n 0) (float_of d 0).

(** Whether an operation of the specification and one of [Binary64]
    give the same number on two finite floats, an infinite result of
    the former being an overflow of the latter. *)
Definition agree
    (op : SpecFloat.spec_float -> SpecFloat.spec_float
          -> SpecFloat.spec_float)
    (opq : Q -> Q -> Q) (x y : SpecFloat.spec_float) : bool :=
  match value x, value y with
  | Some a, Some b =>
      match op x y with
      | SpecFloat.S754_infinity _ => Binary64.overflows (opq a b)
      | r => match value r with
             | Some c => Qeq_bool (opq a b) c
                         && negb (Binary64.overflows c)
             | None => false
             end
      end
  | _, _ => false
  end.

(** Decimals of the source and of the examples below, a third, a whole
    number, a tie ([2^53 + 1]) and a small value. *)
Definition samples : list SpecFloat.spec_float :=
  [ratio 1 10; ratio 2 10; ratio 8 10; ratio 12 10; ratio 36 10;
   ratio 1 10000; ratio 35 100000; ratio 1 1000; ratio (-7) 10;
   ratio 1 3; float_of 100 0; float_of 9007199254740993 0;
   ratio 1 100000000000000000000].

(** Subnormal values, and values at the end of the finite range: the
    last two sums are the largest finite value plus half a unit in its
    last place, which overflows, and plus a quarter, which does not. *)
Definition extremes : list (SpecFloat.spec_float * SpecFloat.spec_float) :=
  [(float_of 1 (-1074), float_of 1 (-1074));
   (float_of 3 (-1075), float_of 1 0);
   (float_of 3 (-1075), float_of 3 0);
   (float_of 1 (-1022), ratio 1 10);
   (float_of (-5) (-1060), float_of 1 (-1074));
   (ratio 1 3, float_of 1 (-1060));
   (float_of 1 600, float_of 1 600);
   (float_of 1 1000, float_of 1 (-1074));
   (float_of 9007199254740991 971, float_of 1 970);
   (float_of 9007199254740991 971, float_of 1 969)].

Definition is_finite_nonzero (f : SpecFloat.spec_float) : bool :=
  match f with SpecFloat.S754_finite _ _ _ => true | _ => false end.

(** The four operations on every pair of samples and on the extremes. *)
Definition all_agree : bool :=
  forallb
    (fun p =>
       agree (SpecFloat.SFadd 53 1024) Binary64.add (fst p) (snd p)
       && agree (SpecFloat.SFsub 53 1024) Binary64.sub (fst p) (snd p)
       && agree (SpecFloat.SFmul 53 1024) Binary64.mul (fst p) (snd p)
       && (negb (is_finite_nonzero (snd p))
           || agree (SpecFloat.SFdiv 53 1024) Binary64.div (fst p) (snd p)))
    (list_prod samples samples ++ extremes).

End Ieee754.

(** The operations are computed on closed values only. *)
Arguments Binary64.round : simpl never.
Arguments Binary64.add : simpl never.
Arguments Binary64.sub : simpl never.
Arguments Binary64.mul : simpl never.
Arguments Binary64.div : simpl never.

(** ** Fee schedule (src/unnamed/part_000) *)

Module Fee.

(** [ASTER_FEE_RATES] *)
Definition LIMIT_MAKER : Q := 1 # 10000.      (* 0.0001  *)
Definition MARKET_TAKER : Q := 35 # 100000.   (* 0.00035 *)
Definition STOP_MARKET : Q := 35 # 100000.
Definition TRAILING_STOP : Q := 35 # 100000.

(** The argument of the fee functions: [{orderType, isMaker, notional}]. *)
Record Order : Type := mkOrder {
  order_type : string;
  order_isMaker : bool;
  order_notional : Q
}.

Record OrderFeeInfo : Type := mkFeeInfo {
  orderType : string;
  isMaker : bool;
  notional : Q;
  feeRate : Q;
  feeAmount : Q
}.

(** [getFeeRate(orderType, isMaker)] *)
Definition getFeeRate (orderType : string) (isMaker : bool) : Q :=
  if String.eqb orderType "LIMIT"
  then (if isMaker then LIMIT_MAKER else MARKET_TAKER)
  else if String.eqb orderType "MARKET" then MARKET_TAKER
  else if String.eqb orderType "STOP_MARKET" then STOP_MARKET
  else if String.eqb orderType "TRAILING_STOP_MARKET" then TRAILING_STOP
  else MARKET_TAKER.

(** [calculateOrderFee(orderType, isMaker, notional)] *)
Definition calculateOrderFee (orderType : string) (isMaker : bool)
    (notional : Q) : OrderFeeInfo :=
  let feeRate := getFeeRate orderType isMaker in
  let feeAmount := notional * feeRate in
  mkFeeInfo orderType isMaker notional feeRate feeAmount.

Record BatchFees : Type := mkBatch {
  batch_totalFees : Q;
  batch_feeBreakdown : list OrderFeeInfo
}.

(** One iteration of the loop of [calculateBatchFees]. *)
Definition batch_iter (acc : BatchFees) (order : Order) : BatchFees :=
  let feeInfo := calculateOrderFee (order_type order) (order_isMaker order)
                   (order_notional order) in
  mkBatch (batch_totalFees acc + feeAmount feeInfo)
          (batch_feeBreakdown acc ++ [feeInfo]).

(** [calculateBatchFees(orders)] *)
Definition calculateBatchFees (orders : list Order) : BatchFees :=
  fold_left batch_iter orders (mkBatch 0 []).

(** A [Record<string, number>], its keys in insertion order. *)
Definition Breakdown : Type := list (string * Q).

Fixpoint lookup (key : string) (b : Breakdown) : option Q :=
  match b with
  | [] => None
  | (k, v) :: r => if String.eqb k key then Some v else lookup key r
  end.

(** [b[key] = v] *)
Fixpoint assign (key : string) (v : Q) (b : Breakdown) : Breakdown :=
  match b with
  | [] => [(key, v)]
  | (k, v0) :: r =>
      if String.eqb k key then (k, v) :: r else (k, v0) :: assign key v r
  end.

(** [b[key] || 0] *)
Definition lookup_or_zero (key : string) (b : Breakdown) : Q :=
  match lookup key b with
  | Some v => if Qeq_bool v 0 then 0 else v
  | None => 0
  end.

(** The key [`${orderType}_${isMaker ? 'MAKER' : 'TAKER'}`]. *)
Definition breakdown_key (orderType : string) (isMaker : bool) : string :=
  String.append orderType
    (String.append "_" (if isMaker then "MAKER" else "TAKER")).

Record FeeStats : Type := mkFeeStats {
  totalFees : Q;
  makerFees : Q;
  takerFees : Q;
  limitOrderFees : Q;
  marketOrderFees : Q;
  avgFeeRate : Q;
  feeBreakdown : Breakdown
}.

(** One iteration of the loop of [calculateFeeStats]; the second
    component is the local [totalNotional]. *)
Definition feeStats_iter (acc : FeeStats * Q) (order : Order)
  : FeeStats * Q :=
  let (stats, totalNotional) := acc in
  let feeInfo := calculateOrderFee (order_type order) (order_isMaker order)
                   (order_notional order) in
  let key := breakdown_key (order_type order) (isMaker feeInfo) in
  (mkFeeStats
     (totalFees stats + feeAmount feeInfo)
     (if isMaker feeInfo then makerFees stats + feeAmount feeInfo
      else makerFees stats)
     (if isMaker feeInfo then takerFees stats
      else takerFees stats + feeAmount feeInfo)
     (if String.eqb (order_type order) "LIMIT"
      then limitOrderFees stats + feeAmount feeInfo
      else limitOrderFees stats)
     (if String.eqb (order_type order) "LIMIT"
      then marketOrderFees stats
      else marketOrderFees stats + feeAmount feeInfo)
     (avgFeeRate stats)
     (assign key (lookup_or_zero key (feeBreakdown stats) + feeAmount feeInfo)
             (feeBreakdown stats)),
   totalNotional + order_notional order).

(** [calculateFeeStats(orders)] *)
Definition calculateFeeStats (orders : list Order) : FeeStats :=
  let (stats, totalNotional) :=
    fold_left feeStats_iter orders (mkFeeStats 0 0 0 0 0 0 [], 0) in
  mkFeeStats (totalFees stats) (makerFees stats) (takerFees stats)
    (limitOrderFees stats) (marketOrderFees stats)
    (if JsCmp.gt totalNotional 0
     then totalFees stats / totalNotional * 100 else 0)
    (feeBreakdown stats).

(** The advice strings of [getFeeOptimizationAdvice]. *)
Inductive FeeAdvice : Type :=
| TakerFeesHigh        (* "吃单手续费过高，建议增加限价单比例" *)
| MarketFeesHigh       (* "市价单手续费过高，建议减少市价单使用" *)
| AvgFeeRateHigh       (* "平均手续费率过高，建议优化订单类型组合" *)
| FeesReasonable.      (* "手续费结构合理，可以继续当前策略" *)

(** [getFeeOptimizationAdvice(feeStats)] *)
Definition getFeeOptimizationAdvice (feeStats : FeeStats) : list FeeAdvice :=
  let advice :=
    (if JsCmp.gt (takerFees feeStats) (makerFees feeStats * 2)
     then [TakerFeesHigh] else [])
    ++ (if JsCmp.gt (marketOrderFees feeStats) (limitOrderFees feeStats * 3)
        then [MarketFeesHigh] else [])
    ++ (if JsCmp.gt (avgFeeRate feeStats) (2 # 100)
        then [AvgFeeRateHigh] else []) in
  match advice with
  | [] => [FeesReasonable]
  | _ :: _ => advice
  end.

(** The sum over the orders of notional times fee rate. *)
Definition fee_sum (orders : list Order) : Q :=
  fold_right
    (fun o acc =>
       order_notional o * getFeeRate (order_type o) (order_isMaker o) + acc)
    0 orders.

End Fee.

(** ** Risk manager (src/src/utils/risk-manager.ts) *)

Module Risk.

Record RiskLimits : Type := mkLimits {
  maxPositionSize : Q;
  maxDailyLoss : Q;
  maxConsecutiveLosses : Q;
  maxDrawdown : Q;
  cooldownPeriod : Q;
  emergencyStopLoss : Q
}.

Record RiskState : Type := mkState {
  currentDrawdown : Q;
  consecutiveLosses : nat;
  dailyLoss : Q;
  lastTradeTime : Z;
  isInCooldown : bool;
  emergencyStopTriggered : bool
}.

(** An entry of [tradeHistory]. *)
Record Trade : Type := mkTrade {
  timestamp : Z;
  pnl : Q;
  isMaker : bool
}.

Record RiskManager : Type := mkManager {
  limits : RiskLimits;
  state : RiskState;
  tradeHistory : list Trade
}.

(** The constructor. *)
Definition new (l : RiskLimits) : RiskManager :=
  mkManager l (mkState 0 O 0 0%Z false false) [].

(** The [reason] strings.  The fixed texts are kept in the comments; a
    template string is a constructor that carries the interpolated
    values. *)
Inductive Reason : Type :=
| EmergencyStop                                  (* "紧急止损已触发" *)
| Cooldown                                       (* "冷却期内，禁止开仓" *)
| PositionSizeExceeded (proposed limit : Q)      (* "持仓大小超过限制: p > l" *)
| LossStreak (losses : nat) (limit : Q)          (* "连续亏损次数过多: n >= l" *)
| DailyLossExceeded (loss limit : Q)             (* "日亏损超过限制: d >= l" *)
| DrawdownExceeded (drawdown limit : Q).         (* "回撤超过限制: d >= l" *)

Record Decision : Type := mkDecision {
  allowed : bool;
  reason : option Reason
}.

Definition reject (r : Reason) : Decision := mkDecision false (Some r).
Definition allow : Decision := mkDecision true None.

(** A counter read as a number. *)
Definition of_count (n : nat) : Q := inject_Z (Z.of_nat n).

(** [canOpenPosition(proposedSize)], the clock reading being [now]. *)
Definition canOpenPosition (m : RiskManager) (now : Z) (proposedSize : Q)
  : Decision :=
  let s := state m in
  let l := limits m in
  if emergencyStopTriggered s then reject EmergencyStop
  else if isInCooldown s
          && JsCmp.lt (inject_Z (now - lastTradeTime s)) (cooldownPeriod l)
  then reject Cooldown
  else if JsCmp.gt proposedSize (maxPositionSize l)
  then reject (PositionSizeExceeded proposedSize (maxPositionSize l))
  else if JsCmp.ge (of_count (consecutiveLosses s)) (maxConsecutiveLosses l)
  then reject (LossStreak (consecutiveLosses s) (maxConsecutiveLosses l))
  else if JsCmp.ge (dailyLoss s) (maxDailyLoss l)
  then reject (DailyLossExceeded (dailyLoss s) (maxDailyLoss l))
  else if JsCmp.ge (currentDrawdown s) (maxDrawdown l)
  then reject (DrawdownExceeded (currentDrawdown s) (maxDrawdown l))
  else allow.

(** The three local variables of the loop of [updateDrawdown]. *)
Record DrawdownLoop : Type := mkLoop {
  peak : Q;
  currentPnl : Q;
  maxDrawdownSeen : Q
}.

(** One iteration of [for (const trade of this.tradeHistory)]. *)
Definition drawdown_iter (v : DrawdownLoop) (t : Trade) : DrawdownLoop :=
  let cur := currentPnl v + pnl t in
  let pk := if JsCmp.gt cur (peak v) then cur else peak v in
  let drawdown := pk - cur in
  let md := if JsCmp.gt drawdown (maxDrawdownSeen v) then drawdown
            else maxDrawdownSeen v in
  mkLoop pk cur md.

Definition drawdown_loop (h : list Trade) : DrawdownLoop :=
  fold_left drawdown_iter h (mkLoop 0 0 0).

Definition set_currentDrawdown (s : RiskState) (d : Q) : RiskState :=
  mkState d (consecutiveLosses s) (dailyLoss s) (lastTradeTime s)
          (isInCooldown s) (emergencyStopTriggered s).

(** [updateDrawdown()] *)
Definition updateDrawdown (m : RiskManager) : RiskManager :=
  match tradeHistory m with
  | [] => m
  | _ :: _ =>
      mkManager (limits m)
        (set_currentDrawdown (state m)
           (maxDrawdownSeen (drawdown_loop (tradeHistory m))))
        (tradeHistory m)
  end.

(** [recordTrade(pnl, isMaker)], the clock reading being [now]. *)
Definition recordTrade (m : RiskManager) (now : Z) (p : Q) (mk : bool)
  : RiskManager :=
  let h := tradeHistory m ++ [mkTrade now p mk] in
  let s := state m in
  let s1 :=
    if JsCmp.lt p 0
    then mkState (currentDrawdown s) (S (consecutiveLosses s))
                 (dailyLoss s + Qabs p) now
                 (isInCooldown s) (emergencyStopTriggered s)
    else mkState (currentDrawdown s) O (dailyLoss s) now
                 (isInCooldown s) (emergencyStopTriggered s) in
  let m2 := updateDrawdown (mkManager (limits m) s1 h) in
  let s2 := state m2 in
  let s3 :=
    if JsCmp.ge (currentDrawdown s2) (emergencyStopLoss (limits m))
    then mkState (currentDrawdown s2) (consecutiveLosses s2) (dailyLoss s2)
                 (lastTradeTime s2) (isInCooldown s2) true
    else s2 in
  let s4 :=
    if JsCmp.ge (of_count (consecutiveLosses s3))
                (maxConsecutiveLosses (limits m))
    then mkState (currentDrawdown s3) (consecutiveLosses s3) (dailyLoss s3)
                 (lastTradeTime s3) true (emergencyStopTriggered s3)
    else s3 in
  mkManager (limits m) s4 (tradeHistory m2).

(** [resetDailyStats()] *)
Definition resetDailyStats (m : RiskManager) : RiskManager :=
  let s := state m in
  mkManager (limits m)
    (mkState (currentDrawdown s) O 0 (lastTradeTime s) false
             (emergencyStopTriggered s))
    (tradeHistory m).

(** [resetEmergencyStop()] *)
Definition resetEmergencyStop (m : RiskManager) : RiskManager :=
  let s := state m in
  mkManager (limits m)
    (mkState (currentDrawdown s) (consecutiveLosses s) (dailyLoss s)
             (lastTradeTime s) (isInCooldown s) false)
    (tradeHistory m).

(** [getRiskState()] *)
Definition getRiskState (m : RiskManager) : RiskState := state m.

(** The calls that change a manager, and a run of them. *)
Inductive Call : Type :=
| RecordTrade (now : Z) (p : Q) (mk : bool)
| ResetDailyStats
| ResetEmergencyStop.

Definition step (m : RiskManager) (c : Call) : RiskManager :=
  match c with
  | RecordTrade now p mk => recordTrade m now p mk
  | ResetDailyStats => resetDailyStats m
  | ResetEmergencyStop => resetEmergencyStop m
  end.

Definition run (m : RiskManager) (cs : list Call) : RiskManager :=
  fold_left step cs m.

(** The PnL values recorded by a run, in order. *)
Fixpoint recorded (cs : list Call) : list Q :=
  match cs with
  | [] => []
  | RecordTrade _ p _ :: r => p :: recorded r
  | _ :: r => recorded r
  end.

Definition is_reset_emergency (c : Call) : bool :=
  match c with ResetEmergencyStop => true | _ => false end.

(** *** The drawdown as the specification words it

    The maximum, over all prefixes of the recorded PnL sequence, of the
    running peak of the cumulative PnL (the peak starts at 0) minus the
    cumulative PnL. *)

Definition cumulative (l : list Q) : Q := fold_right Qplus 0 l.

(** The non-empty prefixes of a sequence, shortest first. *)
Fixpoint prefixes (l : list Q) : list (list Q) :=
  match l with
  | [] => []
  | x :: r => [x] :: map (cons x) (prefixes r)
  end.

Definition running_peak (p : list Q) : Q :=
  fold_left Qmax (map cumulative (prefixes p)) 0.

Definition prefix_drawdown (p : list Q) : Q := running_peak p - cumulative p.

Definition drawdown_spec (l : list Q) : Q :=
  match map prefix_drawdown (prefixes l) with
  | [] => 0
  | d :: ds => fold_left Qmax ds d
  end.

(** The same maximum taken from 0, which is how the loop computes it. *)
Definition drawdown_from_zero (l : list Q) : Q :=
  fold_left Qmax (map prefix_drawdown (prefixes l)) 0.

(** *** The gates of [canOpenPosition] as the specification lists them *)

Inductive Gate : Type :=
| EmergencyGate
| CooldownGate
| PositionSizeGate
| LossStreakGate
| DailyLossGate
| DrawdownGate.

(** The fixed priority order. *)
Definition priority : list Gate :=
  [EmergencyGate; CooldownGate; PositionSizeGate; LossStreakGate;
   DailyLossGate; DrawdownGate].

(** Whether a gate fails (rejects) in a state. *)
Definition gate_fails (m : RiskManager) (now : Z) (proposedSize : Q)
    (g : Gate) : bool :=
  let s := state m in
  let l := limits m in
  match g with
  | EmergencyGate => emergencyStopTriggered s
  | CooldownGate =>
      isInCooldown s
      && JsCmp.lt (inject_Z (now - lastTradeTime s)) (cooldownPeriod l)
  | PositionSizeGate => JsCmp.gt proposedSize (maxPositionSize l)
  | LossStreakGate =>
      JsCmp.ge (of_count (consecutiveLosses s)) (maxConsecutiveLosses l)
  | DailyLossGate => JsCmp.ge (dailyLoss s) (maxDailyLoss l)
  | DrawdownGate => JsCmp.ge (currentDrawdown s) (maxDrawdown l)
  end.

(** The reason a gate gives. *)
Definition gate_reason (m : RiskManager) (proposedSize : Q) (g : Gate)
  : Reason :=
  let s := state m in
  let l := limits m in
  match g with
  | EmergencyGate => EmergencyStop
  | CooldownGate => Cooldown
  | PositionSizeGate => PositionSizeExceeded proposedSize (maxPositionSize l)
  | LossStreakGate => LossStreak (consecutiveLosses s) (maxConsecutiveLosses l)
  | DailyLossGate => DailyLossExceeded (dailyLoss s) (maxDailyLoss l)
  | DrawdownGate => DrawdownExceeded (currentDrawdown s) (maxDrawdown l)
  end.

(** The gate a reason belongs to. *)
Definition gate_of_reason (r : Reason) : Gate :=
  match r with
  | EmergencyStop => EmergencyGate
  | Cooldown => CooldownGate
  | PositionSizeExceeded _ _ => PositionSizeGate
  | LossStreak _ _ => LossStreakGate
  | DailyLossExceeded _ _ => DailyLossGate
  | DrawdownExceeded _ _ => DrawdownGate
  end.

(** The first gate of the priority order that fails, if any. *)
Definition first_failing (m : RiskManager) (now : Z) (proposedSize : Q)
  : option Gate :=
  find (gate_fails m now proposedSize) priority.

(** The decision the priority order describes. *)
Definition decision_by_priority (m : RiskManager) (now : Z)
    (proposedSize : Q) : Decision :=
  match first_failing m now proposedSize with
  | Some g => reject (gate_reason m proposedSize g)
  | None => allow
  end.

(** Whether a decision carries the reason of a given gate. *)
Definition reason_is (d : Decision) (g : Gate) : Prop :=
  exists r, reason d = Some r /\ gate_of_reason r = g.

(** [calculateRiskMultiplier()] *)
Definition calculateRiskMultiplier (m : RiskManager) : Q :=
  let s := state m in
  let l := limits m in
  let multiplier := 1 in
  let multiplier :=
    if JsCmp.gt (currentDrawdown s) (maxDrawdown l * (5 # 10))
    then multiplier * (5 # 10) else multiplier in
  let multiplier :=
    if JsCmp.gt (of_count (consecutiveLosses s))
                (maxConsecutiveLosses l * (5 # 10))
    then multiplier * (3 # 10) else multiplier in
  let multiplier :=
    if JsCmp.gt (dailyLoss s) (maxDailyLoss l * (5 # 10))
    then multiplier * (5 # 10) else multiplier in
  Qmax (1 # 10) multiplier.

(** [getSuggestedTradeSize(baseSize)] *)
Definition getSuggestedTradeSize (m : RiskManager) (baseSize : Q) : Q :=
  let riskMultiplier := calculateRiskMultiplier m in
  Qmax (1 # 10000) (baseSize * riskMultiplier).

(** The advice strings of [getRiskAdvice]. *)
Inductive Advice : Type :=
| DrawdownNearLimit             (* "回撤接近限制，建议降低交易频率" *)
| LossStreakNearLimit           (* "连续亏损接近限制，建议暂停交易" *)
| DailyLossNearLimit            (* "日亏损接近限制，建议减少交易量" *)
| CooldownRemaining (seconds : Z)   (* "冷却期剩余: s秒" *)
| EmergencyNeedsReset.          (* "紧急止损已触发，需要手动重置" *)

(** [getRiskAdvice()], the clock reading being [now]. *)
Definition getRiskAdvice (m : RiskManager) (now : Z) : list Advice :=
  let s := state m in
  let l := limits m in
  (if JsCmp.gt (currentDrawdown s) (maxDrawdown l * (8 # 10))
   then [DrawdownNearLimit] else [])
  ++ (if JsCmp.gt (of_count (consecutiveLosses s))
                  (maxConsecutiveLosses l * (7 # 10))
      then [LossStreakNearLimit] else [])
  ++ (if JsCmp.gt (dailyLoss s) (maxDailyLoss l * (8 # 10))
      then [DailyLossNearLimit] else [])
  ++ (if isInCooldown s
      then
        let remainingTime :=
          cooldownPeriod l - inject_Z (now - lastTradeTime s) in
        if JsCmp.gt remainingTime 0
        then [CooldownRemaining (Qceiling (remainingTime / 1000))]
        else []
      else [])
  ++ (if emergencyStopTriggered s then [EmergencyNeedsReset] else []).

(** The number of losing trades at the head of a sequence. *)
Fixpoint leading_losses (l : list Q) : nat :=
  match l with
  | [] => O
  | p :: r => if JsCmp.lt p 0 then S (leading_losses r) else O
  end.

(** The number of losing trades at the end of a sequence. *)
Definition trailing_losses (l : list Q) : nat := leading_losses (rev l).

Definition is_reset_daily (c : Call) : bool :=
  match c with ResetDailyStats => true | _ => false end.

End Risk.

(** ** Risk manager, the arithmetic in binary64 *)

Module Risk64.

Import Risk.

(** One iteration of [for (const trade of this.tradeHistory)]:
    [currentPnl += trade.pnl] and [peak - currentPnl] are rounded. *)
Definition drawdown_iter (v : DrawdownLoop) (t : Trade) : DrawdownLoop :=
  let cur := Binary64.add (currentPnl v) (pnl t) in
  let pk := if JsCmp.gt cur (peak v) then cur else peak v in
  let drawdown := Binary64.sub pk cur in
  let md := if JsCmp.gt drawdown (maxDrawdownSeen v) then drawdown
            else maxDrawdownSeen v in
  mkLoop pk cur md.

Definition drawdown_loop (h : list Trade) : DrawdownLoop :=
  fold_left drawdown_iter h (mkLoop 0 0 0).

(** [updateDrawdown()] *)
Definition updateDrawdown (m : RiskManager) : RiskManager :=
  match tradeHistory m with
  | [] => m
  | _ :: _ =>
      mkManager (limits m)
        (set_currentDrawdown (state m)
           (maxDrawdownSeen (drawdown_loop (tradeHistory m))))
        (tradeHistory m)
  end.

(** [recordTrade(pnl, isMaker)], the clock reading being [now]:
    [dailyLoss += Math.abs(pnl)] is rounded, [Math.abs] is exact. *)
Definition recordTrade (m : RiskManager) (now : Z) (p : Q) (mk : bool)
  : RiskManager :=
  let h := tradeHistory m ++ [mkTrade now p mk] in
  let s := state m in
  let s1 :=
    if JsCmp.lt p 0
    then mkState (currentDrawdown s) (S (consecutiveLosses s))
                 (Binary64.add (dailyLoss s) (Qabs p)) now
                 (isInCooldown s) (emergencyStopTriggered s)
    else mkState (currentDrawdown s) O (dailyLoss s) now
                 (isInCooldown s) (emergencyStopTriggered s) in
  let m2 := updateDrawdown (mkManager (limits m) s1 h) in
  let s2 := state m2 in
  let s3 :=
    if JsCmp.ge (currentDrawdown s2) (emergencyStopLoss (limits m))
    then mkState (currentDrawdown s2) (consecutiveLosses s2) (dailyLoss s2)
                 (lastTradeTime s2) (isInCooldown s2) true
    else s2 in
  let s4 :=
    if JsCmp.ge (of_count (consecutiveLosses s3))
                (maxConsecutiveLosses (limits m))
    then mkState (currentDrawdown s3) (consecutiveLosses s3) (dailyLoss s3)
                 (lastTradeTime s3) true (emergencyStopTriggered s3)
    else s3 in
  mkManager (limits m) s4 (tradeHistory m2).

(** A run of calls; the two resets do no arithmetic. *)
Definition step (m : RiskManager) (c : Call) : RiskManager :=
  match c with
  | RecordTrade now p mk => recordTrade m now p mk
  | ResetDailyStats => resetDailyStats m
  | ResetEmergencyStop => resetEmergencyStop m
  end.

Definition run (m : RiskManager) (cs : list Call) : RiskManager :=
  fold_left step cs m.

(** *** The drawdown as the specification words it

    The maximum, over all prefixes of the recorded PnL sequence, of the
    running peak of the cumulative PnL (the peak starts at 0) minus the
    cumulative PnL, the cumulative PnL being the sum taken from 0 in
    the order of recording and the sum and the difference those of
    binary64. *)

Definition cumulative (l : list Q) : Q := fold_left Binary64.add l 0.

Definition running_peak (p : list Q) : Q :=
  fold_left Qmax (map cumulative (prefixes p)) 0.

Definition prefix_drawdown (p : list Q) : Q :=
  Binary64.sub (running_peak p) (cumulative p).

Definition drawdown_spec (l : list Q) : Q :=
  match map prefix_drawdown (prefixes l) with
  | [] => 0
  | d :: ds => fold_left Qmax ds d
  end.

(** The same maximum taken from 0, which is how the loop computes it. *)
Definition drawdown_from_zero (l : list Q) : Q :=
  fold_left Qmax (map prefix_drawdown (prefixes l)) 0.

End Risk64.

(** ** Fee-aware close strategy (src/src/config.ts) *)

Module Close.

Inductive Side : Type := BUY | SELL.

(** [strategy: "profit_cover" | "original"] *)
Inductive Strategy : Type := profit_cover | original.

Record CloseStrategyConfig : Type := mkConfig {
  minProfitMargin : Q;
  timeoutMs : Q;
  fallbackToOriginal : bool
}.

(** [Partial<CloseStrategyConfig>] *)
Record PartialConfig : Type := mkPartial {
  minProfitMargin_opt : option Q;
  timeoutMs_opt : option Q;
  fallbackToOriginal_opt : option bool
}.

Record CloseOrderInfo : Type := mkInfo {
  side : Side;
  price : Q;
  amount : Q;
  minProfitRequired : Q;
  isTimeout : bool;
  strategy : Strategy
}.

Record CloseStrategyManager : Type := mkManager {
  config : CloseStrategyConfig;
  orderStartTime : Z;
  isActive : bool
}.

Definition or_default {A : Type} (o : option A) (d : A) : A :=
  match o with Some a => a | None => d end.

(** The constructor: the defaults, overridden by the fields given. *)
Definition new (c : PartialConfig) : CloseStrategyManager :=
  mkManager
    (mkConfig (or_default (minProfitMargin_opt c) (1 # 10000))
              (or_default (timeoutMs_opt c) 60000)
              (or_default (fallbackToOriginal_opt c) true))
    0%Z false.

(** [startCloseStrategy()], the clock reading being [now]. *)
Definition startCloseStrategy (m : CloseStrategyManager) (now : Z)
  : CloseStrategyManager :=
  mkManager (config m) now true.

(** [stopCloseStrategy()] *)
Definition stopCloseStrategy (m : CloseStrategyManager)
  : CloseStrategyManager :=
  mkManager (config m) (orderStartTime m) false.

Definition is_sell (s : Side) : bool :=
  match s with SELL => true | BUY => false end.

(** The fees on the entry notional, as [calculateClosePrice] computes
    them. *)
Definition openFee (entryPrice amt : Q) : Q :=
  (entryPrice * amt) * Fee.LIMIT_MAKER.
Definition closeFee (entryPrice amt : Q) : Q :=
  (entryPrice * amt) * Fee.MARKET_TAKER.

(** [const isTimeout = this.isActive && (now - this.orderStartTime) >
    this.config.timeoutMs] *)
Definition timed_out (m : CloseStrategyManager) (now : Z) : bool :=
  isActive m
  && JsCmp.gt (inject_Z (now - orderStartTime m)) (timeoutMs (config m)).

(** [calculateClosePrice(entryPrice, amount, side, currentBid,
    currentAsk)], the clock reading being [now]. *)
Definition calculateClosePrice (m : CloseStrategyManager) (now : Z)
    (entryPrice amt : Q) (sd : Side) (currentBid currentAsk : Q)
  : CloseOrderInfo :=
  if timed_out m now && fallbackToOriginal (config m)
  then mkInfo sd (if is_sell sd then currentBid else currentAsk) amt 0
              true original
  else
    let notional := entryPrice * amt in
    let openFee := notional * Fee.LIMIT_MAKER in
    let closeFee := notional * Fee.MARKET_TAKER in
    let totalFees := openFee + closeFee in
    let minProfit := totalFees + notional * minProfitMargin (config m) in
    let closePrice :=
      if is_sell sd
      then Qmin (entryPrice + minProfit / amt) currentBid
      else Qmax (entryPrice - minProfit / amt) currentAsk in
    mkInfo sd closePrice amt minProfit false profit_cover.

(** The result of a computation that did not fall back. *)
Definition profit_cover_info (m : CloseStrategyManager)
    (entryPrice amt : Q) (sd : Side) (currentBid currentAsk : Q)
  : CloseOrderInfo :=
  let required :=
    openFee entryPrice amt + closeFee entryPrice amt
    + entryPrice * amt * minProfitMargin (config m) in
  mkInfo sd
    (if is_sell sd then Qmin (entryPrice + required / amt) currentBid
     else Qmax (entryPrice - required / amt) currentAsk)
    amt required false profit_cover.

Definition is_profit_cover (s : Strategy) : bool :=
  match s with profit_cover => true | original => false end.

(** The profit if the position were closed at the current best price. *)
Definition potentialProfit (entryPrice amt : Q) (sd : Side)
    (currentBid currentAsk : Q) : Q :=
  let currentPrice := if is_sell sd then currentBid else currentAsk in
  if is_sell sd then (currentPrice - entryPrice) * amt
  else (entryPrice - currentPrice) * amt.

(** [shouldUseMarketClose(entryPrice, amount, side, currentBid,
    currentAsk)] *)
Definition shouldUseMarketClose (m : CloseStrategyManager) (now : Z)
    (entryPrice amt : Q) (sd : Side) (currentBid currentAsk : Q) : bool :=
  let closeInfo :=
    calculateClosePrice m now entryPrice amt sd currentBid currentAsk in
  if is_profit_cover (strategy closeInfo)
  then JsCmp.lt (potentialProfit entryPrice amt sd currentBid currentAsk)
                (minProfitRequired closeInfo)
  else isTimeout closeInfo.

(** The result of [getStrategyStatus]. *)
Record StrategyStatus : Type := mkStatus {
  status_isActive : bool;
  elapsedTime : Z;
  status_isTimeout : bool;
  remainingTime : Q
}.

(** [getStrategyStatus()], the clock reading being [now]. *)
Definition getStrategyStatus (m : CloseStrategyManager) (now : Z)
  : StrategyStatus :=
  let elapsed := if isActive m then (now - orderStartTime m)%Z else 0%Z in
  let timeout :=
    isActive m && JsCmp.gt (inject_Z elapsed) (timeoutMs (config m)) in
  let remaining := Qmax 0 (timeoutMs (config m) - inject_Z elapsed) in
  mkStatus (isActive m) elapsed timeout remaining.

(** The advice strings of [getStrategyAdvice]. *)
Inductive StrategyAdvice : Type :=
| Running (remainingSeconds : Z)   (* "平仓策略运行中，剩余时间: s秒" *)
| TimedOutFellBack                 (* "平仓策略超时，已回退到原策略" *)
| NotActive.                       (* "平仓策略未激活" *)

(** [getStrategyAdvice()], the clock reading being [now]. *)
Definition getStrategyAdvice (m : CloseStrategyManager) (now : Z)
  : list StrategyAdvice :=
  let status := getStrategyStatus m now in
  (if status_isActive status && negb (status_isTimeout status)
   then [Running (Qceiling (remainingTime status / 1000))] else [])
  ++ (if status_isTimeout status then [TimedOutFellBack] else [])
  ++ (if negb (status_isActive status) then [NotActive] else []).

End Close.

(** ** Fee-aware close strategy, the arithmetic in binary64 *)

Module Close64.

Import Close.

(** [ASTER_FEE_RATES.LIMIT_MAKER] and [ASTER_FEE_RATES.MARKET_TAKER]:
    the binary64 values of the literals [0.0001] and [0.00035]. *)
Definition LIMIT_MAKER : Q := Binary64.round Fee.LIMIT_MAKER.
Definition MARKET_TAKER : Q := Binary64.round Fee.MARKET_TAKER.

(** The constructor: the defaults, overridden by the fields given. *)
Definition new (c : PartialConfig) : CloseStrategyManager :=
  mkManager
    (mkConfig (or_default (minProfitMargin_opt c)
                          (Binary64.round (1 # 10000)))
              (or_default (timeoutMs_opt c) 60000)
              (or_default (fallbackToOriginal_opt c) true))
    0%Z false.

(** The fees on the entry notional, as [calculateClosePrice] computes
    them. *)
Definition openFee (entryPrice amt : Q) : Q :=
  Binary64.mul (Binary64.mul entryPrice amt) LIMIT_MAKER.
Definition closeFee (entryPrice amt : Q) : Q :=
  Binary64.mul (Binary64.mul entryPrice amt) MARKET_TAKER.

(** [calculateClosePrice(entryPrice, amount, side, currentBid,
    currentAsk)], the clock reading being [now].  [Math.min] and
    [Math.max] select one of their arguments. *)
Definition calculateClosePrice (m : CloseStrategyManager) (now : Z)
    (entryPrice amt : Q) (sd : Side) (currentBid currentAsk : Q)
  : CloseOrderInfo :=
  if timed_out m now && fallbackToOriginal (config m)
  then mkInfo sd (if is_sell sd then currentBid else currentAsk) amt 0
              true original
  else
    let notional := Binary64.mul entryPrice amt in
    let openFee := Binary64.mul notional LIMIT_MAKER in
    let closeFee := Binary64.mul notional MARKET_TAKER in
    let totalFees := Binary64.add openFee closeFee in
    let minProfit :=
      Binary64.add totalFees
                   (Binary64.mul notional (minProfitMargin (config m))) in
    let closePrice :=
      if is_sell sd
      then Qmin (Binary64.add entryPrice (Binary64.div minProfit amt))
                currentBid
      else Qmax (Binary64.sub entryPrice (Binary64.div minProfit amt))
                currentAsk in
    mkInfo sd closePrice amt minProfit false profit_cover.

End Close64.

(** ** Volume admission controller (src/unnamed/part_003) *)

Module Volume.

(** The fields of [VolumeStrategyConfig] that the controller reads.
    [volumeStats] is only written, by [updateVolumeStats], and is left
    out. *)
Record VolumeStrategyConfig : Type := mkConfig {
  maxVolumePerMinute : Q;
  targetVolumePerHour : Q;
  minTradeInterval : Q;
  maxPositionHoldTime : Q;
  quickCloseThreshold : Q;
  maxDrawdownPerTrade : Q;
  aggressivePricing : bool;
  priceSpreadTolerance : Q;
  marketMakingDepth : Q
}.

(** The defaults of the constructor. *)
Definition defaultConfig : VolumeStrategyConfig :=
  mkConfig 100 5000 1000 30000 (1 # 1000) (2 # 1000) true (5 # 10000) 1.

Record Trade : Type := mkTrade {
  timestamp : Z;
  volume : Q;
  pnl : Q;
  holdTime : Q;
  isMaker : bool
}.

Record VolumeStrategyOptimizer : Type := mkOptimizer {
  config : VolumeStrategyConfig;
  tradeHistory : list Trade;
  lastTradeTime : Z;
  sessionStartTime : Z
}.

(** The constructor, [c] being the defaults overridden by the fields
    given and [now] the clock reading. *)
Definition new (c : VolumeStrategyConfig) (now : Z)
  : VolumeStrategyOptimizer :=
  mkOptimizer c [] 0%Z now.

Inductive Reason : Type :=
| IntervalTooShort (elapsed : Z) (limit : Q)   (* "交易间隔过短: e ms < l ms" *)
| VolumeLimitExceeded (total limit : Q).       (* "超过每分钟交易量限制: t > l" *)

Record Admission : Type := mkAdmission {
  allowed : bool;
  reason : option Reason;
  suggestedVolume : option Q
}.

(** [getRecentVolume(timeWindow)], the clock reading being [now]. *)
Definition getRecentVolume (o : VolumeStrategyOptimizer) (now : Z)
    (timeWindow : Q) : Q :=
  fold_left (fun sum t => sum + volume t)
    (filter (fun t => JsCmp.le (inject_Z (now - timestamp t)) timeWindow)
            (tradeHistory o))
    0.

(** [canExecuteTrade(proposedVolume)].  The clock is read twice: [now]
    by the method itself and [now'] inside [getRecentVolume]. *)
Definition canExecuteTrade (o : VolumeStrategyOptimizer) (now now' : Z)
    (proposedVolume : Q) : Admission :=
  let timeSinceLastTrade := (now - lastTradeTime o)%Z in
  if JsCmp.lt (inject_Z timeSinceLastTrade) (minTradeInterval (config o))
  then mkAdmission false
         (Some (IntervalTooShort timeSinceLastTrade
                                 (minTradeInterval (config o))))
         None
  else
    let recentVolume := getRecentVolume o now' 60000 in
    if JsCmp.gt (recentVolume + proposedVolume)
                (maxVolumePerMinute (config o))
    then
      let suggested :=
        Qmax (1 # 1000) (maxVolumePerMinute (config o) - recentVolume) in
      mkAdmission false
        (Some (VolumeLimitExceeded (recentVolume + proposedVolume)
                                   (maxVolumePerMinute (config o))))
        (Some suggested)
    else mkAdmission true None None.

(** [recordTrade(volume, pnl, holdTime, isMaker)], the clock reading
    being [now]. *)
Definition recordTrade (o : VolumeStrategyOptimizer) (now : Z)
    (v p h : Q) (mk : bool) : VolumeStrategyOptimizer :=
  mkOptimizer (config o) (tradeHistory o ++ [mkTrade now v p h mk]) now
              (sessionStartTime o).

(** [shouldQuickClose(currentPnl, holdTime)] *)
Definition shouldQuickClose (o : VolumeStrategyOptimizer)
    (currentPnl hold : Q) : bool :=
  if JsCmp.ge (Qabs currentPnl) (quickCloseThreshold (config o)) then true
  else if JsCmp.ge hold (maxPositionHoldTime (config o)) then true
  else if JsCmp.le currentPnl (- maxDrawdownPerTrade (config o)) then true
  else false.

(** [resetSession()] *)
Definition resetSession (o : VolumeStrategyOptimizer) (now : Z)
  : VolumeStrategyOptimizer :=
  mkOptimizer (config o) [] 0%Z now.

(** Whether an admission was refused on the volume cap. *)
Definition rejected_on_volume (a : Admission) : bool :=
  match reason a with
  | Some (VolumeLimitExceeded _ _) => negb (allowed a)
  | _ => false
  end.

(** [getSuggestedTradeSize()].  The clock is read twice: [now] inside
    [getRecentVolume] and [now'] for the time left in the minute.  [%]
    is the remainder whose sign is that of the dividend. *)
Definition getSuggestedTradeSize (o : VolumeStrategyOptimizer)
    (now now' : Z) : Q :=
  let recentVolume := getRecentVolume o now 60000 in
  let remainingVolume := maxVolumePerMinute (config o) - recentVolume in
  let timeRemaining :=
    (60000 - Z.rem (now' - sessionStartTime o) 60000)%Z in
  let volumePerSecond := remainingVolume / (inject_Z timeRemaining / 1000) in
  Qmax (1 # 1000) (Qmin (1 # 100) (volumePerSecond * 2)).

(** A session in which every trade recorded was first admitted by
    [canExecuteTrade] for the volume recorded, at one clock reading that
    does not run backwards.  [Session o t] says that [o] is such a
    session whose last clock reading is [t]. *)
Inductive Session : VolumeStrategyOptimizer -> Z -> Prop :=
| Session_new (c : VolumeStrategyConfig) (now : Z) :
    Session (new c now) now
| Session_reset (o : VolumeStrategyOptimizer) (t now : Z) :
    Session o t -> (t <= now)%Z ->
    Session (resetSession o now) now
| Session_trade (o : VolumeStrategyOptimizer) (t now : Z)
                 (v p h : Q) (mk : bool) :
    Session o t -> (t <= now)%Z -> 0 <= v ->
    allowed (canExecuteTrade o now now v) = true ->
    Session (recordTrade o now v p h mk) now.

End Volume.

(** ** Volume admission controller, the arithmetic in binary64 *)

Module Volume64.

Import Volume.

(** The literal [0.001] of [canExecuteTrade]. *)
Definition minimumSuggestion : Q := Binary64.round (1 # 1000).

(** [getRecentVolume(timeWindow)], the clock reading being [now]: the
    volumes are added from 0 in the order of the history. *)
Definition getRecentVolume (o : VolumeStrategyOptimizer) (now : Z)
    (timeWindow : Q) : Q :=
  fold_left (fun sum t => Binary64.add sum (volume t))
    (filter (fun t => JsCmp.le (inject_Z (now - timestamp t)) timeWindow)
            (tradeHistory o))
    0.

(** [canExecuteTrade(proposedVolume)].  The clock is read twice: [now]
    by the method itself and [now'] inside [getRecentVolume]. *)
Definition canExecuteTrade (o : VolumeStrategyOptimizer) (now now' : Z)
    (proposedVolume : Q) : Admission :=
  let timeSinceLastTrade := (now - lastTradeTime o)%Z in
  if JsCmp.lt (inject_Z timeSinceLastTrade) (minTradeInterval (config o))
  then mkAdmission false
         (Some (IntervalTooShort timeSinceLastTrade
                                 (minTradeInterval (config o))))
         None
  else
    let recentVolume := getRecentVolume o now' 60000 in
    if JsCmp.gt (Binary64.add recentVolume proposedVolume)
                (maxVolumePerMinute (config o))
    then
      let suggested :=
        Qmax minimumSuggestion
             (Binary64.sub (maxVolumePerMinute (config o)) recentVolume) in
      mkAdmission false
        (Some (VolumeLimitExceeded
                 (Binary64.add recentVolume proposedVolume)
                 (maxVolumePerMinute (config o))))
        (Some suggested)
    else mkAdmission true None None.

End Volume64.

(** ** Resilient request layer (src/src/utils/http.ts) *)

Module Http.

Record RetryPolicy : Type := mkPolicy {
  maxRetries : nat;
  baseDelayMs : Q;
  maxDelayMs : Q;
  retryOnStatuses : list Z
}.

(** A [Response], as far as [safeFetch] looks at it: the two
    properties [response.ok] and [response.status]. *)
Record Response : Type := mkResponse {
  ok : bool;
  status : Z
}.


(** What [fetch] throws: a transport failure or an abort. *)
Record Error : Type := mkError {
  error_id : nat
}.

(** How a promise settles: [fetch] resolves with a response or rejects
    with an error, and so does [safeFetch]. *)
Inductive Outcome : Type :=
| Responded (r : Response)
| Threw (e : Error).

(** The surroundings of one call of [safeFetch]: the outcome of the
    k-th call of [fetch] and the value of the k-th call of
    [Math.random()], both counted from 0.  An abort by the timeout timer
    shows as a [Threw] outcome. *)
Record World : Type := mkWorld {
  fetch : nat -> Outcome;
  random : nat -> Q
}.

(** [2 ** attempt] *)
Definition pow2 (attempt : nat) : Q := Qpower 2 (Z.of_nat attempt).

(** [computeBackoff(attempt, base, max)], [rnd] being the value that
    [Math.random()] returns. *)
Definition computeBackoff (rnd : Q) (attempt : nat) (base max : Q) : Q :=
  let jitter := rnd * base in
  Qmin max (inject_Z (Qfloor (base * pow2 attempt + jitter))).

(** [retryStatuses.has(status)] *)
Definition has (statuses : list Z) (s : Z) : bool :=
  existsb (Z.eqb s) statuses.

(** The variables of the loop, with what has been done so far. *)
Record LoopState : Type := mkLoopState {
  attempt : nat;
  fetches : nat;         (* calls of fetch made *)
  draws : nat;           (* calls of Math.random made *)
  slept : list Q         (* the delays slept, in order *)
}.

(** The end of a call of [safeFetch]. *)
Record Run : Type := mkRun {
  result : Outcome;      (* the response returned or the error thrown *)
  attempts : nat;        (* calls of fetch made in total *)
  delays : list Q        (* the delays slept, in order *)
}.

(** The [while (true)] loop; [fuel] bounds the number of iterations. *)
Fixpoint retry_loop (fuel : nat) (w : World) (maxRetries : nat)
    (baseDelay maxDelay : Q) (retryStatuses : list Z) (st : LoopState)
  : option Run :=
  match fuel with
  | O => None
  | S fuel' =>
      match fetch w (fetches st) with
      | Responded response =>
          if negb (ok response)
             && has retryStatuses (status response)
             && (attempt st <? maxRetries)%nat
          then
            let delay :=
              computeBackoff (random w (draws st)) (attempt st)
                             baseDelay maxDelay in
            retry_loop fuel' w maxRetries baseDelay maxDelay retryStatuses
              (mkLoopState (S (attempt st)) (S (fetches st)) (S (draws st))
                           (slept st ++ [delay]))
          else Some (mkRun (Responded response) (S (fetches st)) (slept st))
      | Threw error =>
          if (attempt st <? maxRetries)%nat
          then
            let delay :=
              computeBackoff (random w (draws st)) (attempt st)
                             baseDelay maxDelay in
            retry_loop fuel' w maxRetries baseDelay maxDelay retryStatuses
              (mkLoopState (S (attempt st)) (S (fetches st)) (S (draws st))
                           (slept st ++ [delay]))
          else Some (mkRun (Threw error) (S (fetches st)) (slept st))
      end
  end.

Definition defaultStatuses : list Z := [408; 429; 500; 502; 503; 504]%Z.

Definition policy_maxRetries (retry : option RetryPolicy) : nat :=
  match retry with Some p => maxRetries p | None => O end.
Definition policy_baseDelay (retry : option RetryPolicy) : Q :=
  match retry with Some p => baseDelayMs p | None => 300 end.
Definition policy_maxDelay (retry : option RetryPolicy) : Q :=
  match retry with Some p => maxDelayMs p | None => 3000 end.
Definition policy_statuses (retry : option RetryPolicy) : list Z :=
  match retry with Some p => retryOnStatuses p | None => defaultStatuses end.

(** [safeFetch(input, options)], [retry] being [options.retry]. *)
Definition safeFetch (fuel : nat) (w : World) (retry : option RetryPolicy)
  : option Run :=
  retry_loop fuel w (policy_maxRetries retry) (policy_baseDelay retry)
    (policy_maxDelay retry) (policy_statuses retry)
    (mkLoopState O O O []).

(** The delay slept after the failed call number [n]: the call of
    [computeBackoff] made with [attempt = n] and the n-th random value. *)
Definition backoff (w : World) (base max : Q) (n : nat) : Q :=
  computeBackoff (random w n) n base max.

(** *** The result as the specification words it *)





End Http.

(** ** Position PnL (src/unnamed/part_002) *)

Module Pnl.

(** A [number] with its non-finite values. *)
Inductive Num : Type :=
| Fin (q : Q)
| PosInf
| NegInf
| NaN.

(** [number | null | undefined] *)
Inductive Arg : Type :=
| Undefined
| Null
| Value (n : Num).

(** Modelled from the spec: [PositionSnapshot] is declared in
    strategy.ts, which is not among the sources; the data model gives a
    position as [{symbol, positionAmt, entryPrice}], [positionAmt]
    signed. *)
Record PositionSnapshot : Type := mkPosition {
  symbol : string;
  positionAmt : Num;
  entryPrice : Num
}.

(** [x > 0] *)
Definition gt0 (x : Num) : bool :=
  match x with
  | Fin q => JsCmp.gt q 0
  | PosInf => true
  | NegInf | NaN => false
  end.

(** [Number.isFinite(x)]: no coercion, so [null] and [undefined] are
    not finite. *)
Definition isFinite (x : Arg) : bool :=
  match x with
  | Value (Fin _) => true
  | _ => false
  end.

(** The value of an argument in arithmetic. *)
Definition toNumber (x : Arg) : Num :=
  match x with
  | Value n => n
  | Null => Fin 0
  | Undefined => NaN
  end.

(** [Math.abs] *)
Definition abs (x : Num) : Num :=
  match x with
  | Fin q => Fin (Qabs q)
  | PosInf | NegInf => PosInf
  | NaN => NaN
  end.

(** [a - b] *)
Definition sub (a b : Num) : Num :=
  match a, b with
  | NaN, _ | _, NaN => NaN
  | Fin x, Fin y => Fin (x - y)
  | PosInf, PosInf | NegInf, NegInf => NaN
  | PosInf, _ => PosInf
  | NegInf, _ => NegInf
  | Fin _, PosInf => NegInf
  | Fin _, NegInf => PosInf
  end.

(** An infinity of the sign of [q], [NaN] for 0. *)
Definition inf_signed (positive : bool) (q : Q) : Num :=
  if JsCmp.gt q 0 then (if positive then PosInf else NegInf)
  else if JsCmp.lt q 0 then (if positive then NegInf else PosInf)
  else NaN.

(** [a * b] *)
Definition mul (a b : Num) : Num :=
  match a, b with
  | NaN, _ | _, NaN => NaN
  | Fin x, Fin y => Fin (x * y)
  | Fin x, PosInf | PosInf, Fin x => inf_signed true x
  | Fin x, NegInf | NegInf, Fin x => inf_signed false x
  | PosInf, PosInf | NegInf, NegInf => PosInf
  | PosInf, NegInf | NegInf, PosInf => NegInf
  end.

(** [computePositionPnl(position, bestBid, bestAsk, totalFees = 0)];
    [totalFees] is [None] when the argument is left out. *)
Definition computePositionPnl (position : PositionSnapshot)
    (bestBid bestAsk : Arg) (totalFees : option Num) : Num :=
  let fees := match totalFees with Some f => f | None => Fin 0 end in
  let priceForPnl := if gt0 (positionAmt position) then bestBid else bestAsk in
  if negb (isFinite priceForPnl) then Fin 0
  else
    let absAmt := abs (positionAmt position) in
    let grossPnl :=
      if gt0 (positionAmt position)
      then mul (sub (toNumber priceForPnl) (entryPrice position)) absAmt
      else mul (sub (entryPrice position) (toNumber priceForPnl)) absAmt in
    sub grossPnl fees.

(** [computeNetPnl(position, bestBid, bestAsk, tradeFees = 0)] *)
Definition computeNetPnl (position : PositionSnapshot)
    (bestBid bestAsk : Arg) (tradeFees : option Num) : Num :=
  computePositionPnl position bestBid bestAsk
    (Some (match tradeFees with Some f => f | None => Fin 0 end)).

(** [computeGrossPnl(position, bestBid, bestAsk)] *)
Definition computeGrossPnl (position : PositionSnapshot)
    (bestBid bestAsk : Arg) : Num :=
  let priceForPnl := if gt0 (positionAmt position) then bestBid else bestAsk in
  if negb (isFinite priceForPnl) then Fin 0
  else
    let absAmt := abs (positionAmt position) in
    if gt0 (positionAmt position)
    then mul (sub (toNumber priceForPnl) (entryPrice position)) absAmt
    else mul (sub (entryPrice position) (toNumber priceForPnl)) absAmt.

End Pnl.

(** ** Trade fees (src/unnamed/part_001, first part) *)

Module TradeFees.

Record FeeConfig : Type := mkFeeConfig {
  makerFeeRate : Q;
  takerFeeRate : Q
}.





(** [calculateNetPnl(grossPnl, totalFees)] *)
Definition calculateNetPnl (grossPnl totalFees : Q) : Q :=
  grossPnl - totalFees.



End TradeFees.

(** ** Strategy optimizer (src/unnamed/part_002, first part) *)

Module Optimizer.

Record MakerParams : Type := mkMaker {
  bidOffset : Q;
  askOffset : Q;
  tradeAmount : Q;
  lossLimit : Q;
  refreshInterval : Q
}.

Record TrendParams : Type := mkTrend {
  trend_lossLimit : Q;
  trailingProfit : Q;
  profitLockTrigger : Q;
  profitLockOffset : Q;
  pollInterval : Q
}.

Record RiskParams : Type := mkRisk {
  maxPositionSize : Q;
  maxDailyLoss : Q;
  maxConsecutiveLosses : Q;
  cooldownPeriod : Q
}.

Record OptimizedConfig : Type := mkOptimized {
  maker : MakerParams;
  trend : TrendParams;
  risk : RiskParams
}.

Definition or_default (o : option Q) (d : Q) : Q :=
  match o with Some q => q | None => d end.

(** [getOptimizedConfig(marketVolatility = 0.02, accountBalance = 1000,
    currentDrawdown = 0)]; an argument left out is [None]. *)
Definition getOptimizedConfig
    (marketVolatility accountBalance currentDrawdown : option Q)
  : OptimizedConfig :=
  let marketVolatility := or_default marketVolatility (2 # 100) in
  let accountBalance := or_default accountBalance 1000 in
  let currentDrawdown := or_default currentDrawdown 0 in
  let volatilityMultiplier :=
    Qmax (5 # 10) (Qmin 2 (marketVolatility / (2 # 100))) in
  let balanceMultiplier := Qmax (1 # 10) (Qmin 1 (accountBalance / 1000)) in
  let riskMultiplier :=
    if JsCmp.gt currentDrawdown (5 # 100) then 5 # 10 else 1 in
  mkOptimized
    (mkMaker
       ((1 # 10000) * volatilityMultiplier)
       ((1 # 10000) * volatilityMultiplier)
       (Qmax (5 # 10000) ((1 # 1000) * balanceMultiplier * riskMultiplier))
       (Qmax (1 # 100) ((3 # 100) * riskMultiplier))
       (Qmax 2000 (1500 * volatilityMultiplier)))
    (mkTrend
       (Qmax (15 # 1000) ((3 # 100) * riskMultiplier))
       (Qmax (1 # 10) ((2 # 10) * riskMultiplier))
       (Qmax (5 # 100) ((1 # 10) * riskMultiplier))
       (Qmax (2 # 100) ((5 # 100) * riskMultiplier))
       (Qmax 1000 (500 * volatilityMultiplier)))
    (mkRisk
       (Qmin (1 # 100) ((5 # 1000) * balanceMultiplier))
       (Qmin (5 # 100) ((1 # 10) * accountBalance * riskMultiplier))
       (Qmax 3 (5 * riskMultiplier))
       (Qmax 30000 (60000 * riskMultiplier))).

Record StrategyAnalysis : Type := mkAnalysis {
  winRate : Q;
  avgProfit : Q;
  avgLoss : Q;
  profitFactor : Pnl.Num;       (* [Infinity] when nothing was lost *)
  maxDrawdown : Q;
  sharpeRatio : Q;
  totalTrades : nat;
  profitableTrades : nat;
  losingTrades : nat
}.

(** [trades.reduce((sum, t) => sum + t.pnl, 0)] *)
Definition pnl_sum (trades : list Risk.Trade) : Q :=
  fold_left (fun sum t => sum + Risk.pnl t) trades 0.

(** The variables of the drawdown loop of [analyzeStrategy]. *)
Record DrawdownVars : Type := mkVars {
  v_maxDrawdown : Q;
  v_peak : Q;
  v_runningPnl : Q
}.

(** One iteration of [for (const trade of trades)]. *)
Definition drawdown_body (v : DrawdownVars) (trade : Risk.Trade)
  : DrawdownVars :=
  let runningPnl := v_runningPnl v + Risk.pnl trade in
  let peak := if JsCmp.gt runningPnl (v_peak v) then runningPnl else v_peak v in
  let drawdown := peak - runningPnl in
  let maxDrawdown :=
    if JsCmp.gt drawdown (v_maxDrawdown v) then drawdown
    else v_maxDrawdown v in
  mkVars maxDrawdown peak runningPnl.

(** [analyzeStrategy(trades)].  The elements of [trades] have the
    fields of the entries of the risk manager's history.  [sqrt] stands
    for [Math.sqrt], which has no rational value in general. *)
Definition analyzeStrategy (sqrt : Q -> Q) (trades : list Risk.Trade)
  : StrategyAnalysis :=
  match trades with
  | [] => mkAnalysis 0 0 0 (Pnl.Fin 0) 0 0 O O O
  | _ :: _ =>
      let profitable := filter (fun t => JsCmp.gt (Risk.pnl t) 0) trades in
      let losing := filter (fun t => JsCmp.lt (Risk.pnl t) 0) trades in
      let totalProfit := pnl_sum profitable in
      let totalLoss := Qabs (pnl_sum losing) in
      let n := Risk.of_count (length trades) in
      let winRate := Risk.of_count (length profitable) / n * 100 in
      let avgProfit :=
        if (0 <? length profitable)%nat
        then totalProfit / Risk.of_count (length profitable) else 0 in
      let avgLoss :=
        if (0 <? length losing)%nat
        then totalLoss / Risk.of_count (length losing) else 0 in
      let profitFactor :=
        if JsCmp.gt totalLoss 0 then Pnl.Fin (totalProfit / totalLoss)
        else if JsCmp.gt totalProfit 0 then Pnl.PosInf else Pnl.Fin 0 in
      let vars := fold_left drawdown_body trades (mkVars 0 0 0) in
      let avgReturn := pnl_sum trades / n in
      let variance :=
        fold_left
          (fun sum t =>
             sum + (Risk.pnl t - avgReturn) * (Risk.pnl t - avgReturn))
          trades 0 / n in
      let sharpe :=
        if JsCmp.gt variance 0 then avgReturn / sqrt variance else 0 in
      mkAnalysis winRate avgProfit avgLoss profitFactor
                 (v_maxDrawdown vars) sharpe
                 (length trades) (length profitable) (length losing)
  end.

(** [x < q] for a number that may be infinite. *)
Definition num_lt (x : Pnl.Num) (q : Q) : bool :=
  match x with
  | Pnl.Fin a => JsCmp.lt a q
  | Pnl.NegInf => true
  | Pnl.PosInf | Pnl.NaN => false
  end.

(** The strings of [getStrategyRecommendations]. *)
Inductive Recommendation : Type :=
| WinRateLow          (* "胜率过低，建议增加价格偏移以减少成交频率" *)
| ProfitFactorLow     (* "盈利因子小于1，建议优化止损和止盈设置" *)
| DrawdownLarge       (* "最大回撤过大，建议降低单笔交易量和止损限制" *)
| SharpeLow           (* "夏普比率过低，建议优化风险收益比" *)
| AvgLossLarge        (* "平均亏损过大，建议收紧止损设置" *)
| PerformingWell.     (* "策略表现良好，可以适当增加交易频率" *)

(** [getStrategyRecommendations(analysis)] *)
Definition getStrategyRecommendations (analysis : StrategyAnalysis)
  : list Recommendation :=
  let recommendations :=
    (if JsCmp.lt (winRate analysis) 40 then [WinRateLow] else [])
    ++ (if num_lt (profitFactor analysis) 1 then [ProfitFactorLow] else [])
    ++ (if JsCmp.gt (maxDrawdown analysis) (1 # 10)
        then [DrawdownLarge] else [])
    ++ (if JsCmp.lt (sharpeRatio analysis) (5 # 10) then [SharpeLow] else [])
    ++ (if JsCmp.gt (avgLoss analysis) (Qabs (avgProfit analysis) * 2)
        then [AvgLossLarge] else []) in
  match recommendations with
  | [] => [PerformingWell]
  | _ :: _ => recommendations
  end.

End Optimizer.

(** ** Trade tracker (src/src/utils/trade-tracker.ts) *)

Module Tracker.

(** The [id] of a record,
    [`${orderId}_${Date.now()}_${Math.random().toString(36).substr(2, 9)}`],
    kept as its three parts. *)
Record TradeId : Type := mkId {
  id_orderId : Z;
  id_time : Z;
  id_salt : string
}.

Record TradeRecord : Type := mkRecord {
  id : TradeId;
  timestamp : Z;
  symbol : string;
  side : Close.Side;
  price : Q;
  amount : Q;
  notional : Q;
  isMaker : bool;
  orderType : string;
  fee : Q;
  feeRate : Q;
  feeAsset : string;
  orderId : Z;
  clientOrderId : option string
}.

(** The argument of [addTrade]: a record without [id], [timestamp],
    [notional], [fee] and [feeRate]. *)
Record TradeInput : Type := mkInput {
  in_symbol : string;
  in_side : Close.Side;
  in_price : Q;
  in_amount : Q;
  in_isMaker : bool;
  in_orderType : string;
  in_feeAsset : string;
  in_orderId : Z;
  in_clientOrderId : option string
}.

Record TradeTracker : Type := mkTracker {
  trades : list TradeRecord;
  feeConfig : TradeFees.FeeConfig
}.

(** The constructor. *)
Definition new (feeConfig : option TradeFees.FeeConfig) : TradeTracker :=
  mkTracker []
    (match feeConfig with
     | Some c => c
     | None => TradeFees.mkFeeConfig (2 # 10000) (4 # 10000)
     end).

(** [addTrade(trade)].  The clock is read twice, [now] for the id and
    [now'] for the timestamp; [salt] is the random part of the id. *)
Definition addTrade (t : TradeTracker) (now now' : Z) (salt : string)
    (trade : TradeInput) : TradeTracker :=
  let notional := in_price trade * in_amount trade in
  let feeInfo :=
    Fee.calculateOrderFee (in_orderType trade) (in_isMaker trade) notional in
  let record :=
    mkRecord (mkId (in_orderId trade) now salt) now'
      (in_symbol trade) (in_side trade) (in_price trade) (in_amount trade)
      notional (in_isMaker trade) (in_orderType trade)
      (Fee.feeAmount feeInfo) (Fee.feeRate feeInfo) "USDT"
      (in_orderId trade) (in_clientOrderId trade) in
  mkTracker (trades t ++ [record]) (feeConfig t).

(** [getAllTrades()] *)
Definition getAllTrades (t : TradeTracker) : list TradeRecord := trades t.

(** [getTradesInRange(startTime, endTime)] *)
Definition getTradesInRange (t : TradeTracker) (startTime endTime : Z)
  : list TradeRecord :=
  filter (fun trade => (startTime <=? timestamp trade)%Z
                       && (timestamp trade <=? endTime)%Z)
         (trades t).

Record TradeStats : Type := mkStats {
  totalTrades : nat;
  totalVolume : Q;
  totalFees : Q;
  makerFees : Q;
  takerFees : Q;
  limitOrderFees : Q;
  marketOrderFees : Q;
  grossPnl : Q;
  netPnl : Q;
  winRate : Q;
  avgTradeSize : Q;
  avgFeeRate : Q;
  feeBreakdown : Fee.Breakdown
}.

(** [calculateGrossPnl()] *)
Definition calculateGrossPnl (t : TradeTracker) : Q := 0.

(** [list.reduce((sum, trade) => sum + trade.fee, 0)] *)
Definition fee_sum (l : list TradeRecord) : Q :=
  fold_left (fun sum trade => sum + fee trade) l 0.

(** [getStats()] *)
Definition getStats (t : TradeTracker) : TradeStats :=
  match trades t with
  | [] => mkStats O 0 0 0 0 0 0 0 0 0 0 0 []
  | _ :: _ =>
      let totalTrades := length (trades t) in
      let totalVolume :=
        fold_left (fun sum trade => sum + notional trade) (trades t) 0 in
      let totalFees := fee_sum (trades t) in
      let makerFees := fee_sum (filter (fun trade => isMaker trade) (trades t)) in
      let takerFees :=
        fee_sum (filter (fun trade => negb (isMaker trade)) (trades t)) in
      let limitOrderFees :=
        fee_sum (filter (fun trade => String.eqb (orderType trade) "LIMIT")
                        (trades t)) in
      let marketOrderFees :=
        fee_sum (filter (fun trade => String.eqb (orderType trade) "MARKET")
                        (trades t)) in
      let feeBreakdown :=
        fold_left
          (fun b trade =>
             let key := Fee.breakdown_key (orderType trade) (isMaker trade) in
             Fee.assign key (Fee.lookup_or_zero key b + fee trade) b)
          (trades t) [] in
      let grossPnl := calculateGrossPnl t in
      let netPnl := grossPnl - totalFees in
      let profitableTrades := length (filter (fun _ => true) (trades t)) in
      let winRate :=
        if (0 <? totalTrades)%nat
        then Risk.of_count profitableTrades / Risk.of_count totalTrades * 100
        else 0 in
      let avgTradeSize :=
        if (0 <? totalTrades)%nat
        then totalVolume / Risk.of_count totalTrades else 0 in
      let avgFeeRate :=
        if JsCmp.gt totalVolume 0 then totalFees / totalVolume * 100 else 0 in
      mkStats totalTrades totalVolume totalFees makerFees takerFees
              limitOrderFees marketOrderFees grossPnl netPnl winRate
              avgTradeSize avgFeeRate feeBreakdown
  end.

(** [clear()] *)
Definition clear (t : TradeTracker) : TradeTracker :=
  mkTracker [] (feeConfig t).

(** [array.slice(start)] for an integer [start]: a negative [start]
    counts from the end. *)
Definition slice_from {A : Type} (start : Z) (l : list A) : list A :=
  let len := Z.of_nat (length l) in
  let k := if (start <? 0)%Z then Z.max (len + start) 0
           else Z.min start len in
  skipn (Z.to_nat k) l.

(** [getRecentTrades(count = 10)], for an integer [count]; [None] when
    the argument is left out. *)
Definition getRecentTrades (t : TradeTracker) (count : option Z)
  : list TradeRecord :=
  let count := match count with Some c => c | None => 10%Z end in
  slice_from (- count) (trades t).



(** A tracker filled by [addTrade] alone, the k-th input being added at
    the clock readings and with the salt that [env] gives for [k]. *)
Fixpoint add_all (t : TradeTracker) (env : nat -> Z * Z * string) (k : nat)
    (inputs : list TradeInput) : TradeTracker :=
  match inputs with
  | [] => t
  | trade :: r =>
      let '(now, now', salt) := env k in
      add_all (addTrade t now now' salt trade) env (S k) r
  end.

End Tracker.

(** * Properties *)

(** ** The comparison operators *)

Section Comparisons.

Lemma lt_true (a b : Q) : JsCmp.lt a b = true <-> a < b.
Proof.
  unfold JsCmp.lt. rewrite negb_true_iff.
  split; intro H.
  - apply Qnot_le_lt. intro Hle. apply Qle_bool_iff in Hle. congruence.
  - destruct (Qle_bool b a) eqn:E; [| reflexivity].
    apply Qle_bool_iff in E. exfalso. apply (Qlt_not_le _ _ H E).
Qed.

Lemma lt_false (a b : Q) : JsCmp.lt a b = false <-> b <= a.
Proof.
  unfold JsCmp.lt. rewrite negb_false_iff. apply Qle_bool_iff.
Qed.

Lemma gt_true (a b : Q) : JsCmp.gt a b = true <-> b < a.
Proof. apply lt_true. Qed.

Lemma gt_false (a b : Q) : JsCmp.gt a b = false <-> a <= b.
Proof. apply lt_false. Qed.

Lemma ge_true (a b : Q) : JsCmp.ge a b = true <-> b <= a.
Proof. apply Qle_bool_iff. Qed.

Lemma ge_false (a b : Q) : JsCmp.ge a b = false <-> a < b.
Proof.
  unfold JsCmp.ge. split; intro H.
  - apply Qnot_le_lt. intro Hle. apply Qle_bool_iff in Hle. congruence.
  - destruct (Qle_bool b a) eqn:E; [| reflexivity].
    apply Qle_bool_iff in E. exfalso. apply (Qlt_not_le _ _ H E).
Qed.

Lemma le_true (a b : Q) : JsCmp.le a b = true <-> a <= b.
Proof. apply Qle_bool_iff. Qed.

Lemma ge_compat (a a' b b' : Q) :
  a == a' -> b == b' -> JsCmp.ge a b = JsCmp.ge a' b'.
Proof.
  intros Ha Hb.
  destruct (JsCmp.ge a b) eqn:E1, (JsCmp.ge a' b') eqn:E2; try reflexivity.
  - apply ge_true in E1. apply ge_false in E2. lra.
  - apply ge_false in E1. apply ge_true in E2. lra.
Qed.

Lemma Qmax_eq (a a' b b' : Q) :
  a == a' -> b == b' -> Qmax a b == Qmax a' b'.
Proof.
  intros Ha Hb.
  destruct (Q.max_spec a b) as [[? E1] | [? E1]],
           (Q.max_spec a' b') as [[? E2] | [? E2]];
    rewrite E1, E2; lra.
Qed.

Lemma Qmax_ge_l (a b : Q) : a <= Qmax a b.
Proof. destruct (Q.max_spec a b) as [[? E] | [? E]]; rewrite E; lra. Qed.

Lemma Qmax_ge_r (a b : Q) : b <= Qmax a b.
Proof. destruct (Q.max_spec a b) as [[? E] | [? E]]; rewrite E; lra. Qed.

(** [if b > a then b else a] is the maximum. *)
Lemma gt_select_max (a b : Q) :
  (if JsCmp.gt b a then b else a) == Qmax a b.
Proof.
  destruct (JsCmp.gt b a) eqn:E.
  - apply gt_true in E.
    destruct (Q.max_spec a b) as [[? E1] | [? E1]]; rewrite E1; lra.
  - apply gt_false in E.
    destruct (Q.max_spec a b) as [[? E1] | [? E1]]; rewrite E1; lra.
Qed.

Lemma fold_max_eq (l : list Q) (a b : Q) :
  a == b -> fold_left Qmax l a == fold_left Qmax l b.
Proof.
  revert a b. induction l as [| x l IH]; intros a b Hab; simpl.
  - exact Hab.
  - apply IH. apply Qmax_eq; [exact Hab | reflexivity].
Qed.

Lemma fold_max_ge_init (l : list Q) (a : Q) : a <= fold_left Qmax l a.
Proof.
  revert a. induction l as [| x l IH]; intros a; simpl.
  - lra.
  - eapply Qle_trans; [apply (Qmax_ge_l a x) | apply IH].
Qed.

End Comparisons.

(** ** Rounding to binary64 *)

Section Binary64Rounding.

Import Binary64.

Lemma pow2_pos (e : Z) : 0 < pow2 e.
Proof. apply Qpower_0_lt. reflexivity. Qed.

Lemma pow2_plus (a b : Z) : pow2 (a + b) == pow2 a * pow2 b.
Proof. apply Qpower_plus. discriminate. Qed.

Lemma pow2_le (a b : Z) : (a <= b)%Z -> pow2 a <= pow2 b.
Proof. intros H. apply Qpower_le_compat_l; [exact H | discriminate]. Qed.

Lemma pow2_lt (a b : Z) : (a < b)%Z -> pow2 a < pow2 b.
Proof. intros H. apply Qpower_lt_compat_l; [exact H | reflexivity]. Qed.

Lemma pow2_Z (e : Z) : (0 <= e)%Z -> pow2 e == inject_Z (2 ^ e).
Proof. intros H. unfold pow2. rewrite Zpower_Qpower by exact H. reflexivity. Qed.

(** The grid of exponent [j] contains the grid of any larger exponent. *)
Lemma grid_refine (k : Z) (c j : Z) :
  (c <= j)%Z ->
  inject_Z k * pow2 j == inject_Z (k * 2 ^ (j - c)) * pow2 c.
Proof.
  intros H.
  replace j with ((j - c) + c)%Z at 1 by lia.
  rewrite pow2_plus, (pow2_Z (j - c)) by lia.
  rewrite inject_Z_mult. ring.
Qed.

Lemma ilog2_spec (x : Q) :
  0 < x -> pow2 (ilog2 x) <= x /\ x < pow2 (ilog2 x + 1).
Proof.
  intros Hx. destruct x as [n d].
  assert (Hn : (0 < n)%Z).
  { unfold Qlt in Hx. simpl in Hx. lia. }
  unfold ilog2. cbn [Qnum Qden].
  set (a := Z.log2 n). set (b := Z.log2 (Zpos d)).
  assert (Ha0 : (0 <= a)%Z) by apply Z.log2_nonneg.
  assert (Hb0 : (0 <= b)%Z) by apply Z.log2_nonneg.
  destruct (Z.log2_spec n Hn) as [Ha1 Ha2]. fold a in Ha1, Ha2.
  destruct (Z.log2_spec (Zpos d) (Pos2Z.is_pos d)) as [Hb1 Hb2].
  fold b in Hb1, Hb2.
  assert (Hlo : pow2 (a - b - 1) < n # d).
  { replace (a - b - 1)%Z with (a + - (b + 1))%Z by lia.
    rewrite pow2_plus. unfold pow2 at 2. rewrite Qpower_opp.
    fold (pow2 (b + 1)). rewrite (pow2_Z a), (pow2_Z (b + 1)) by lia.
    apply Qlt_shift_div_r.
    - rewrite <- (pow2_Z (b + 1)) by lia. apply pow2_pos.
    - unfold Qlt, Qmult, inject_Z. cbn [Qnum Qden].
      rewrite !Z.mul_1_r. rewrite Pos.mul_1_r.
      replace (Z.succ b) with (b + 1)%Z in Hb2 by lia.
      nia. }
  assert (Hhi : n # d < pow2 (a - b + 1)).
  { replace (a - b + 1)%Z with ((a + 1) + - b)%Z by lia.
    rewrite pow2_plus. unfold pow2 at 2. rewrite Qpower_opp.
    fold (pow2 b). rewrite (pow2_Z (a + 1)), (pow2_Z b) by lia.
    apply Qlt_shift_div_l.
    - rewrite <- (pow2_Z b) by lia. apply pow2_pos.
    - unfold Qlt, Qmult, inject_Z. cbn [Qnum Qden].
      rewrite !Z.mul_1_r.
      replace (Z.succ a) with (a + 1)%Z in Ha2 by lia.
      nia. }
  destruct (Qle_bool (pow2 (a - b)) (n # d)) eqn:E.
  - apply Qle_bool_iff in E. split; [exact E | exact Hhi].
  - split; [apply Qlt_le_weak; exact Hlo |].
    replace (a - b - 1 + 1)%Z with (a - b)%Z by lia.
    apply Qnot_le_lt. intro H. apply Qle_bool_iff in H. congruence.
Qed.


Lemma Qabs_zero (x : Q) : Qabs x == 0 -> x == 0.
Proof. apply Qabs_case; intros; lra. Qed.

Lemma magnitude_comp (x y : Q) : x == y -> magnitude x = magnitude y.
Proof.
  intros H. unfold magnitude. rewrite (Qred_complete x y H). reflexivity.
Qed.

Lemma magnitude_spec (x : Q) :
  ~ x == 0 ->
  pow2 (magnitude x) <= Qabs x /\ Qabs x < pow2 (magnitude x + 1).
Proof.
  intros Hx. unfold magnitude.
  assert (E : Qabs (Qred x) == Qabs x).
  { apply Qabs_wd. apply Qred_correct. }
  assert (Hpos : 0 < Qabs (Qred x)).
  { pose proof (Qabs_nonneg x) as H.
    destruct (Qlt_le_dec 0 (Qabs x)) as [H0 | H0]; [lra |].
    exfalso. apply Hx. apply Qabs_zero. lra. }
  destruct (ilog2_spec _ Hpos) as [H1 H2].
  split; lra.
Qed.

Lemma magnitude_unique (x : Q) (e : Z) :
  pow2 e <= Qabs x -> Qabs x < pow2 (e + 1) -> magnitude x = e.
Proof.
  intros H1 H2.
  assert (Hx : ~ x == 0).
  { intros E. rewrite E in H1. pose proof (pow2_pos e).
    change (Qabs 0) with 0 in H1. lra. }
  destruct (magnitude_spec x Hx) as [M1 M2].
  destruct (Z.lt_trichotomy (magnitude x) e) as [Hlt | [Heq | Hgt]].
  - exfalso. pose proof (pow2_le (magnitude x + 1) e ltac:(lia)). lra.
  - exact Heq.
  - exfalso. pose proof (pow2_le (e + 1) (magnitude x) ltac:(lia)). lra.
Qed.

Lemma magnitude_le (x y : Q) :
  ~ x == 0 -> Qabs x <= Qabs y -> (magnitude x <= magnitude y)%Z.
Proof.
  intros Hx Hle.
  assert (Hy : ~ y == 0).
  { intros E. rewrite E in Hle. change (Qabs 0) with 0 in Hle.
    apply Hx. pose proof (Qabs_nonneg x).
    apply Qabs_zero. lra. }
  destruct (magnitude_spec x Hx) as [X1 X2].
  destruct (magnitude_spec y Hy) as [Y1 Y2].
  destruct (Z_le_gt_dec (magnitude x) (magnitude y)) as [H | H];
    [exact H | exfalso].
  pose proof (pow2_le (magnitude y + 1) (magnitude x) ltac:(lia)). lra.
Qed.

Lemma ulp_exponent_comp (x y : Q) :
  x == y -> ulp_exponent x = ulp_exponent y.
Proof.
  intros H. unfold ulp_exponent. rewrite (magnitude_comp x y H). reflexivity.
Qed.

Lemma ulp_exponent_le (x y : Q) :
  ~ x == 0 -> Qabs x <= Qabs y -> (ulp_exponent x <= ulp_exponent y)%Z.
Proof.
  intros Hx Hle. unfold ulp_exponent.
  pose proof (magnitude_le x y Hx Hle). lia.
Qed.

Lemma nearest_even_comp (m m' : Q) :
  m == m' -> nearest_even m = nearest_even m'.
Proof.
  intros H. unfold nearest_even.
  rewrite (Qfloor_comp m m' H).
  assert (E : m - inject_Z (Qfloor m') == m' - inject_Z (Qfloor m')).
  { rewrite H. reflexivity. }
  rewrite (Qcompare_comp _ _ E _ _ (Qeq_refl (1 # 2))). reflexivity.
Qed.

Lemma nearest_even_Z (k : Z) : nearest_even (inject_Z k) = k.
Proof.
  unfold nearest_even. rewrite Qfloor_Z.
  assert (E : inject_Z k - inject_Z k == 0) by ring.
  rewrite (Qcompare_comp _ _ E _ _ (Qeq_refl (1 # 2))). reflexivity.
Qed.

Lemma nearest_even_bounds (m : Q) :
  (Qfloor m <= nearest_even m <= Qfloor m + 1)%Z.
Proof.
  unfold nearest_even.
  destruct (Qcompare (m - inject_Z (Qfloor m)) (1 # 2));
    [destruct (Z.even (Qfloor m)) | |]; lia.
Qed.

Lemma nearest_even_le (m m' : Q) :
  m <= m' -> (nearest_even m <= nearest_even m')%Z.
Proof.
  intros H.
  pose proof (Qfloor_resp_le m m' H) as Hf.
  pose proof (nearest_even_bounds m) as B.
  pose proof (nearest_even_bounds m') as B'.
  destruct (Z.eq_dec (Qfloor m) (Qfloor m')) as [E | NE]; [| lia].
  unfold nearest_even. rewrite <- E.
  destruct (Qcompare (m - inject_Z (Qfloor m)) (1 # 2)) eqn:C;
    [apply Qeq_alt in C | apply Qlt_alt in C | apply Qgt_alt in C];
    (destruct (Qcompare (m' - inject_Z (Qfloor m)) (1 # 2)) eqn:C';
     [apply Qeq_alt in C' | apply Qlt_alt in C' | apply Qgt_alt in C']);
    try (destruct (Z.even (Qfloor m))); try lia; exfalso; lra.
Qed.

(** The nearest integer is at most one half away. *)
Lemma nearest_even_error (m : Q) :
  Qabs (inject_Z (nearest_even m) - m) <= 1 # 2.
Proof.
  pose proof (Qfloor_le m) as F1. pose proof (Qlt_floor m) as F2.
  rewrite inject_Z_plus in F2.
  unfold nearest_even.
  destruct (Qcompare (m - inject_Z (Qfloor m)) (1 # 2)) eqn:C;
    [apply Qeq_alt in C | apply Qlt_alt in C | apply Qgt_alt in C];
    try destruct (Z.even (Qfloor m));
    rewrite ?inject_Z_plus; change (inject_Z 1) with 1 in *;
    apply Qabs_Qle_condition; split; lra.
Qed.


Lemma round_comp (x y : Q) : x == y -> round x = round y.
Proof.
  intros H. unfold round. rewrite (ulp_exponent_comp x y H).
  assert (E : x / pow2 (ulp_exponent y) == y / pow2 (ulp_exponent y)).
  { rewrite H. reflexivity. }
  rewrite (nearest_even_comp _ _ E). reflexivity.
Qed.

Lemma scaled_back (x : Q) (c : Z) : x / pow2 c * pow2 c == x.
Proof. field. pose proof (pow2_pos c). lra. Qed.

(** Rounding does not cross a point of a grid at least as coarse as the
    one it rounds to. *)
Lemma round_le_grid (x : Q) (k j : Z) :
  x <= inject_Z k * pow2 j -> (ulp_exponent x <= j)%Z ->
  round x <= inject_Z k * pow2 j.
Proof.
  intros Hx Hj. unfold round. set (c := ulp_exponent x) in *.
  rewrite (grid_refine k c j Hj) in Hx |- *.
  pose proof (pow2_pos c) as Hc.
  apply Qmult_le_compat_r; [| lra].
  rewrite <- Zle_Qle.
  rewrite <- (nearest_even_Z (k * 2 ^ (j - c))).
  apply nearest_even_le.
  apply Qle_shift_div_r; [exact Hc | exact Hx].
Qed.

Lemma round_ge_grid (x : Q) (k j : Z) :
  inject_Z k * pow2 j <= x -> (ulp_exponent x <= j)%Z ->
  inject_Z k * pow2 j <= round x.
Proof.
  intros Hx Hj. unfold round. set (c := ulp_exponent x) in *.
  rewrite (grid_refine k c j Hj) in Hx |- *.
  pose proof (pow2_pos c) as Hc.
  apply Qmult_le_compat_r; [| lra].
  rewrite <- Zle_Qle.
  rewrite <- (nearest_even_Z (k * 2 ^ (j - c))) at 1.
  apply nearest_even_le.
  apply Qle_shift_div_l; [exact Hc | exact Hx].
Qed.

(** A point of such a grid is not moved. *)
Lemma round_grid (x : Q) (k j : Z) :
  x == inject_Z k * pow2 j -> (ulp_exponent x <= j)%Z -> round x == x.
Proof.
  intros Hx Hj. apply Qle_antisym.
  - apply Qle_trans with (inject_Z k * pow2 j); [| lra].
    apply round_le_grid; [lra | exact Hj].
  - apply Qle_trans with (inject_Z k * pow2 j); [lra |].
    apply round_ge_grid; [lra | exact Hj].
Qed.

Lemma round_0 : round 0 == 0.
Proof. vm_compute. reflexivity. Qed.

Lemma round_nonneg (x : Q) : 0 <= x -> 0 <= round x.
Proof.
  intros H.
  assert (E : inject_Z 0 * pow2 (ulp_exponent x) == 0) by ring.
  rewrite <- E. apply round_ge_grid; [lra | lia].
Qed.

Lemma round_nonpos (x : Q) : x <= 0 -> round x <= 0.
Proof.
  intros H.
  assert (E : inject_Z 0 * pow2 (ulp_exponent x) == 0) by ring.
  rewrite <- E. apply round_le_grid; [lra | lia].
Qed.


Lemma round_le_same_exponent (x y : Q) :
  x <= y -> ulp_exponent x = ulp_exponent y -> round x <= round y.
Proof.
  intros H E. unfold round. rewrite E.
  pose proof (pow2_pos (ulp_exponent y)) as Hc.
  apply Qmult_le_compat_r; [| lra].
  rewrite <- Zle_Qle. apply nearest_even_le.
  unfold Qdiv. apply Qmult_le_compat_r; [exact H |].
  apply Qinv_le_0_compat. lra.
Qed.

(** Rounding is monotone. *)
Lemma round_le (x y : Q) : x <= y -> round x <= round y.
Proof.
  intros H.
  destruct (Qlt_le_dec 0 x) as [Hx | Hx].
  - assert (Hxn : ~ x == 0) by lra. assert (Hyn : ~ y == 0) by lra.
    assert (Ax : Qabs x == x) by (apply Qabs_pos; lra).
    assert (Ay : Qabs y == y) by (apply Qabs_pos; lra).
    pose proof (ulp_exponent_le x y Hxn ltac:(lra)) as Hc.
    destruct (Z.eq_dec (ulp_exponent x) (ulp_exponent y)) as [E | NE];
      [apply round_le_same_exponent; assumption |].
    destruct (magnitude_spec x Hxn) as [X1 X2].
    destruct (magnitude_spec y Hyn) as [Y1 Y2].
    unfold ulp_exponent in Hc, NE.
    pose proof (pow2_le (magnitude x + 1) (magnitude y) ltac:(lia)) as Hp.
    apply Qle_trans with (inject_Z 1 * pow2 (magnitude y)).
    + apply round_le_grid; [| unfold ulp_exponent; lia].
      change (inject_Z 1) with 1. lra.
    + apply round_ge_grid; [| unfold ulp_exponent; lia].
      change (inject_Z 1) with 1. lra.
  - destruct (Qlt_le_dec y 0) as [Hy | Hy];
      [| apply Qle_trans with 0;
         [apply round_nonpos | apply round_nonneg]; assumption].
    assert (Hxn : ~ x == 0) by lra. assert (Hyn : ~ y == 0) by lra.
    assert (Ax : Qabs x == - x) by (apply Qabs_neg; lra).
    assert (Ay : Qabs y == - y) by (apply Qabs_neg; lra).
    pose proof (ulp_exponent_le y x Hyn ltac:(lra)) as Hc.
    destruct (Z.eq_dec (ulp_exponent x) (ulp_exponent y)) as [E | NE];
      [apply round_le_same_exponent; assumption |].
    destruct (magnitude_spec x Hxn) as [X1 X2].
    destruct (magnitude_spec y Hyn) as [Y1 Y2].
    unfold ulp_exponent in Hc, NE.
    pose proof (pow2_le (magnitude y + 1) (magnitude x) ltac:(lia)) as Hp.
    apply Qle_trans with (inject_Z (-1) * pow2 (magnitude x)).
    + apply round_le_grid; [| unfold ulp_exponent; lia].
      change (inject_Z (-1)) with (-(1)). lra.
    + apply round_ge_grid; [| unfold ulp_exponent; lia].
      change (inject_Z (-1)) with (-(1)). lra.
Qed.

(** A rounded value is a binary64 number: rounding it again changes
    nothing. *)
Lemma round_round (x : Q) : round (round x) == round x.
Proof.
  destruct (Qeq_dec x 0) as [Hx | Hx].
  { rewrite (round_comp x 0 Hx).
    rewrite (round_comp (round 0) 0 round_0). reflexivity. }
  set (c := ulp_exponent x).
  set (j := Z.max (magnitude x + 1) c).
  destruct (magnitude_spec x Hx) as [X1 X2].
  pose proof (pow2_le (magnitude x + 1) j ltac:(lia)) as Hp.
  pose proof (Qle_Qabs x) as A1.
  pose proof (Qle_Qabs (- x)) as A2. rewrite Qabs_opp in A2.
  assert (Hup : round x <= inject_Z 1 * pow2 j).
  { apply round_le_grid; [| fold c; lia].
    change (inject_Z 1) with 1. lra. }
  assert (Hlo : inject_Z (-1) * pow2 j <= round x).
  { apply round_ge_grid; [| fold c; lia].
    change (inject_Z (-1)) with (-(1)). lra. }
  change (inject_Z 1) with 1 in Hup.
  change (inject_Z (-1)) with (-(1)) in Hlo.
  destruct (Qeq_dec (round x) 0) as [R0 | R0].
  { rewrite (round_comp _ 0 R0). rewrite round_0, R0. reflexivity. }
  destruct (Qlt_le_dec (Qabs (round x)) (pow2 j)) as [Hin | Hout].
  - apply (round_grid (round x)
             (nearest_even (x / pow2 (ulp_exponent x))) c).
    + reflexivity.
    + destruct (magnitude_spec (round x) R0) as [R1 R2].
      assert (Hm : (magnitude (round x) < j)%Z).
      { destruct (Z_lt_le_dec (magnitude (round x)) j) as [L | L];
          [exact L | exfalso].
        pose proof (pow2_le j (magnitude (round x)) L). lra. }
      unfold ulp_exponent at 1. unfold c, ulp_exponent in *. lia.
  - assert (Hj : (ulp_exponent (round x) <= j)%Z).
    { assert (Habs : Qabs (round x) == pow2 j).
      { apply Qle_antisym; [| exact Hout].
        apply Qabs_Qle_condition. split; lra. }
      assert (M : magnitude (round x) = j).
      { apply magnitude_unique; [lra |].
        pose proof (pow2_lt j (j + 1) ltac:(lia)). lra. }
      unfold ulp_exponent at 1. rewrite M. unfold c, ulp_exponent in *. lia. }
    destruct (Qlt_le_dec (round x) 0) as [Hneg | Hpos].
    + apply (round_grid (round x) (-1) j); [| exact Hj].
      change (inject_Z (-1)) with (-(1)).
      rewrite (Qabs_neg (round x)) in Hout by lra. lra.
    + apply (round_grid (round x) 1 j); [| exact Hj].
      change (inject_Z 1) with 1.
      rewrite (Qabs_pos (round x)) in Hout by lra. lra.
Qed.

(** The rounding error is at most half a unit in the last place, and
    for a value of normal size at most [2^-53] of the value. *)
Lemma round_error (x : Q) :
  Qabs (round x - x) <= pow2 (ulp_exponent x) * (1 # 2).
Proof.
  unfold round. set (c := ulp_exponent x).
  pose proof (pow2_pos c) as Hc.
  pose proof (nearest_even_error (x / pow2 c)) as He.
  assert (E : inject_Z (nearest_even (x / pow2 c)) * pow2 c - x
              == (inject_Z (nearest_even (x / pow2 c)) - x / pow2 c)
                 * pow2 c).
  { field. lra. }
  rewrite E, Qabs_Qmult, (Qabs_pos (pow2 c)) by lra.
  rewrite (Qmult_comm (pow2 c)).
  apply Qmult_le_compat_r; [exact He | lra].
Qed.

Lemma round_relative_error (x : Q) :
  pow2 (-1022) <= Qabs x ->
  Qabs (round x - x) <= Qabs x * pow2 (-53).
Proof.
  intros Hn.
  assert (Hx : ~ x == 0).
  { intros E. rewrite E in Hn. vm_compute in Hn. apply Hn. reflexivity. }
  destruct (magnitude_spec x Hx) as [X1 X2].
  assert (Hm : (-1022 <= magnitude x)%Z).
  { destruct (Z_le_gt_dec (-1022) (magnitude x)) as [L | L];
      [exact L | exfalso].
    pose proof (pow2_le (magnitude x + 1) (-1022) ltac:(lia)). lra. }
  pose proof (round_error x) as He.
  assert (Hc : ulp_exponent x = (magnitude x + -52)%Z).
  { unfold ulp_exponent. lia. }
  rewrite Hc, pow2_plus in He.
  assert (E53 : pow2 (-53) == pow2 (-52) * (1 # 2)) by reflexivity.
  rewrite E53.
  pose proof (pow2_pos (-52)) as H52.
  apply Qle_trans with (pow2 (magnitude x) * (pow2 (-52) * (1 # 2)));
    [lra |].
  apply Qmult_le_compat_r; [exact X1 | lra].
Qed.

(** The operations respect [==]. *)
Lemma sub_comp (a a' b b' : Q) :
  a == a' -> b == b' -> Binary64.sub a b = Binary64.sub a' b'.
Proof.
  intros Ha Hb. unfold Binary64.sub. apply round_comp.
  rewrite Ha, Hb. reflexivity.
Qed.

Lemma add_comp (a a' b b' : Q) :
  a == a' -> b == b' -> Binary64.add a b = Binary64.add a' b'.
Proof.
  intros Ha Hb. unfold Binary64.add. apply round_comp.
  rewrite Ha, Hb. reflexivity.
Qed.

Lemma mul_comp (a a' b b' : Q) :
  a == a' -> b == b' -> Binary64.mul a b = Binary64.mul a' b'.
Proof.
  intros Ha Hb. unfold Binary64.mul. apply round_comp.
  rewrite Ha, Hb. reflexivity.
Qed.

(** Adding a value that is not negative to a binary64 value does not
    give less, and adding 0 gives the value back. *)
Lemma add_nonneg_ge (x y : Q) :
  0 <= y -> round x <= Binary64.add (round x) y.
Proof.
  intros Hy. rewrite <- (round_round x) at 1.
  unfold Binary64.add. apply round_le. lra.
Qed.

Lemma add_zero (x y : Q) :
  y == 0 -> Binary64.add (round x) y == round x.
Proof.
  intros Hy. unfold Binary64.add.
  assert (E : round x + y == round x) by lra.
  rewrite (round_comp _ _ E). apply round_round.
Qed.

Lemma mul_nonneg (x y : Q) : 0 <= x -> 0 <= y -> 0 <= Binary64.mul x y.
Proof.
  intros Hx Hy. unfold Binary64.mul. apply round_nonneg.
  apply Qmult_le_0_compat; assumption.
Qed.

Lemma mul_zero (x y : Q) : y == 0 -> Binary64.mul x y == 0.
Proof.
  intros Hy. unfold Binary64.mul.
  assert (E : x * y == 0) by (rewrite Hy; ring).
  rewrite (round_comp _ _ E). apply round_0.
Qed.

(** The decimal 0.1 denotes [3602879701896397 / 2^55]; the sum of the
    values of 0.1 and 0.2 is the value of 0.30000000000000004, not that
    of 0.3. *)
Example round_one_tenth :
  round (1 # 10) == 3602879701896397 # 36028797018963968.
Proof. vm_compute. reflexivity. Qed.

(** Halfway between two binary64 values the even one is taken;
    below [2^-1022] the values are [2^-1074] apart. *)
Example ties_go_to_even :
  round (inject_Z (2 ^ 53 + 1)) == inject_Z (2 ^ 53)
  /\ round (inject_Z (2 ^ 53 + 3)) == inject_Z (2 ^ 53 + 4).
Proof. split; vm_compute; reflexivity. Qed.

Example gradual_underflow :
  round (3 * pow2 (-1075)) == 2 * pow2 (-1074)
  /\ round (pow2 (-1075)) == 0
  /\ round ((5 # 4) * pow2 (-1074)) == pow2 (-1074).
Proof. repeat split; vm_compute; reflexivity. Qed.

(** On the samples, the four operations are those of the IEEE 754
    specification of the Standard Library. *)
Example operations_agree_with_SpecFloat : Ieee754.all_agree = true.
Proof. vm_compute. reflexivity. Qed.

Example one_tenth_plus_two_tenths :
  Binary64.add (round (1 # 10)) (round (2 # 10))
  == round (30000000000000004 # 100000000000000000)
  /\ ~ Binary64.add (round (1 # 10)) (round (2 # 10)) == round (3 # 10).
Proof. split; vm_compute; congruence. Qed.

End Binary64Rounding.

(** ** Risk manager: drawdown and the emergency latch *)

Section RiskDrawdown.

Import Risk.

Lemma prefixes_snoc (l : list Q) (x : Q) :
  prefixes (l ++ [x]) = prefixes l ++ [l ++ [x]].
Proof.
  induction l as [| a l IH]; simpl.
  - reflexivity.
  - rewrite IH, map_app. reflexivity.
Qed.

Lemma cumulative_snoc (l : list Q) (x : Q) :
  cumulative (l ++ [x]) == cumulative l + x.
Proof.
  induction l as [| a l IH]; simpl.
  - lra.
  - rewrite IH. lra.
Qed.

Lemma running_peak_snoc (l : list Q) (x : Q) :
  running_peak (l ++ [x])
  = Qmax (running_peak l) (cumulative (l ++ [x])).
Proof.
  unfold running_peak.
  rewrite prefixes_snoc, map_app, fold_left_app. reflexivity.
Qed.

Lemma running_peak_nonneg (l : list Q) : 0 <= running_peak l.
Proof. unfold running_peak. apply fold_max_ge_init. Qed.

Lemma running_peak_ge_cumulative (l : list Q) :
  cumulative l <= running_peak l.
Proof.
  destruct l as [| a l] using rev_ind.
  - unfold running_peak. simpl. lra.
  - rewrite running_peak_snoc. apply Qmax_ge_r.
Qed.

Lemma prefix_drawdown_nonneg (l : list Q) : 0 <= prefix_drawdown l.
Proof.
  unfold prefix_drawdown.
  pose proof (running_peak_ge_cumulative l). lra.
Qed.

Lemma drawdown_from_zero_snoc (l : list Q) (x : Q) :
  drawdown_from_zero (l ++ [x])
  = Qmax (drawdown_from_zero l) (prefix_drawdown (l ++ [x])).
Proof.
  unfold drawdown_from_zero.
  rewrite prefixes_snoc, map_app, fold_left_app. reflexivity.
Qed.

(** Every prefix drawdown is at least 0, so starting the maximum from 0
    does not change it. *)
Lemma drawdown_spec_from_zero (l : list Q) :
  drawdown_spec l == drawdown_from_zero l.
Proof.
  unfold drawdown_spec, drawdown_from_zero.
  destruct l as [| a l]; simpl.
  - reflexivity.
  - apply fold_max_eq.
    pose proof (prefix_drawdown_nonneg [a]) as H.
    destruct (Q.max_spec 0 (prefix_drawdown [a])) as [[? E] | [? E]];
      rewrite E; lra.
Qed.

(** [prefixes] lists the prefixes of lengths 1 to [length l]. *)
Lemma prefixes_firstn (l : list Q) :
  prefixes l = map (fun k => firstn k l) (seq 1 (length l)).
Proof.
  induction l as [| x r IH]; simpl.
  - reflexivity.
  - f_equal. rewrite IH, <- (seq_shift (length r) 1), !map_map. reflexivity.
Qed.

Lemma fold_max_upper (l : list Q) (a x : Q) :
  In x l -> x <= fold_left Qmax l a.
Proof.
  revert a. induction l as [| y l IH]; intros a Hin; simpl.
  - destruct Hin.
  - destruct Hin as [-> | Hin].
    + eapply Qle_trans; [apply (Qmax_ge_r a x) | apply fold_max_ge_init].
    + apply IH. exact Hin.
Qed.

Lemma fold_max_attained (l : list Q) (a : Q) :
  fold_left Qmax l a == a
  \/ exists x, In x l /\ fold_left Qmax l a == x.
Proof.
  revert a. induction l as [| y l IH]; intros a; simpl.
  - left. reflexivity.
  - destruct (IH (Qmax a y)) as [E | [x [Hin E]]].
    + destruct (Q.max_spec a y) as [[_ Em] | [_ Em]].
      * right. exists y. split; [left; reflexivity |].
        rewrite E. exact Em.
      * left. rewrite E. exact Em.
    + right. exists x. split; [right; exact Hin | exact E].
Qed.

(** [drawdown_spec] is an upper bound of the drawdown of every prefix,
    and for a non-empty sequence it is the drawdown of one of them. *)
Lemma drawdown_spec_is_maximum (l : list Q) :
  (forall k, (1 <= k <= length l)%nat ->
             prefix_drawdown (firstn k l) <= drawdown_spec l)
  /\ (l <> [] ->
      exists k, (1 <= k <= length l)%nat
                /\ drawdown_spec l == prefix_drawdown (firstn k l)).
Proof.
  unfold drawdown_spec. rewrite prefixes_firstn, map_map.
  destruct l as [| x r]; [split; [simpl; lia | congruence] |].
  cbn [length seq map]. split.
  - intros k Hk. destruct (Nat.eq_dec k 1) as [-> | Hne].
    + apply fold_max_ge_init.
    + apply fold_max_upper.
      apply (in_map (fun k => prefix_drawdown (firstn k (x :: r)))).
      apply in_seq. lia.
  - intros _.
    destruct (fold_max_attained
                (map (fun k => prefix_drawdown (firstn k (x :: r)))
                     (seq 2 (length r)))
                (prefix_drawdown (firstn 1 (x :: r))))
      as [E | [d [Hin E]]].
    + exists 1%nat. split; [lia | exact E].
    + apply in_map_iff in Hin as [k [<- Hk]]. apply in_seq in Hk.
      exists k. split; [lia | exact E].
Qed.

(** A profit of 10, a loss of 30, a profit of 5: the peak is 10, the
    low is -20, the drawdown 30. *)
Example drawdown_spec_example : drawdown_spec [10; -30; 5] == 30.
Proof. vm_compute. reflexivity. Qed.

Lemma drawdown_loop_snoc (h : list Trade) (t : Trade) :
  drawdown_loop (h ++ [t]) = drawdown_iter (drawdown_loop h) t.
Proof. unfold drawdown_loop. rewrite fold_left_app. reflexivity. Qed.

(** What the loop of [updateDrawdown] holds after a history. *)
Lemma drawdown_loop_spec (h : list Trade) :
  let v := drawdown_loop h in
  currentPnl v == cumulative (map pnl h)
  /\ peak v == running_peak (map pnl h)
  /\ maxDrawdownSeen v == drawdown_from_zero (map pnl h).
Proof.
  induction h as [| t h IH] using rev_ind.
  - simpl. unfold running_peak, drawdown_from_zero. simpl.
    repeat split; reflexivity.
  - destruct IH as [Hc [Hp Hm]].
    rewrite drawdown_loop_snoc, map_app. simpl map.
    set (l := map pnl h) in *. set (v := drawdown_loop h) in *.
    assert (Hcur : currentPnl (drawdown_iter v t) == cumulative (l ++ [pnl t])).
    { simpl. rewrite cumulative_snoc, Hc. reflexivity. }
    assert (Hpk : peak (drawdown_iter v t) == running_peak (l ++ [pnl t])).
    { rewrite running_peak_snoc. simpl.
      rewrite gt_select_max. apply Qmax_eq; [exact Hp |].
      rewrite cumulative_snoc, Hc. reflexivity. }
    repeat split; try assumption.
    rewrite drawdown_from_zero_snoc.
    change (maxDrawdownSeen (drawdown_iter v t))
      with (let d := peak (drawdown_iter v t) - currentPnl (drawdown_iter v t) in
            if JsCmp.gt d (maxDrawdownSeen v) then d else maxDrawdownSeen v).
    cbv zeta. rewrite gt_select_max.
    apply Qmax_eq; [exact Hm |].
    unfold prefix_drawdown. rewrite Hpk, Hcur. reflexivity.
Qed.

Lemma recordTrade_history (m : RiskManager) (now : Z) (p : Q) (mk : bool) :
  tradeHistory (recordTrade m now p mk)
  = tradeHistory m ++ [mkTrade now p mk].
Proof.
  unfold recordTrade, updateDrawdown. simpl.
  destruct (tradeHistory m ++ [mkTrade now p mk]); reflexivity.
Qed.

Lemma recordTrade_limits (m : RiskManager) (now : Z) (p : Q) (mk : bool) :
  limits (recordTrade m now p mk) = limits m.
Proof. reflexivity. Qed.

(** The drawdown that [recordTrade] stores is the one the loop computes
    on the extended history. *)
Lemma recordTrade_currentDrawdown (m : RiskManager) (now : Z) (p : Q)
    (mk : bool) :
  currentDrawdown (state (recordTrade m now p mk))
  = maxDrawdownSeen (drawdown_loop (tradeHistory m ++ [mkTrade now p mk])).
Proof.
  unfold recordTrade, updateDrawdown. cbn [tradeHistory limits state].
  destruct (tradeHistory m ++ [mkTrade now p mk]) as [| t0 h0] eqn:E.
  - destruct (tradeHistory m); discriminate E.
  - cbn [tradeHistory limits state].
    repeat match goal with
           | |- context [if ?c then _ else _] => destruct c
           end; simpl; reflexivity.
Qed.

Lemma recordTrade_drawdown_spec (m : RiskManager) (now : Z) (p : Q)
    (mk : bool) :
  currentDrawdown (state (recordTrade m now p mk))
  == drawdown_spec (map pnl (tradeHistory m) ++ [p]).
Proof.
  rewrite recordTrade_currentDrawdown, drawdown_spec_from_zero.
  destruct (drawdown_loop_spec (tradeHistory m ++ [mkTrade now p mk]))
    as [_ [_ H]].
  rewrite map_app in H. exact H.
Qed.

(** [recordTrade] only ever switches the latch on, and does so exactly
    when the drawdown it has just stored reaches the limit. *)
Lemma recordTrade_emergency (m : RiskManager) (now : Z) (p : Q) (mk : bool) :
  emergencyStopTriggered (state (recordTrade m now p mk))
  = emergencyStopTriggered (state m)
    || JsCmp.ge (currentDrawdown (state (recordTrade m now p mk)))
                (emergencyStopLoss (limits m)).
Proof.
  rewrite recordTrade_currentDrawdown.
  unfold recordTrade, updateDrawdown. cbn [tradeHistory limits state].
  destruct (tradeHistory m ++ [mkTrade now p mk]) as [| t0 h0] eqn:E.
  - destruct (tradeHistory m); discriminate E.
  - cbn [tradeHistory limits state].
    destruct (JsCmp.lt p 0); cbn;
      destruct (JsCmp.ge (maxDrawdownSeen (drawdown_loop (t0 :: h0)))
                         (emergencyStopLoss (limits m))); cbn;
      repeat match goal with
             | |- context [if ?c then _ else _] => destruct c
             end; cbn;
      rewrite ?orb_true_r, ?orb_false_r; reflexivity.
Qed.

Lemma run_snoc (m : RiskManager) (cs : list Call) (c : Call) :
  run m (cs ++ [c]) = step (run m cs) c.
Proof. unfold run. rewrite fold_left_app. reflexivity. Qed.

Lemma recorded_app (cs cs' : list Call) :
  recorded (cs ++ cs') = recorded cs ++ recorded cs'.
Proof.
  induction cs as [| c cs IH]; simpl.
  - reflexivity.
  - destruct c; simpl; rewrite IH; reflexivity.
Qed.

Lemma run_limits (m : RiskManager) (cs : list Call) :
  limits (run m cs) = limits m.
Proof.
  induction cs as [| c cs IH] using rev_ind.
  - reflexivity.
  - rewrite run_snoc. destruct c; simpl; exact IH.
Qed.

(** The history of a manager holds the PnL values recorded, in order,
    and the stored drawdown is the specified one. *)
Lemma run_invariant (lim : RiskLimits) (cs : list Call) :
  map pnl (tradeHistory (run (new lim) cs)) = recorded cs
  /\ currentDrawdown (state (run (new lim) cs)) == drawdown_spec (recorded cs).
Proof.
  induction cs as [| c cs [IHh IHd]] using rev_ind.
  - simpl. split; reflexivity.
  - rewrite run_snoc, recorded_app.
    destruct c as [now p mk | |]; simpl step; simpl recorded.
    + split.
      * rewrite recordTrade_history, map_app, IHh. reflexivity.
      * rewrite recordTrade_drawdown_spec, IHh. reflexivity.
    + rewrite app_nil_r. split; [exact IHh | exact IHd].
    + rewrite app_nil_r. split; [exact IHh | exact IHd].
Qed.

(** No call other than [resetEmergencyStop] clears the latch. *)
Lemma latch_kept (m : RiskManager) (cs : list Call) :
  forallb (fun c => negb (is_reset_emergency c)) cs = true ->
  emergencyStopTriggered (state m) = true ->
  emergencyStopTriggered (state (run m cs)) = true.
Proof.
  revert m. induction cs as [| c cs IH]; intros m Hcs Hm.
  - exact Hm.
  - simpl in Hcs. apply andb_true_iff in Hcs as [Hc Hcs].
    change (run m (c :: cs)) with (run (step m c) cs).
    apply IH; [exact Hcs |].
    destruct c as [now p mk | |]; cbn [step].
    + rewrite recordTrade_emergency, Hm. reflexivity.
    + exact Hm.
    + discriminate Hc.
Qed.

End RiskDrawdown.

(** ** Risk manager in binary64: drawdown and the emergency latch *)

Section RiskDrawdown64.

Import Risk.
Import Risk64.

Lemma cumulative64_snoc (l : list Q) (x : Q) :
  cumulative (l ++ [x]) = Binary64.add (cumulative l) x.
Proof. unfold cumulative. rewrite fold_left_app. reflexivity. Qed.

Lemma running_peak64_snoc (l : list Q) (x : Q) :
  running_peak (l ++ [x])
  = Qmax (running_peak l) (cumulative (l ++ [x])).
Proof.
  unfold running_peak.
  rewrite prefixes_snoc, map_app, fold_left_app. reflexivity.
Qed.

Lemma running_peak64_ge_cumulative (l : list Q) :
  cumulative l <= running_peak l.
Proof.
  destruct l as [| a l] using rev_ind.
  - unfold running_peak, cumulative. simpl. lra.
  - rewrite running_peak64_snoc. apply Qmax_ge_r.
Qed.

(** The difference of the peak and the sum is rounded from a value that
    is not negative, so it is not negative. *)
Lemma prefix_drawdown64_nonneg (l : list Q) : 0 <= prefix_drawdown l.
Proof.
  unfold prefix_drawdown, Binary64.sub. apply round_nonneg.
  pose proof (running_peak64_ge_cumulative l). lra.
Qed.

Lemma drawdown_from_zero64_snoc (l : list Q) (x : Q) :
  drawdown_from_zero (l ++ [x])
  = Qmax (drawdown_from_zero l) (prefix_drawdown (l ++ [x])).
Proof.
  unfold drawdown_from_zero.
  rewrite prefixes_snoc, map_app, fold_left_app. reflexivity.
Qed.

(** A maximum of values that are not negative may be taken from 0. *)
Lemma fold_max_from_zero (ds : list Q) :
  (forall d, In d ds -> 0 <= d) ->
  match ds with
  | [] => 0
  | d :: r => fold_left Qmax r d
  end == fold_left Qmax ds 0.
Proof.
  intros H. destruct ds as [| d r]; cbn [fold_left].
  - reflexivity.
  - apply fold_max_eq.
    pose proof (H d (or_introl eq_refl)) as Hd.
    destruct (Q.max_spec 0 d) as [[? E] | [? E]]; rewrite E; lra.
Qed.

Lemma drawdown_spec64_from_zero (l : list Q) :
  drawdown_spec l == drawdown_from_zero l.
Proof.
  unfold drawdown_spec, drawdown_from_zero.
  apply fold_max_from_zero.
  intros d Hin. apply in_map_iff in Hin as [p [<- _]].
  apply prefix_drawdown64_nonneg.
Qed.

(** [drawdown_spec] is an upper bound of the drawdown of every prefix,
    and for a non-empty sequence it is the drawdown of one of them. *)
Lemma drawdown_spec64_is_maximum (l : list Q) :
  (forall k, (1 <= k <= length l)%nat ->
             prefix_drawdown (firstn k l) <= drawdown_spec l)
  /\ (l <> [] ->
      exists k, (1 <= k <= length l)%nat
                /\ drawdown_spec l == prefix_drawdown (firstn k l)).
Proof.
  unfold drawdown_spec. rewrite prefixes_firstn, map_map.
  destruct l as [| x r]; [split; [simpl; lia | congruence] |].
  cbn [length seq map]. split.
  - intros k Hk. destruct (Nat.eq_dec k 1) as [-> | Hne].
    + apply fold_max_ge_init.
    + apply fold_max_upper.
      apply (in_map (fun k => prefix_drawdown (firstn k (x :: r)))).
      apply in_seq. lia.
  - intros _.
    destruct (fold_max_attained
                (map (fun k => prefix_drawdown (firstn k (x :: r)))
                     (seq 2 (length r)))
                (prefix_drawdown (firstn 1 (x :: r))))
      as [E | [d [Hin E]]].
    + exists 1%nat. split; [lia | exact E].
    + apply in_map_iff in Hin as [k [<- Hk]]. apply in_seq in Hk.
      exists k. split; [lia | exact E].
Qed.

Lemma drawdown_loop64_snoc (h : list Trade) (t : Trade) :
  drawdown_loop (h ++ [t]) = drawdown_iter (drawdown_loop h) t.
Proof. unfold drawdown_loop. rewrite fold_left_app. reflexivity. Qed.

(** What the loop of [updateDrawdown] holds after a history. *)
Lemma drawdown_loop64_spec (h : list Trade) :
  let v := drawdown_loop h in
  currentPnl v = cumulative (map pnl h)
  /\ peak v == running_peak (map pnl h)
  /\ maxDrawdownSeen v == drawdown_from_zero (map pnl h).
Proof.
  induction h as [| t h IH] using rev_ind.
  - simpl. unfold running_peak, drawdown_from_zero. simpl.
    repeat split; reflexivity.
  - destruct IH as [Hc [Hp Hm]].
    rewrite drawdown_loop64_snoc, map_app. simpl map.
    set (l := map pnl h) in *. set (v := drawdown_loop h) in *.
    assert (Hcur : currentPnl (drawdown_iter v t) = cumulative (l ++ [pnl t])).
    { simpl. rewrite cumulative64_snoc, Hc. reflexivity. }
    assert (Hpk : peak (drawdown_iter v t) == running_peak (l ++ [pnl t])).
    { rewrite running_peak64_snoc, <- Hcur. simpl.
      rewrite gt_select_max. apply Qmax_eq; [exact Hp | reflexivity]. }
    split; [exact Hcur | split; [exact Hpk |]].
    rewrite drawdown_from_zero64_snoc.
    change (maxDrawdownSeen (drawdown_iter v t))
      with (let d := Binary64.sub (peak (drawdown_iter v t))
                                  (currentPnl (drawdown_iter v t)) in
            if JsCmp.gt d (maxDrawdownSeen v) then d else maxDrawdownSeen v).
    cbv zeta. rewrite gt_select_max.
    apply Qmax_eq; [exact Hm |].
    unfold prefix_drawdown. rewrite Hcur.
    rewrite (sub_comp _ _ _ _ Hpk (Qeq_refl _)). reflexivity.
Qed.

Lemma recordTrade64_history (m : RiskManager) (now : Z) (p : Q) (mk : bool) :
  tradeHistory (recordTrade m now p mk)
  = tradeHistory m ++ [mkTrade now p mk].
Proof.
  unfold recordTrade, updateDrawdown. simpl.
  destruct (tradeHistory m ++ [mkTrade now p mk]); reflexivity.
Qed.

(** The drawdown that [recordTrade] stores is the one the loop computes
    on the extended history. *)
Lemma recordTrade64_currentDrawdown (m : RiskManager) (now : Z) (p : Q)
    (mk : bool) :
  currentDrawdown (state (recordTrade m now p mk))
  = maxDrawdownSeen (drawdown_loop (tradeHistory m ++ [mkTrade now p mk])).
Proof.
  unfold recordTrade, updateDrawdown. cbn [tradeHistory limits state].
  destruct (tradeHistory m ++ [mkTrade now p mk]) as [| t0 h0] eqn:E.
  - destruct (tradeHistory m); discriminate E.
  - cbn [tradeHistory limits state].
    generalize (maxDrawdownSeen (drawdown_loop (t0 :: h0))).
    generalize (Binary64.add (dailyLoss (state m)) (Qabs p)).
    intros loss d.
    repeat match goal with
           | |- context [if ?c then _ else _] => destruct c
           end; simpl; reflexivity.
Qed.

Lemma recordTrade64_drawdown_spec (m : RiskManager) (now : Z) (p : Q)
    (mk : bool) :
  currentDrawdown (state (recordTrade m now p mk))
  == drawdown_spec (map pnl (tradeHistory m) ++ [p]).
Proof.
  rewrite recordTrade64_currentDrawdown, drawdown_spec64_from_zero.
  destruct (drawdown_loop64_spec (tradeHistory m ++ [mkTrade now p mk]))
    as [_ [_ H]].
  rewrite map_app in H. exact H.
Qed.

(** [recordTrade] only ever switches the latch on, and does so exactly
    when the drawdown it has just stored reaches the limit. *)
Lemma recordTrade64_emergency (m : RiskManager) (now : Z) (p : Q)
    (mk : bool) :
  emergencyStopTriggered (state (recordTrade m now p mk))
  = emergencyStopTriggered (state m)
    || JsCmp.ge (currentDrawdown (state (recordTrade m now p mk)))
                (emergencyStopLoss (limits m)).
Proof.
  rewrite recordTrade64_currentDrawdown.
  unfold recordTrade, updateDrawdown. cbn [tradeHistory limits state].
  destruct (tradeHistory m ++ [mkTrade now p mk]) as [| t0 h0] eqn:E.
  - destruct (tradeHistory m); discriminate E.
  - cbn [tradeHistory limits state].
    generalize (maxDrawdownSeen (drawdown_loop (t0 :: h0))).
    generalize (Binary64.add (dailyLoss (state m)) (Qabs p)).
    intros loss d.
    destruct (JsCmp.lt p 0); cbn;
      destruct (JsCmp.ge d (emergencyStopLoss (limits m))); cbn;
      repeat match goal with
             | |- context [if ?c then _ else _] => destruct c
             end; cbn;
      rewrite ?orb_true_r, ?orb_false_r; reflexivity.
Qed.

Lemma run64_snoc (m : RiskManager) (cs : list Call) (c : Call) :
  run m (cs ++ [c]) = step (run m cs) c.
Proof. unfold run. rewrite fold_left_app. reflexivity. Qed.

Lemma run64_limits (m : RiskManager) (cs : list Call) :
  limits (run m cs) = limits m.
Proof.
  induction cs as [| c cs IH] using rev_ind.
  - reflexivity.
  - rewrite run64_snoc. destruct c; simpl; exact IH.
Qed.

(** The history of a manager holds the PnL values recorded, in order,
    and the stored drawdown is the specified one. *)
Lemma run64_invariant (lim : RiskLimits) (cs : list Call) :
  map pnl (tradeHistory (run (new lim) cs)) = recorded cs
  /\ currentDrawdown (state (run (new lim) cs)) == drawdown_spec (recorded cs).
Proof.
  induction cs as [| c cs [IHh IHd]] using rev_ind.
  - simpl. split; reflexivity.
  - rewrite run64_snoc, recorded_app.
    destruct c as [now p mk | |]; simpl step; simpl recorded.
    + split.
      * rewrite recordTrade64_history, map_app, IHh. reflexivity.
      * rewrite recordTrade64_drawdown_spec, IHh. reflexivity.
    + rewrite app_nil_r. split; [exact IHh | exact IHd].
    + rewrite app_nil_r. split; [exact IHh | exact IHd].
Qed.

(** No call other than [resetEmergencyStop] clears the latch. *)
Lemma latch64_kept (m : RiskManager) (cs : list Call) :
  forallb (fun c => negb (is_reset_emergency c)) cs = true ->
  emergencyStopTriggered (state m) = true ->
  emergencyStopTriggered (state (run m cs)) = true.
Proof.
  revert m. induction cs as [| c cs IH]; intros m Hcs Hm.
  - exact Hm.
  - simpl in Hcs. apply andb_true_iff in Hcs as [Hc Hcs].
    change (run m (c :: cs)) with (run (step m c) cs).
    apply IH; [exact Hcs |].
    destruct c as [now p mk | |]; cbn [step].
    + rewrite recordTrade64_emergency, Hm. reflexivity.
    + exact Hm.
    + discriminate Hc.
Qed.

(** Eight losses of 0.1 against an [emergencyStopLoss] of 0.8: the sum
    of the eight is 0.7999999999999999 in binary64, the drawdown stored
    is that value, and the latch stays off. *)
Example eight_tenths_stay_below :
  let tenth := Binary64.round (1 # 10) in
  let lim := mkLimits 1 10 100 10 60000 (Binary64.round (8 # 10)) in
  let cs := map (fun k => RecordTrade k (- tenth) false)
                [1; 2; 3; 4; 5; 6; 7; 8]%Z in
  let m := run (new lim) cs in
  currentDrawdown (state m) == 7205759403792793 # 9007199254740992
  /\ currentDrawdown (state m) < emergencyStopLoss lim
  /\ emergencyStopTriggered (state m) = false.
Proof. cbv zeta. repeat split; vm_compute; reflexivity. Qed.

(** C1.  For every run of calls on a fresh manager, the stored
    [currentDrawdown] is the maximum, over the prefixes of the recorded
    PnL sequence, of the running peak of the cumulative PnL (starting at
    0) minus the cumulative PnL, sums and differences being those of
    binary64; this holds again after the next [recordTrade].  A
    [recordTrade] that finds the latch off switches it on if and only if
    that drawdown reaches [emergencyStopLoss]; a latch that is on stays
    on over every further call except [resetEmergencyStop], which clears
    it. *)
Theorem C1_drawdown_and_emergency_latch :
  forall (lim : RiskLimits) (cs : list Call),
    let m := run (new lim) cs in
    currentDrawdown (state m) == drawdown_spec (recorded cs)
    /\ (forall now p mk,
          let m' := recordTrade m now p mk in
          currentDrawdown (state m') == drawdown_spec (recorded cs ++ [p])
          /\ (emergencyStopTriggered (state m) = false ->
              (emergencyStopTriggered (state m') = true
               <-> emergencyStopLoss lim
                   <= drawdown_spec (recorded cs ++ [p]))))
    /\ (forall cs',
          forallb (fun c => negb (is_reset_emergency c)) cs' = true ->
          emergencyStopTriggered (state m) = true ->
          emergencyStopTriggered (state (run m cs')) = true)
    /\ emergencyStopTriggered (state (resetEmergencyStop m)) = false.
Proof.
  intros lim cs m.
  destruct (run64_invariant lim cs) as [Hh Hd]. fold m in Hh, Hd.
  split; [exact Hd |].
  split; [| split; [intros cs'; apply latch64_kept | reflexivity]].
  intros now p mk m'.
  assert (Hd' : currentDrawdown (state m')
                == drawdown_spec (recorded cs ++ [p])).
  { unfold m'. rewrite recordTrade64_drawdown_spec, Hh. reflexivity. }
  split; [exact Hd' |].
  assert (Hl : limits m = lim).
  { unfold m. rewrite run64_limits. reflexivity. }
  intros Hoff.
  pose proof (recordTrade64_emergency m now p mk) as He. fold m' in He.
  rewrite Hoff, Hl, orb_false_l in He.
  rewrite He, ge_true. split; intro H; lra.
Qed.

End RiskDrawdown64.

(** ** Risk manager: the gates of [canOpenPosition] *)

Section RiskGates.

Import Risk.

(** [canOpenPosition] is the decision of the first failing gate. *)
Lemma canOpenPosition_by_priority (m : RiskManager) (now : Z) (size : Q) :
  canOpenPosition m now size = decision_by_priority m now size.
Proof.
  unfold canOpenPosition, decision_by_priority, first_failing, priority.
  cbn [find gate_fails].
  destruct (emergencyStopTriggered (state m)); [reflexivity |].
  destruct (isInCooldown (state m)
            && JsCmp.lt (inject_Z (now - lastTradeTime (state m)))
                        (cooldownPeriod (limits m))); [reflexivity |].
  destruct (JsCmp.gt size (maxPositionSize (limits m))); [reflexivity |].
  destruct (JsCmp.ge (of_count (consecutiveLosses (state m)))
                     (maxConsecutiveLosses (limits m))); [reflexivity |].
  destruct (JsCmp.ge (dailyLoss (state m)) (maxDailyLoss (limits m)));
    [reflexivity |].
  destruct (JsCmp.ge (currentDrawdown (state m)) (maxDrawdown (limits m)));
    reflexivity.
Qed.

(** A limits record and a run that bring a manager into emergency stop,
    into cooldown and over the daily-loss limit at once: two losses of 6
    with [maxConsecutiveLosses = 2], [maxDailyLoss = 5] and
    [emergencyStopLoss = 10]. *)
Example C2_emergency_outranks_cooldown :
  let lim := mkLimits 1 5 2 100 60000 10 in
  let m := run (new lim) [RecordTrade 1000 (-6) false;
                          RecordTrade 2000 (-6) false] in
  gate_fails m 2500 (1 # 2) CooldownGate = true
  /\ gate_fails m 2500 (1 # 2) DailyLossGate = true
  /\ canOpenPosition m 2500 (1 # 2) = reject EmergencyStop
  /\ ~ reason_is (canOpenPosition m 2500 (1 # 2)) CooldownGate.
Proof.
  cbv zeta. repeat split; try (vm_compute; reflexivity).
  intros [r [Hr Hg]]. vm_compute in Hr. inversion Hr; subst r.
  discriminate Hg.
Qed.

(** C2 (amended).  [canOpenPosition] returns the reason of the first
    failing gate in the order emergency stop, cooldown, position size,
    loss streak, daily loss, drawdown, and allows when none fails.  For
    a state that fails both the cooldown gate and the daily-loss gate
    the reason is never the daily-loss one: it is the cooldown reason
    when the emergency stop is not triggered, and the emergency-stop
    reason when it is. *)
Theorem C2_gate_priority :
  forall (m : RiskManager) (now : Z) (size : Q),
    canOpenPosition m now size = decision_by_priority m now size
    /\ (gate_fails m now size CooldownGate = true ->
        gate_fails m now size DailyLossGate = true ->
        ~ reason_is (canOpenPosition m now size) DailyLossGate
        /\ (emergencyStopTriggered (state m) = false ->
            canOpenPosition m now size = reject Cooldown)
        /\ (emergencyStopTriggered (state m) = true ->
            canOpenPosition m now size = reject EmergencyStop)).
Proof.
  intros m now size. split; [apply canOpenPosition_by_priority |].
  intros Hc _. cbn [gate_fails] in Hc.
  unfold canOpenPosition. rewrite Hc.
  destruct (emergencyStopTriggered (state m)).
  - repeat split; try reflexivity; try discriminate.
    intros [r [Hr Hg]]. inversion Hr; subst r. discriminate Hg.
  - repeat split; try reflexivity; try discriminate.
    intros [r [Hr Hg]]. inversion Hr; subst r. discriminate Hg.
Qed.

(** The state that [recordTrade] leaves, field by field. *)
Lemma recordTrade_state (m : RiskManager) (now : Z) (p : Q) (mk : bool) :
  state (recordTrade m now p mk)
  = let s := state m in
    let losses := if JsCmp.lt p 0 then S (consecutiveLosses s) else O in
    let daily := if JsCmp.lt p 0 then dailyLoss s + Qabs p else dailyLoss s in
    let dd :=
      maxDrawdownSeen (drawdown_loop (tradeHistory m ++ [mkTrade now p mk])) in
    mkState dd losses daily now
      (isInCooldown s
       || JsCmp.ge (of_count losses) (maxConsecutiveLosses (limits m)))
      (emergencyStopTriggered s
       || JsCmp.ge dd (emergencyStopLoss (limits m))).
Proof.
  unfold recordTrade, updateDrawdown. cbn [tradeHistory limits state].
  destruct (tradeHistory m ++ [mkTrade now p mk]) as [| t0 h0] eqn:E.
  - destruct (tradeHistory m); discriminate E.
  - cbn [tradeHistory limits state].
    destruct (JsCmp.lt p 0); cbn;
      match goal with
      | |- context [JsCmp.ge (maxDrawdownSeen ?x) ?y] =>
          destruct (JsCmp.ge (maxDrawdownSeen x) y)
      end; cbn;
      match goal with
      | |- context [JsCmp.ge (of_count ?x) ?y] =>
          destruct (JsCmp.ge (of_count x) y)
      end; cbn;
      destruct (isInCooldown (state m)), (emergencyStopTriggered (state m));
      reflexivity.
Qed.

Lemma recordTrade_loss_counts (m : RiskManager) (now : Z) (p : Q)
    (mk : bool) :
  p < 0 ->
  consecutiveLosses (state (recordTrade m now p mk))
  = S (consecutiveLosses (state m)).
Proof.
  intros Hp. apply lt_true in Hp.
  rewrite recordTrade_state. cbn. rewrite Hp. reflexivity.
Qed.

Lemma recordTrade_lastTradeTime (m : RiskManager) (now : Z) (p : Q)
    (mk : bool) :
  lastTradeTime (state (recordTrade m now p mk)) = now.
Proof. rewrite recordTrade_state. reflexivity. Qed.

Lemma recordTrade_isInCooldown (m : RiskManager) (now : Z) (p : Q)
    (mk : bool) :
  isInCooldown (state (recordTrade m now p mk))
  = isInCooldown (state m)
    || JsCmp.ge (of_count (consecutiveLosses (state (recordTrade m now p mk))))
                (maxConsecutiveLosses (limits m)).
Proof. rewrite recordTrade_state. reflexivity. Qed.

(** Within the cooldown window, and under an emergency stop, the call
    right after three losses reports the reason of the earlier gate: the
    limits are [maxConsecutiveLosses = 3], [cooldownPeriod = 60000] and
    [emergencyStopLoss = 1000], respectively [emergencyStopLoss = 10]. *)
Example C8_cooldown_reason_first :
  let trades := [RecordTrade 1000 (-1) false; RecordTrade 2000 (-1) false;
                 RecordTrade 3000 (-1) false] in
  let trades' := [RecordTrade 1000 (-5) false; RecordTrade 2000 (-5) false;
                  RecordTrade 3000 (-5) false] in
  let m := run (new (mkLimits 1 100 3 100 60000 1000)) trades in
  let m' := run (new (mkLimits 1 100 3 100 0 10)) trades' in
  canOpenPosition m 3001 (1 # 2) = reject Cooldown
  /\ ~ reason_is (canOpenPosition m 3001 (1 # 2)) LossStreakGate
  /\ canOpenPosition m' 3001 (1 # 2) = reject EmergencyStop
  /\ ~ reason_is (canOpenPosition m' 3001 (1 # 2)) LossStreakGate.
Proof.
  cbv zeta. repeat split; try (vm_compute; reflexivity);
    intros [r [Hr Hg]]; vm_compute in Hr; inversion Hr; subst r;
    discriminate Hg.
Qed.

(** C8 (amended).  With [maxConsecutiveLosses = 3], after three
    [recordTrade] calls with [pnl < 0] on a fresh manager the cooldown
    flag is set, the loss-streak gate fails and every [canOpenPosition]
    call is refused.  The reason is that of the first failing gate: the
    loss-streak reason when the emergency stop is not triggered, the
    cooldown window has elapsed and the proposed size is within the
    limit; the cooldown reason while the window is open and the
    emergency stop is not triggered. *)
Theorem C8_three_losses :
  forall (lim : RiskLimits) (t1 t2 t3 : Z) (p1 p2 p3 : Q) (k1 k2 k3 : bool),
    maxConsecutiveLosses lim == 3 ->
    p1 < 0 -> p2 < 0 -> p3 < 0 ->
    let m := run (new lim) [RecordTrade t1 p1 k1; RecordTrade t2 p2 k2;
                            RecordTrade t3 p3 k3] in
    isInCooldown (state m) = true
    /\ consecutiveLosses (state m) = 3%nat
    /\ lastTradeTime (state m) = t3
    /\ forall (now : Z) (size : Q),
         allowed (canOpenPosition m now size) = false
         /\ gate_fails m now size LossStreakGate = true
         /\ (gate_fails m now size EmergencyGate = false ->
             gate_fails m now size CooldownGate = false ->
             gate_fails m now size PositionSizeGate = false ->
             canOpenPosition m now size
             = reject (LossStreak 3 (maxConsecutiveLosses lim)))
         /\ (emergencyStopTriggered (state m) = false ->
             inject_Z (now - t3) < cooldownPeriod lim ->
             canOpenPosition m now size = reject Cooldown)
         /\ (emergencyStopTriggered (state m) = true ->
             canOpenPosition m now size = reject EmergencyStop).
Proof.
  intros lim t1 t2 t3 p1 p2 p3 k1 k2 k3 Hmax H1 H2 H3 m.
  unfold m, run. cbn [fold_left step].
  set (m1 := recordTrade (new lim) t1 p1 k1).
  set (m2 := recordTrade m1 t2 p2 k2).
  set (m3 := recordTrade m2 t3 p3 k3).
  assert (Hl : limits m3 = lim) by reflexivity.
  assert (Hn : consecutiveLosses (state m3) = 3%nat).
  { unfold m3, m2, m1. rewrite !recordTrade_loss_counts by assumption.
    reflexivity. }
  assert (Hstreak : JsCmp.ge (of_count (consecutiveLosses (state m3)))
                             (maxConsecutiveLosses lim) = true).
  { rewrite Hn. apply ge_true. change (of_count 3) with 3. lra. }
  assert (Hcool : isInCooldown (state m3) = true).
  { unfold m3 at 1. rewrite recordTrade_isInCooldown. fold m3.
    change (limits m2) with lim. rewrite Hstreak. apply orb_true_r. }
  assert (Hlast : lastTradeTime (state m3) = t3).
  { unfold m3. apply recordTrade_lastTradeTime. }
  repeat split; try assumption.
  - unfold canOpenPosition. rewrite Hl, Hstreak.
    destruct (emergencyStopTriggered (state m3)); [reflexivity |].
    destruct (isInCooldown (state m3) && _); [reflexivity |].
    destruct (JsCmp.gt size (maxPositionSize lim)); reflexivity.
  - cbn [gate_fails]. rewrite Hl. intros He Hc Hs.
    unfold canOpenPosition. rewrite Hl, He, Hc, Hs, Hstreak, Hn.
    reflexivity.
  - intros He Hw. unfold canOpenPosition.
    rewrite Hl, He, Hcool, Hlast.
    apply lt_true in Hw. rewrite Hw. reflexivity.
  - intros He. unfold canOpenPosition. rewrite He. reflexivity.
Qed.

End RiskGates.

(** ** Fee-aware close strategy *)

Section CloseStrategy.

Import Close.

Lemma calculateClosePrice_cases (m : CloseStrategyManager) (now : Z)
    (e a : Q) (sd : Side) (bid ask : Q) :
  (timed_out m now && fallbackToOriginal (config m) = true
   /\ calculateClosePrice m now e a sd bid ask
      = mkInfo sd (if is_sell sd then bid else ask) a 0 true original)
  \/ (timed_out m now && fallbackToOriginal (config m) = false
      /\ calculateClosePrice m now e a sd bid ask
         = profit_cover_info m e a sd bid ask).
Proof.
  unfold calculateClosePrice.
  destruct (timed_out m now && fallbackToOriginal (config m)).
  - left. split; reflexivity.
  - right. split; reflexivity.
Qed.



(** C7.  After [startCloseStrategy] at [startTime], with
    [fallbackToOriginal] configured, a [calculateClosePrice] at a time
    [now] with [now - startTime > timeoutMs] returns the current best
    price ([currentBid] for SELL, [currentAsk] for BUY) with
    [minProfitRequired = 0], [isTimeout = true] and the [original]
    strategy marker. *)
Theorem C7_timeout_fallback :
  forall (m0 : CloseStrategyManager) (startTime now : Z) (e a : Q)
         (sd : Side) (bid ask : Q),
    let m := startCloseStrategy m0 startTime in
    fallbackToOriginal (config m0) = true ->
    timeoutMs (config m0) < inject_Z (now - startTime) ->
    isActive m = true
    /\ orderStartTime m = startTime
    /\ calculateClosePrice m now e a sd bid ask
       = mkInfo sd (match sd with SELL => bid | BUY => ask end) a 0 true
                original.
Proof.
  intros m0 startTime now e a sd bid ask m Hfb Hlate.
  split; [reflexivity | split; [reflexivity |]].
  unfold calculateClosePrice, timed_out. cbn.
  apply gt_true in Hlate. rewrite Hlate, Hfb. cbn.
  destruct sd; reflexivity.
Qed.

End CloseStrategy.

(** ** Fee-aware close strategy in binary64 *)

Section CloseStrategy64.

Import Close.
Import Close64.

(** The two ways [calculateClosePrice] ends. *)
Lemma calculateClosePrice64_cases (m : CloseStrategyManager) (now : Z)
    (e a : Q) (sd : Side) (bid ask : Q) :
  let fees := Binary64.add (openFee e a) (closeFee e a) in
  let required :=
    Binary64.add fees
      (Binary64.mul (Binary64.mul e a) (minProfitMargin (config m))) in
  (timed_out m now && fallbackToOriginal (config m) = true
   /\ calculateClosePrice m now e a sd bid ask
      = mkInfo sd (if is_sell sd then bid else ask) a 0 true original)
  \/ (timed_out m now && fallbackToOriginal (config m) = false
      /\ calculateClosePrice m now e a sd bid ask
         = mkInfo sd
             (if is_sell sd
              then Qmin (Binary64.add e (Binary64.div required a)) bid
              else Qmax (Binary64.sub e (Binary64.div required a)) ask)
             a required false profit_cover).
Proof.
  cbv zeta. unfold calculateClosePrice.
  destruct (timed_out m now && fallbackToOriginal (config m)).
  - left. split; reflexivity.
  - right. split; reflexivity.
Qed.

(** The fee total is a binary64 value. *)
Lemma fees_rounded (e a : Q) :
  Binary64.add (openFee e a) (closeFee e a)
  = Binary64.round (openFee e a + closeFee e a).
Proof. reflexivity. Qed.

(** With a margin of 0 the required profit equals the two fees and is
    not above them: entry at 500, amount 10, no strategy started.  The
    fees are 0.5 and 1.75, their sum 2.25 is a binary64 value. *)
Example C3_zero_margin_only_covers :
  let m := new (mkPartial (Some 0) None None) in
  let info := calculateClosePrice m 0 500 10 SELL 501 502 in
  0 <= minProfitMargin (config m)
  /\ isTimeout info = false
  /\ openFee 500 10 == 5 # 10
  /\ closeFee 500 10 == 175 # 100
  /\ minProfitRequired info == openFee 500 10 + closeFee 500 10
  /\ ~ (openFee 500 10 + closeFee 500 10 < minProfitRequired info).
Proof.
  cbv zeta. repeat split; try (vm_compute; congruence).
Qed.

(** A positive margin can leave the required profit at the fee total as
    well: with entry at 100 and amount 1 the total is 0.045, and a
    margin of [10^-20] on the notional of 100 is lost in the rounding
    of the sum. *)
Example tiny_margin_is_absorbed :
  let margin := Binary64.round (1 # 100000000000000000000) in
  let m := new (mkPartial (Some margin) None None) in
  let info := calculateClosePrice m 0 100 1 SELL 101 102 in
  0 < margin
  /\ minProfitRequired info
     == Binary64.add (openFee 100 1) (closeFee 100 1).
Proof. cbv zeta. split; vm_compute; reflexivity. Qed.

(** C3 (amended).  For a positive entry price and amount, the SELL-side
    close price never exceeds [currentBid] and the BUY-side close price
    is never below [currentAsk].  For a computation that is not timed
    out, [minProfitRequired] is the binary64 sum of the fee total, the
    binary64 sum of [openFee] and [closeFee], and the margin on the
    notional: at least the fee total for a margin [>= 0], and equal to
    it for a margin of 0. *)
Theorem C3_close_price_bounds_and_fee_cover :
  forall (m : CloseStrategyManager) (now : Z) (e a : Q) (sd : Side)
         (bid ask : Q),
    let info := calculateClosePrice m now e a sd bid ask in
    let fees := Binary64.add (openFee e a) (closeFee e a) in
    0 < e -> 0 < a ->
    (sd = SELL -> price info <= bid)
    /\ (sd = BUY -> ask <= price info)
    /\ (isTimeout info = false ->
        minProfitRequired info
        == Binary64.add fees
             (Binary64.mul (Binary64.mul e a) (minProfitMargin (config m)))
        /\ (0 <= minProfitMargin (config m) ->
            fees <= minProfitRequired info)
        /\ (minProfitMargin (config m) == 0 ->
            minProfitRequired info == fees)).
Proof.
  intros m now e a sd bid ask info fees He Ha.
  split; [| split].
  - intros ->. unfold info.
    destruct (calculateClosePrice64_cases m now e a SELL bid ask)
      as [[_ E] | [_ E]]; rewrite E; cbn [price is_sell].
    + lra.
    + apply Q.le_min_r.
  - intros ->. unfold info.
    destruct (calculateClosePrice64_cases m now e a BUY bid ask)
      as [[_ E] | [_ E]]; rewrite E; cbn [price is_sell].
    + lra.
    + apply Q.le_max_r.
  - intros Hto. unfold info in *.
    destruct (calculateClosePrice64_cases m now e a sd bid ask)
      as [[_ E] | [_ E]]; rewrite E in Hto |- *;
      [discriminate Hto |].
    cbn [minProfitRequired]. fold fees.
    set (g := minProfitMargin (config m)).
    split; [reflexivity | split].
    + intros Hg. unfold fees. rewrite fees_rounded.
      apply add_nonneg_ge. apply mul_nonneg; [| exact Hg].
      apply mul_nonneg; lra.
    + intros Hg. unfold fees. rewrite fees_rounded.
      apply add_zero. apply mul_zero. exact Hg.
Qed.

End CloseStrategy64.

(** ** Volume admission controller *)

Section VolumeAdmission.

Import Volume.

(** The three ways [canExecuteTrade] ends. *)
Lemma canExecuteTrade_cases (o : VolumeStrategyOptimizer) (now now' : Z)
    (v : Q) :
  let used := getRecentVolume o now' 60000 in
  let cap := maxVolumePerMinute (config o) in
  let elapsed := (now - lastTradeTime o)%Z in
  (inject_Z elapsed < minTradeInterval (config o)
   /\ canExecuteTrade o now now' v
      = mkAdmission false
          (Some (IntervalTooShort elapsed (minTradeInterval (config o))))
          None)
  \/ (minTradeInterval (config o) <= inject_Z elapsed
      /\ cap < used + v
      /\ canExecuteTrade o now now' v
         = mkAdmission false (Some (VolumeLimitExceeded (used + v) cap))
                       (Some (Qmax (1 # 1000) (cap - used))))
  \/ (minTradeInterval (config o) <= inject_Z elapsed
      /\ used + v <= cap
      /\ canExecuteTrade o now now' v = mkAdmission true None None).
Proof.
  cbv zeta. unfold canExecuteTrade.
  destruct (JsCmp.lt (inject_Z (now - lastTradeTime o))
                     (minTradeInterval (config o))) eqn:Ei.
  - left. apply lt_true in Ei. split; [exact Ei | reflexivity].
  - apply lt_false in Ei. right.
    destruct (JsCmp.gt (getRecentVolume o now' 60000 + v)
                       (maxVolumePerMinute (config o))) eqn:Ev.
    + left. apply gt_true in Ev. repeat split; assumption.
    + right. apply gt_false in Ev. repeat split; assumption.
Qed.

End VolumeAdmission.

(** ** Volume admission controller in binary64 *)

Section VolumeAdmission64.

Import Volume.
Import Volume64.

(** The three ways [canExecuteTrade] ends. *)
Lemma canExecuteTrade64_cases (o : VolumeStrategyOptimizer) (now now' : Z)
    (v : Q) :
  let used := getRecentVolume o now' 60000 in
  let cap := maxVolumePerMinute (config o) in
  let elapsed := (now - lastTradeTime o)%Z in
  (inject_Z elapsed < minTradeInterval (config o)
   /\ canExecuteTrade o now now' v
      = mkAdmission false
          (Some (IntervalTooShort elapsed (minTradeInterval (config o))))
          None)
  \/ (minTradeInterval (config o) <= inject_Z elapsed
      /\ cap < Binary64.add used v
      /\ canExecuteTrade o now now' v
         = mkAdmission false
             (Some (VolumeLimitExceeded (Binary64.add used v) cap))
             (Some (Qmax minimumSuggestion (Binary64.sub cap used))))
  \/ (minTradeInterval (config o) <= inject_Z elapsed
      /\ Binary64.add used v <= cap
      /\ canExecuteTrade o now now' v = mkAdmission true None None).
Proof.
  cbv zeta. unfold canExecuteTrade.
  destruct (JsCmp.lt (inject_Z (now - lastTradeTime o))
                     (minTradeInterval (config o))) eqn:Ei.
  - left. apply lt_true in Ei. split; [exact Ei | reflexivity].
  - apply lt_false in Ei. right.
    destruct (JsCmp.gt (Binary64.add (getRecentVolume o now' 60000) v)
                       (maxVolumePerMinute (config o))) eqn:Ev.
    + left. apply gt_true in Ev. repeat split; assumption.
    + right. apply gt_false in Ev. repeat split; assumption.
Qed.

(** The floor of the suggestion is a binary64 value of normal size. *)
Lemma minimumSuggestion_rounded :
  Binary64.round minimumSuggestion == minimumSuggestion.
Proof. unfold minimumSuggestion. apply round_round. Qed.

Lemma minimumSuggestion_normal :
  Binary64.pow2 (-1022) <= minimumSuggestion.
Proof. apply Qle_bool_imp_le. vm_compute. reflexivity. Qed.

(** The suggestion does not add up to the cap.  With the default cap of
    100 used up by one recorded trade, a proposal of 1 is refused with
    the suggestion 0.001: suggestion plus used volume is 100.001.  With
    a cap of 3.6 of which 1.2 is used, a proposal of 3 is refused with
    the suggestion 2.4000000000000004, the binary64 difference of 3.6
    and 1.2: suggestion plus used volume is above 3.6, as a sum of
    rationals and as a binary64 sum. *)
Example C5_suggestion_floor_and_rounding :
  (let o := recordTrade (new defaultConfig 0) 10000 100 0 500 true in
   let a := canExecuteTrade o 20000 20000 1 in
   let used := getRecentVolume o 20000 60000 in
   rejected_on_volume a = true
   /\ used == 100
   /\ exists s, suggestedVolume a = Some s
                /\ s == minimumSuggestion
                /\ ~ (s + used == maxVolumePerMinute (config o))
                /\ ~ (Binary64.add s used
                      == maxVolumePerMinute (config o)))
  /\ (let cap := Binary64.round (36 # 10) in
      let c := mkConfig cap 5000 1000 30000 (1 # 1000) (2 # 1000) true
                        (5 # 10000) 1 in
      let o := recordTrade (new c 0) 10000 (Binary64.round (12 # 10)) 0
                           500 true in
      let a := canExecuteTrade o 20000 20000 3 in
      let used := getRecentVolume o 20000 60000 in
      rejected_on_volume a = true
      /\ used == Binary64.round (12 # 10)
      /\ exists s, suggestedVolume a = Some s
                   /\ s == Binary64.round (24000000000000004
                                           # 10000000000000000)
                   /\ cap < s + used
                   /\ cap < Binary64.add s used).
Proof.
  cbv zeta. split.
  - split; [vm_compute; reflexivity | split; [vm_compute; reflexivity |]].
    eexists. split; [vm_compute; reflexivity |].
    repeat split; vm_compute; congruence.
  - split; [vm_compute; reflexivity | split; [vm_compute; reflexivity |]].
    eexists. split; [vm_compute; reflexivity |].
    repeat split; vm_compute; reflexivity.
Qed.

(** C5 (amended).  [canExecuteTrade] allows only when the binary64 sum
    of the volume recorded in the last 60 seconds and the proposed
    volume does not exceed [maxVolumePerMinute] and the time since the
    last trade is at least [minTradeInterval].  When it refuses on the
    volume cap, the suggestion is [max(0.001, cap - used)], the
    difference being that of binary64, and never below 0.001.  When at
    least 0.001 of the cap is left the suggestion is the rounded
    remainder: suggestion plus used volume is the cap to within the
    rounding of the remainder, [2^-53] of it at most.  Otherwise the
    suggestion is the floor 0.001 and the sum is above the cap. *)
Theorem C5_volume_admission :
  forall (o : VolumeStrategyOptimizer) (now now' : Z) (v : Q),
    let a := canExecuteTrade o now now' v in
    let used := getRecentVolume o now' 60000 in
    let cap := maxVolumePerMinute (config o) in
    (allowed a = true ->
     Binary64.add used v <= cap
     /\ minTradeInterval (config o) <= inject_Z (now - lastTradeTime o))
    /\ (rejected_on_volume a = true ->
        cap < Binary64.add used v
        /\ exists s,
            suggestedVolume a = Some s
            /\ s == Qmax minimumSuggestion (Binary64.sub cap used)
            /\ minimumSuggestion <= s
            /\ (minimumSuggestion <= cap - used ->
                s == Binary64.sub cap used
                /\ Qabs (s + used - cap)
                   <= (cap - used) * Binary64.pow2 (-53))
            /\ (cap - used < minimumSuggestion ->
                s == minimumSuggestion /\ cap < s + used)).
Proof.
  intros o now now' v a used cap.
  destruct (canExecuteTrade64_cases o now now' v)
    as [[Hi E] | [[Hi [Hv E]] | [Hi [Hv E]]]];
    unfold a; rewrite E.
  - split; intros H; discriminate H.
  - fold used cap in Hv |- *.
    split; [intros H; discriminate H |]. intros _.
    split; [exact Hv |].
    exists (Qmax minimumSuggestion (Binary64.sub cap used)).
    split; [reflexivity | split; [reflexivity |]].
    split; [apply Q.le_max_l |].
    pose proof minimumSuggestion_rounded as Hf.
    pose proof minimumSuggestion_normal as Hn.
    pose proof (pow2_pos (-1022)) as Hp.
    split.
    + intros Hroom.
      assert (Hge : minimumSuggestion <= Binary64.sub cap used).
      { rewrite <- Hf. unfold Binary64.sub. apply round_le. exact Hroom. }
      assert (Es : Qmax minimumSuggestion (Binary64.sub cap used)
                   == Binary64.sub cap used).
      { destruct (Q.max_spec minimumSuggestion (Binary64.sub cap used))
          as [[_ Em] | [Hle Em]]; rewrite Em; lra. }
      split; [exact Es |].
      rewrite Es.
      assert (Ed : Binary64.sub cap used + used - cap
                   == Binary64.round (cap - used) - (cap - used)).
      { unfold Binary64.sub. ring. }
      rewrite Ed.
      assert (Ea : Qabs (cap - used) == cap - used)
        by (apply Qabs_pos; lra).
      pose proof (round_relative_error (cap - used)) as Herr.
      rewrite Ea in Herr. apply Herr. lra.
    + intros Hfloor.
      assert (Hle : Binary64.sub cap used <= minimumSuggestion).
      { rewrite <- Hf. unfold Binary64.sub. apply round_le. lra. }
      assert (Es : Qmax minimumSuggestion (Binary64.sub cap used)
                   == minimumSuggestion).
      { destruct (Q.max_spec minimumSuggestion (Binary64.sub cap used))
          as [[Hlt Em] | [_ Em]]; rewrite Em; lra. }
      split; [exact Es |]. rewrite Es. lra.
  - fold used cap in Hv |- *.
    split; [| intros H; discriminate H].
    intros _. split; assumption.
Qed.

End VolumeAdmission64.

(** ** Position PnL *)

Section PositionPnl.

Import Pnl.


(** What counts as a missing reference price. *)
Lemma isFinite_false_iff (x : Arg) :
  isFinite x = false
  <-> x = Null \/ x = Undefined \/ x = Value PosInf \/ x = Value NegInf
      \/ x = Value NaN.
Proof.
  split.
  - destruct x as [| | [q | | |]]; cbn; intros H;
      try discriminate H; auto 6.
  - intros [-> | [-> | [-> | [-> | ->]]]]; reflexivity.
Qed.

(** C10.  Whenever the reference price (the best bid for
    [positionAmt > 0], the best ask otherwise) is [null], [undefined] or
    not finite, [computePositionPnl] and [computeGrossPnl] return
    exactly 0, for every position and every fee figure. *)
Theorem C10_missing_price_gives_zero :
  forall (position : PositionSnapshot) (bestBid bestAsk : Arg)
         (totalFees : option Num),
    let ref := if gt0 (positionAmt position) then bestBid else bestAsk in
    ref = Null \/ ref = Undefined \/ ref = Value PosInf
    \/ ref = Value NegInf \/ ref = Value NaN ->
    computePositionPnl position bestBid bestAsk totalFees = Fin 0
    /\ computeGrossPnl position bestBid bestAsk = Fin 0
    /\ computeNetPnl position bestBid bestAsk totalFees = Fin 0.
Proof.
  intros position bestBid bestAsk totalFees ref H.
  apply isFinite_false_iff in H. unfold ref in H.
  unfold computeNetPnl, computePositionPnl, computeGrossPnl.
  rewrite H. cbn. repeat split; reflexivity.
Qed.

End PositionPnl.

(** ** Resilient request layer *)

Section ResilientRequests.

Import Http.

Variable w : World.
Variable N : nat.
Variables base mx : Q.
Variable statuses : list Z.




End ResilientRequests.

Section Backoff.

Import Http.


Lemma pow2_integral (n : nat) : pow2 n == inject_Z (2 ^ Z.of_nat n).
Proof.
  unfold pow2. rewrite Zpower_Qpower by lia. reflexivity.
Qed.

(** [Math.random() * base] lies in [[0, base)] for a positive base. *)
Lemma jitter_range (rnd base : Q) :
  0 < base -> 0 <= rnd < 1 -> 0 <= rnd * base < base.
Proof.
  intros Hb [H0 H1]. split.
  - apply Qmult_le_0_compat; lra.
  - assert (H : 0 < (1 - rnd) * base) by (apply Qmult_lt_0_compat; lra).
    assert (E : (1 - rnd) * base == base - rnd * base) by ring. lra.
Qed.


(** With a base of half a millisecond the delay is rounded down to 0,
    below [base * 2^0 + jitter] for every jitter in [[0, base)]. *)
Example computeBackoff_rounds_down :
  computeBackoff 0 0 (1 # 2) 1000 == 0
  /\ forall jitter, 0 <= jitter < 1 # 2 ->
       ~ (computeBackoff 0 0 (1 # 2) 1000
          == Qmin 1000 ((1 # 2) * pow2 0 + jitter)).
Proof.
  split; [reflexivity |].
  intros jitter [H0 H1] H.
  assert (E : computeBackoff 0 0 (1 # 2) 1000 == 0) by reflexivity.
  change (pow2 0) with 1 in H.
  destruct (Q.min_spec 1000 ((1 # 2) * 1 + jitter)) as [[? Em] | [? Em]];
    rewrite Em in H; lra.
Qed.

End Backoff.

Section SafeFetch.

Import Http.



End SafeFetch.

(** * The theorems at concrete inputs *)

Section Instances.

(** C1 at a profit of 10 followed by a loss of 30, with
    [emergencyStopLoss = 25]: the drawdown is 30, the loss switches the
    latch on, and it stays on over a further trade and a daily reset.
    And at seven losses of 0.1 followed by an eighth, with
    [emergencyStopLoss = 0.8]: the drawdown of the eight is below 0.8
    in binary64 and the eighth loss leaves the latch off. *)
Lemma C1_drawdown_and_emergency_latch_witness :
  let lim := Risk.mkLimits 1 100 3 100 60000 25 in
  let first := [Risk.RecordTrade 1000 10 false] in
  let cs := [Risk.RecordTrade 1000 10 false;
             Risk.RecordTrade 2000 (-30) false] in
  let m := Risk64.run (Risk.new lim) cs in
  let tenth := Binary64.round (1 # 10) in
  let lim' := Risk.mkLimits 1 10 100 10 60000 (Binary64.round (8 # 10)) in
  let seven := map (fun k => Risk.RecordTrade k (- tenth) false)
                   [1; 2; 3; 4; 5; 6; 7]%Z in
  Risk.currentDrawdown (Risk.state m) == 30
  /\ Risk.emergencyStopTriggered
       (Risk.state (Risk64.recordTrade (Risk64.run (Risk.new lim) first)
                                       2000 (-30) false)) = true
  /\ Risk.emergencyStopTriggered
       (Risk.state (Risk64.run m [Risk.RecordTrade 3000 5 false;
                                  Risk.ResetDailyStats])) = true
  /\ Risk.emergencyStopTriggered
       (Risk.state (Risk64.recordTrade (Risk64.run (Risk.new lim') seven)
                                       8 (- tenth) false)) = false.
Proof.
  cbv zeta.
  set (lim := Risk.mkLimits 1 100 3 100 60000 25).
  set (lim' := Risk.mkLimits 1 10 100 10 60000 (Binary64.round (8 # 10))).
  set (tenth := Binary64.round (1 # 10)).
  split; [| split; [| split]].
  - destruct (C1_drawdown_and_emergency_latch lim
                [Risk.RecordTrade 1000 10 false;
                 Risk.RecordTrade 2000 (-30) false]) as [Hd _].
    cbv zeta in Hd. eapply Qeq_trans; [exact Hd |].
    vm_compute. reflexivity.
  - destruct (C1_drawdown_and_emergency_latch lim
                [Risk.RecordTrade 1000 10 false]) as [_ [Hstep _]].
    destruct (Hstep 2000%Z (-30) false) as [_ Hiff].
    apply Hiff.
    + reflexivity.
    + apply Qle_bool_imp_le. vm_compute. reflexivity.
  - destruct (C1_drawdown_and_emergency_latch lim
                [Risk.RecordTrade 1000 10 false;
                 Risk.RecordTrade 2000 (-30) false]) as [_ [_ [Hlatch _]]].
    apply Hlatch; reflexivity.
  - destruct (C1_drawdown_and_emergency_latch lim'
                (map (fun k => Risk.RecordTrade k (- tenth) false)
                     [1; 2; 3; 4; 5; 6; 7]%Z)) as [_ [Hstep _]].
    destruct (Hstep 8%Z (- tenth) false) as [_ Hiff].
    specialize (Hiff ltac:(vm_compute; reflexivity)).
    match goal with
    | |- ?latch = false => destruct latch; [exfalso | reflexivity]
    end.
    destruct Hiff as [Hon _]. specialize (Hon eq_refl).
    apply Qle_bool_iff in Hon. vm_compute in Hon. discriminate Hon.
Defined.

(** C2 at a manager in cooldown and over the daily-loss limit, the
    emergency stop not triggered: two losses of 6 with
    [maxConsecutiveLosses = 2] and [maxDailyLoss = 5]. *)
Lemma C2_gate_priority_witness :
  let lim := Risk.mkLimits 1 5 2 100 60000 1000 in
  let m := Risk.run (Risk.new lim) [Risk.RecordTrade 1000 (-6) false;
                                    Risk.RecordTrade 2000 (-6) false] in
  Risk.gate_fails m 2500 (1 # 2) Risk.CooldownGate = true
  /\ Risk.gate_fails m 2500 (1 # 2) Risk.DailyLossGate = true
  /\ Risk.canOpenPosition m 2500 (1 # 2) = Risk.reject Risk.Cooldown.
Proof.
  cbv zeta.
  set (m := Risk.run _ _).
  assert (Hc : Risk.gate_fails m 2500 (1 # 2) Risk.CooldownGate = true)
    by (vm_compute; reflexivity).
  assert (Hd : Risk.gate_fails m 2500 (1 # 2) Risk.DailyLossGate = true)
    by (vm_compute; reflexivity).
  destruct (C2_gate_priority m 2500 (1 # 2)) as [_ H].
  destruct (H Hc Hd) as [_ [Hcool _]].
  split; [exact Hc | split; [exact Hd |]].
  apply Hcool. vm_compute. reflexivity.
Defined.

(** C3 with the default margin of 0.0001: entry at 100, amount 1.  The
    close price stays at or below the bid of 101 and the required
    profit is at least the fee total; with a margin of 0 it is the fee
    total. *)
Lemma C3_close_price_bounds_and_fee_cover_witness :
  let m := Close64.new (Close.mkPartial None None None) in
  let m0 := Close64.new (Close.mkPartial (Some 0) None None) in
  let info := Close64.calculateClosePrice m 0 100 1 Close.SELL 101 102 in
  let info0 := Close64.calculateClosePrice m0 0 100 1 Close.SELL 101 102 in
  let fees := Binary64.add (Close64.openFee 100 1)
                           (Close64.closeFee 100 1) in
  Close.price info <= 101
  /\ fees <= Close.minProfitRequired info
  /\ Close.minProfitRequired info0 == fees.
Proof.
  cbv zeta.
  set (m := Close64.new (Close.mkPartial None None None)).
  set (m0 := Close64.new (Close.mkPartial (Some 0) None None)).
  destruct (C3_close_price_bounds_and_fee_cover m 0 100 1 Close.SELL 101 102)
    as [Hsell [_ Hfee]]; [reflexivity | reflexivity |].
  destruct (C3_close_price_bounds_and_fee_cover m0 0 100 1 Close.SELL 101 102)
    as [_ [_ Hfee0]]; [reflexivity | reflexivity |].
  split; [| split].
  - apply Hsell. reflexivity.
  - destruct Hfee as [_ [Hge _]]; [reflexivity |].
    apply Hge. vm_compute. discriminate.
  - destruct Hfee0 as [_ [_ Heq]]; [reflexivity |].
    apply Heq. reflexivity.
Defined.


(** C5 with 40 of the default cap of 100 used: a proposal of 50 is
    allowed, a proposal of 70 is refused with the suggestion 60.  With
    the cap used up, the suggestion on a refusal is the floor 0.001 and
    the sum is above the cap. *)
Lemma C5_volume_admission_witness :
  let o := Volume.recordTrade (Volume.new Volume.defaultConfig 0)
                              10000 40 0 500 true in
  let o' := Volume.recordTrade (Volume.new Volume.defaultConfig 0)
                               10000 100 0 500 true in
  let used := Volume64.getRecentVolume o 20000 60000 in
  let used' := Volume64.getRecentVolume o' 20000 60000 in
  Binary64.add used 50 <= 100
  /\ (exists s,
         Volume.suggestedVolume (Volume64.canExecuteTrade o 20000 20000 70)
         = Some s
         /\ s == 60)
  /\ (exists s,
         Volume.suggestedVolume (Volume64.canExecuteTrade o' 20000 20000 1)
         = Some s
         /\ s == Volume64.minimumSuggestion
         /\ 100 < s + used').
Proof.
  cbv zeta.
  set (o := Volume.recordTrade _ _ 40 _ _ _).
  set (o' := Volume.recordTrade _ _ 100 _ _ _).
  split; [| split].
  - destruct (C5_volume_admission o 20000 20000 50) as [Hallow _].
    destruct Hallow as [Hv _]; [vm_compute; reflexivity | exact Hv].
  - destruct (C5_volume_admission o 20000 20000 70) as [_ Hrej].
    destruct Hrej as [_ [s [Hs [_ [_ [Hfit _]]]]]];
      [vm_compute; reflexivity |].
    exists s. split; [exact Hs |].
    destruct Hfit as [Hd _];
      [apply Qle_bool_imp_le; vm_compute; reflexivity |].
    rewrite Hd. vm_compute. reflexivity.
  - destruct (C5_volume_admission o' 20000 20000 1) as [_ Hrej].
    destruct Hrej as [_ [s [Hs [_ [_ [_ Hfloor]]]]]];
      [vm_compute; reflexivity |].
    exists s. split; [exact Hs |].
    apply Hfloor. vm_compute. reflexivity.
Defined.


(** C7 with the default timeout of 60000 ms: started at 1000, asked at
    70000. *)
Lemma C7_timeout_fallback_witness :
  let m := Close.startCloseStrategy
             (Close.new (Close.mkPartial None None None)) 1000 in
  Close.calculateClosePrice m 70000 100 1 Close.SELL (10002 # 100) 101
  = Close.mkInfo Close.SELL (10002 # 100) 1 0 true Close.original.
Proof.
  cbv zeta.
  destruct (C7_timeout_fallback (Close.new (Close.mkPartial None None None))
              1000 70000 100 1 Close.SELL (10002 # 100) 101)
    as [_ [_ H]].
  - reflexivity.
  - reflexivity.
  - exact H.
Defined.

(** C8 at three losses of 1 with [cooldownPeriod = 60000]: inside the
    window the reason is the cooldown one, after it the loss streak. *)
Lemma C8_three_losses_witness :
  let lim := Risk.mkLimits 1 100 3 100 60000 1000 in
  let m := Risk.run (Risk.new lim) [Risk.RecordTrade 1000 (-1) false;
                                    Risk.RecordTrade 2000 (-1) false;
                                    Risk.RecordTrade 3000 (-1) false] in
  Risk.isInCooldown (Risk.state m) = true
  /\ Risk.allowed (Risk.canOpenPosition m 3001 (1 # 2)) = false
  /\ Risk.canOpenPosition m 3001 (1 # 2) = Risk.reject Risk.Cooldown
  /\ Risk.canOpenPosition m 70000 (1 # 2)
     = Risk.reject (Risk.LossStreak 3 3).
Proof.
  cbv zeta.
  destruct (C8_three_losses (Risk.mkLimits 1 100 3 100 60000 1000)
              1000 2000 3000 (-1) (-1) (-1) false false false)
    as [Hcool [_ [_ Hcall]]]; try reflexivity.
  split; [exact Hcool |].
  destruct (Hcall 3001%Z (1 # 2)) as [Hno [_ [_ [Hin _]]]].
  destruct (Hcall 70000%Z (1 # 2)) as [_ [_ [Hstreak _]]].
  split; [exact Hno |]. split.
  - apply Hin; reflexivity.
  - apply Hstreak; reflexivity.
Defined.


(** C10 for a long whose best bid is [null]. *)
Lemma C10_missing_price_gives_zero_witness :
  let long := Pnl.mkPosition "BTCUSDT" (Pnl.Fin 2) (Pnl.Fin 100) in
  Pnl.computePositionPnl long Pnl.Null (Pnl.Value (Pnl.Fin 101))
    (Some (Pnl.Fin (1 # 2))) = Pnl.Fin 0
  /\ Pnl.computeGrossPnl long Pnl.Null (Pnl.Value (Pnl.Fin 101))
     = Pnl.Fin 0.
Proof.
  cbv zeta.
  destruct (C10_missing_price_gives_zero
              (Pnl.mkPosition "BTCUSDT" (Pnl.Fin 2) (Pnl.Fin 100))
              Pnl.Null (Pnl.Value (Pnl.Fin 101)) (Some (Pnl.Fin (1 # 2))))
    as [H1 [H2 _]].
  - left. reflexivity.
  - split; [exact H1 | exact H2].
Defined.

End Instances.

(** * Further properties of the risk manager *)

Section RiskFurther.

Import Risk.

Lemma step_history_pnls (m : RiskManager) (c : Call) :
  map pnl (tradeHistory (step m c)) = map pnl (tradeHistory m) ++ recorded [c].
Proof.
  destruct c as [now p mk | |]; cbn [step recorded].
  - rewrite recordTrade_history, map_app. reflexivity.
  - rewrite app_nil_r. reflexivity.
  - rewrite app_nil_r. reflexivity.
Qed.

Lemma drawdown_from_zero_nonneg (l : list Q) : 0 <= drawdown_from_zero l.
Proof. unfold drawdown_from_zero. apply fold_max_ge_init. Qed.

Lemma step_keeps_drawdown (lim : RiskLimits) (cs : list Call) (c : Call) :
  0 <= currentDrawdown (state (run (new lim) cs))
  /\ currentDrawdown (state (run (new lim) cs))
     <= currentDrawdown (state (step (run (new lim) cs) c)).
Proof.
  set (m := run (new lim) cs).
  destruct (run_invariant lim cs) as [Hh Hd]. fold m in Hh, Hd.
  split.
  - rewrite Hd, drawdown_spec_from_zero. apply drawdown_from_zero_nonneg.
  - destruct c as [now p mk | |]; cbn [step]; try (cbn; lra).
    rewrite recordTrade_drawdown_spec, Hh, Hd, !drawdown_spec_from_zero.
    rewrite drawdown_from_zero_snoc. apply Qmax_ge_l.
Qed.

(** X1.  The stored drawdown is never negative and no call lowers it: it is
    a maximum over the whole history, which no call shortens. *)
Theorem drawdown_never_decreases :
  forall (lim : RiskLimits) (cs : list Call) (c : Call),
    let m := run (new lim) cs in
    0 <= currentDrawdown (state m)
    /\ currentDrawdown (state m) <= currentDrawdown (state (step m c)).
Proof.
  intros lim cs c m. apply step_keeps_drawdown.
Qed.

(** In a state reached from a fresh manager a latch that is on means
    that the stored drawdown has reached [emergencyStopLoss]. *)
Lemma latch_means_drawdown (lim : RiskLimits) (cs : list Call) :
  emergencyStopTriggered (state (run (new lim) cs)) = true ->
  emergencyStopLoss lim <= currentDrawdown (state (run (new lim) cs)).
Proof.
  induction cs as [| c cs IH] using rev_ind.
  - cbn. discriminate.
  - rewrite run_snoc.
    destruct (step_keeps_drawdown lim cs c) as [_ Hmono].
    cbv zeta in Hmono.
    destruct c as [now p mk | |]; cbn [step] in *.
    + rewrite recordTrade_emergency, run_limits. cbn [limits new].
      intros H. apply orb_true_iff in H as [H | H].
      * specialize (IH H). lra.
      * apply ge_true in H. exact H.
    + exact IH.
    + cbn. discriminate.
Qed.

(** X2.  Once the latch has been set, [resetEmergencyStop] holds only until
    the next trade: whatever its PnL, the next [recordTrade] sets the
    latch again, because the drawdown is recomputed over the whole
    history. *)
Theorem emergency_reset_undone_by_next_trade :
  forall (lim : RiskLimits) (cs : list Call) (now : Z) (p : Q) (mk : bool),
    let m := run (new lim) cs in
    emergencyStopTriggered (state m) = true ->
    emergencyStopTriggered (state (resetEmergencyStop m)) = false
    /\ emergencyStopTriggered
         (state (recordTrade (resetEmergencyStop m) now p mk)) = true.
Proof.
  intros lim cs now p mk m Hon.
  split; [reflexivity |].
  pose proof (latch_means_drawdown lim cs Hon) as Hdd. fold m in Hdd.
  destruct (step_keeps_drawdown lim cs (RecordTrade now p mk))
    as [_ Hmono]. cbv zeta in Hmono. fold m in Hmono. cbn [step] in Hmono.
  rewrite recordTrade_emergency.
  assert (E : currentDrawdown (state (recordTrade (resetEmergencyStop m) now p mk))
              = currentDrawdown (state (recordTrade m now p mk))).
  { rewrite !recordTrade_currentDrawdown. reflexivity. }
  rewrite E.
  assert (Hl : limits (resetEmergencyStop m) = lim).
  { cbn [limits resetEmergencyStop]. unfold m. apply run_limits. }
  rewrite Hl.
  replace (JsCmp.ge (currentDrawdown (state (recordTrade m now p mk)))
                    (emergencyStopLoss lim)) with true.
  - apply orb_true_r.
  - symmetry. apply ge_true. lra.
Qed.

(** X3.  A trade recorded while the cooldown flag is set leaves it set and
    moves [lastTradeTime], so it restarts the cooldown window: until
    [cooldownPeriod] has passed since that trade, [canOpenPosition]
    answers with the cooldown reason (unless the emergency stop is
    on), even if the trade was a winning one. *)
Theorem trade_restarts_cooldown :
  forall (m : RiskManager) (now t : Z) (p size : Q) (mk : bool),
    let m' := recordTrade m now p mk in
    isInCooldown (state m) = true ->
    isInCooldown (state m') = true
    /\ lastTradeTime (state m') = now
    /\ (0 <= p -> consecutiveLosses (state m') = O)
    /\ (emergencyStopTriggered (state m') = false ->
        inject_Z (t - now) < cooldownPeriod (limits m) ->
        canOpenPosition m' t size = reject Cooldown).
Proof.
  intros m now t p size mk m' Hcool.
  assert (H1 : isInCooldown (state m') = true).
  { unfold m'. rewrite recordTrade_isInCooldown, Hcool. reflexivity. }
  assert (H2 : lastTradeTime (state m') = now)
    by apply recordTrade_lastTradeTime.
  split; [exact H1 | split; [exact H2 | split]].
  - intros Hp. unfold m'. rewrite recordTrade_state. cbn.
    replace (JsCmp.lt p 0) with false; [reflexivity |].
    symmetry. apply lt_false. exact Hp.
  - intros He Hw. unfold canOpenPosition.
    rewrite He, H1, H2. change (limits m') with (limits m).
    apply lt_true in Hw. rewrite Hw. reflexivity.
Qed.

(** X5.  Without [resetDailyStats], [consecutiveLosses] is the number of
    losing trades at the end of the recorded sequence. *)
Theorem consecutiveLosses_is_trailing_streak :
  forall (lim : RiskLimits) (cs : list Call),
    forallb (fun c => negb (is_reset_daily c)) cs = true ->
    consecutiveLosses (state (run (new lim) cs))
    = trailing_losses (recorded cs).
Proof.
  intros lim cs.
  induction cs as [| c cs IH] using rev_ind; intros Hcs.
  - reflexivity.
  - rewrite forallb_app in Hcs. apply andb_true_iff in Hcs as [Hcs Hc].
    specialize (IH Hcs). rewrite run_snoc, recorded_app.
    destruct c as [now p mk | |]; cbn [step recorded].
    + rewrite recordTrade_state. cbn [consecutiveLosses].
      unfold trailing_losses in *. rewrite rev_app_distr. cbn.
      destruct (JsCmp.lt p 0); [rewrite IH |]; reflexivity.
    + discriminate Hc.
    + rewrite app_nil_r. exact IH.
Qed.

End RiskFurther.

Section RiskSizingAndAdvice.

Import Risk.



(** X7.  Whenever [canOpenPosition] is refused on the emergency stop, the
    cooldown, the loss streak, the daily loss or the drawdown, the
    limit concerned being positive, [getRiskAdvice] at the same clock
    reading carries the matching advice; the cooldown advice shows at
    least one second left. *)
Theorem refusal_comes_with_advice :
  forall (m : RiskManager) (now : Z) (size : Q),
    let advice := getRiskAdvice m now in
    (gate_fails m now size EmergencyGate = true ->
     In EmergencyNeedsReset advice)
    /\ (gate_fails m now size CooldownGate = true ->
        exists seconds, (1 <= seconds)%Z
                        /\ In (CooldownRemaining seconds) advice)
    /\ (gate_fails m now size LossStreakGate = true ->
        0 < maxConsecutiveLosses (limits m) ->
        In LossStreakNearLimit advice)
    /\ (gate_fails m now size DailyLossGate = true ->
        0 < maxDailyLoss (limits m) ->
        In DailyLossNearLimit advice)
    /\ (gate_fails m now size DrawdownGate = true ->
        0 < maxDrawdown (limits m) ->
        In DrawdownNearLimit advice).
Proof.
  intros m now size advice. unfold advice, getRiskAdvice.
  cbn [gate_fails].
  repeat split.
  - intros H. rewrite H. repeat (apply in_or_app; right). left. reflexivity.
  - intros H. apply andb_true_iff in H as [Hc Hw]. apply lt_true in Hw.
    set (remaining := cooldownPeriod (limits m)
                      - inject_Z (now - lastTradeTime (state m))).
    assert (Hpos : 0 < remaining) by (unfold remaining; lra).
    exists (Qceiling (remaining / 1000)). split.
    + assert (Hq : 0 < remaining / 1000).
      { apply Qlt_shift_div_l; lra. }
      pose proof (Qle_ceiling (remaining / 1000)) as Hceil.
      assert (Hz : 0 < inject_Z (Qceiling (remaining / 1000))) by lra.
      rewrite <- (Zlt_Qlt 0) in Hz. lia.
    + rewrite Hc. fold remaining.
      replace (JsCmp.gt remaining 0) with true
        by (symmetry; apply gt_true; exact Hpos).
      do 3 (apply in_or_app; right). apply in_or_app. left.
      left. reflexivity.
  - intros H Hpos. apply ge_true in H.
    replace (JsCmp.gt (of_count (consecutiveLosses (state m)))
                      (maxConsecutiveLosses (limits m) * (7 # 10)))
      with true by (symmetry; apply gt_true; lra).
    apply in_or_app. right. apply in_or_app. left. left. reflexivity.
  - intros H Hpos. apply ge_true in H.
    replace (JsCmp.gt (dailyLoss (state m))
                      (maxDailyLoss (limits m) * (8 # 10)))
      with true by (symmetry; apply gt_true; lra).
    do 2 (apply in_or_app; right). apply in_or_app. left. left. reflexivity.
  - intros H Hpos. apply ge_true in H.
    replace (JsCmp.gt (currentDrawdown (state m))
                      (maxDrawdown (limits m) * (8 # 10)))
      with true by (symmetry; apply gt_true; lra).
    apply in_or_app. left. left. reflexivity.
Qed.

(** [resetDailyStats] lifts the cooldown, loss-streak and daily-loss
    gates (for positive limits) and nothing else: the emergency stop,
    the size gate and the drawdown gate answer as before. *)
Theorem daily_reset_lifts_three_gates :
  forall (m : RiskManager) (now : Z) (size : Q),
    let m' := resetDailyStats m in
    0 < maxConsecutiveLosses (limits m) ->
    0 < maxDailyLoss (limits m) ->
    gate_fails m' now size CooldownGate = false
    /\ gate_fails m' now size LossStreakGate = false
    /\ gate_fails m' now size DailyLossGate = false
    /\ gate_fails m' now size EmergencyGate
       = gate_fails m now size EmergencyGate
    /\ gate_fails m' now size PositionSizeGate
       = gate_fails m now size PositionSizeGate
    /\ gate_fails m' now size DrawdownGate
       = gate_fails m now size DrawdownGate
    /\ tradeHistory m' = tradeHistory m.
Proof.
  intros m now size m' Hs Hd. unfold m'. cbn.
  repeat split.
  - apply ge_false. exact Hs.
  - apply ge_false. exact Hd.
Qed.

End RiskSizingAndAdvice.

(** * Further properties of the close strategy *)

Section CloseFurther.

Import Close.

(** X8.  [getStrategyStatus] and [calculateClosePrice] read the timeout the
    same way, but the price computation reports it only when
    [fallbackToOriginal] is set: with the fallback off, a strategy that
    the status calls timed out goes on computing fee-covering prices
    and reports [isTimeout = false]. *)
Theorem status_and_close_info_timeout :
  forall (m : CloseStrategyManager) (now : Z) (e a : Q) (sd : Side)
         (bid ask : Q),
    let status := getStrategyStatus m now in
    let info := calculateClosePrice m now e a sd bid ask in
    isTimeout info = status_isTimeout status && fallbackToOriginal (config m)
    /\ (strategy info = original <-> isTimeout info = true)
    /\ (status_isTimeout status = true ->
        isActive m = true
        /\ timeoutMs (config m) < inject_Z (now - orderStartTime m)
        /\ remainingTime status == 0)
    /\ 0 <= remainingTime status.
Proof.
  intros m now e a sd bid ask status info.
  assert (Hst : status_isTimeout status = timed_out m now).
  { unfold status, getStrategyStatus, timed_out. cbn.
    destruct (isActive m); reflexivity. }
  split; [| split; [| split]].
  - rewrite Hst. unfold info.
    destruct (calculateClosePrice_cases m now e a sd bid ask)
      as [[Hc E] | [Hc E]]; rewrite E, Hc; reflexivity.
  - unfold info.
    destruct (calculateClosePrice_cases m now e a sd bid ask)
      as [[Hc E] | [Hc E]]; rewrite E; cbn; split; congruence.
  - rewrite Hst. unfold timed_out. intros H.
    apply andb_true_iff in H as [Ha Hgt]. apply gt_true in Hgt.
    split; [exact Ha | split; [exact Hgt |]].
    unfold status, getStrategyStatus. cbn. rewrite Ha.
    destruct (Q.max_spec 0 (timeoutMs (config m)
                            - inject_Z (now - orderStartTime m)))
      as [[H1 E] | [H1 E]]; rewrite E; lra.
  - unfold status, getStrategyStatus. cbn. apply Qmax_ge_l.
Qed.

(** X9.  [getStrategyAdvice] always returns exactly one message: "not
    active" when no strategy is running, "timed out" when the running
    one is past [timeoutMs] (whether or not the fallback is
    configured), and otherwise the seconds left, a number that is not
    negative. *)
Theorem strategy_advice_is_single :
  forall (m : CloseStrategyManager) (now : Z),
    (isActive m = false /\ getStrategyAdvice m now = [NotActive])
    \/ (isActive m = true
        /\ timeoutMs (config m) < inject_Z (now - orderStartTime m)
        /\ getStrategyAdvice m now = [TimedOutFellBack])
    \/ (isActive m = true
        /\ inject_Z (now - orderStartTime m) <= timeoutMs (config m)
        /\ exists seconds,
             (0 <= seconds)%Z
             /\ getStrategyAdvice m now = [Running seconds]).
Proof.
  intros m now. unfold getStrategyAdvice, getStrategyStatus.
  cbn [status_isActive status_isTimeout remainingTime].
  destruct (isActive m) eqn:Ha; cbn [andb negb].
  - right.
    destruct (JsCmp.gt (inject_Z (now - orderStartTime m))
                       (timeoutMs (config m))) eqn:Et.
    + left. apply gt_true in Et.
      split; [reflexivity | split; [exact Et | reflexivity]].
    + right. apply gt_false in Et. split; [reflexivity |].
      split; [exact Et |].
      eexists. split; [| cbn; reflexivity].
      set (r := Qmax 0 (timeoutMs (config m)
                        - inject_Z (now - orderStartTime m))).
      assert (Hr : 0 <= r) by apply Qmax_ge_l.
      assert (Hq : 0 <= r / 1000).
      { apply Qle_shift_div_l; lra. }
      pose proof (Qle_ceiling (r / 1000)) as Hc.
      assert (Hz : inject_Z (-1) < inject_Z (Qceiling (r / 1000))).
      { change (inject_Z (-1)) with (-1). lra. }
      rewrite <- Zlt_Qlt in Hz. lia.
  - left. split; reflexivity.
Qed.

(** [stopCloseStrategy] switches the timeout off for good, and
    [startCloseStrategy] restarts the clock: a stopped manager never
    falls back, whatever the time, and one started at [t] does not fall
    back up to and including [t + timeoutMs]. *)
Theorem stop_and_restart_timeout :
  forall (m : CloseStrategyManager) (t now : Z) (e a : Q) (sd : Side)
         (bid ask : Q),
    calculateClosePrice (stopCloseStrategy m) now e a sd bid ask
    = profit_cover_info m e a sd bid ask
    /\ (inject_Z (now - t) <= timeoutMs (config m) ->
        calculateClosePrice (startCloseStrategy m t) now e a sd bid ask
        = profit_cover_info m e a sd bid ask).
Proof.
  intros m t now e a sd bid ask. split.
  - unfold calculateClosePrice, timed_out. cbn. reflexivity.
  - intros H. apply gt_false in H.
    unfold calculateClosePrice, timed_out. cbn. rewrite H. reflexivity.
Qed.

(** X10.  Once a strategy has timed out with the fallback configured,
    [shouldUseMarketClose] is true whatever the prices. *)
Theorem timeout_forces_market_close :
  forall (m : CloseStrategyManager) (now : Z) (e a : Q) (sd : Side)
         (bid ask : Q),
    isActive m = true ->
    fallbackToOriginal (config m) = true ->
    timeoutMs (config m) < inject_Z (now - orderStartTime m) ->
    shouldUseMarketClose m now e a sd bid ask = true.
Proof.
  intros m now e a sd bid ask Ha Hf Ht.
  unfold shouldUseMarketClose, calculateClosePrice, timed_out.
  apply gt_true in Ht. rewrite Ha, Ht, Hf. reflexivity.
Qed.

End CloseFurther.

(** * Properties of the fee schedule *)

Section FeeSchedule.

Import Fee.

Lemma getFeeRate_cases (orderType : string) (isMaker : bool) :
  (orderType = "LIMIT"%string /\ isMaker = true
   /\ getFeeRate orderType isMaker = LIMIT_MAKER)
  \/ (~ (orderType = "LIMIT"%string /\ isMaker = true)
      /\ getFeeRate orderType isMaker = MARKET_TAKER).
Proof.
  unfold getFeeRate.
  destruct (String.eqb orderType "LIMIT") eqn:El.
  - apply String.eqb_eq in El. destruct isMaker.
    + left. repeat split. exact El.
    + right. split; [intros [_ H]; discriminate H | reflexivity].
  - apply String.eqb_neq in El. right.
    split; [intros [H _]; contradiction |].
    destruct (String.eqb orderType "MARKET"); [reflexivity |].
    destruct (String.eqb orderType "STOP_MARKET"); [reflexivity |].
    destruct (String.eqb orderType "TRAILING_STOP_MARKET"); reflexivity.
Qed.

(** X12.  Only a LIMIT order flagged as maker pays the maker rate (0.0001);
    every other order, of a known type or not, pays the taker rate
    (0.00035). *)
Theorem maker_rate_only_for_limit_makers :
  forall (orderType : string) (isMaker : bool),
    (orderType = "LIMIT"%string /\ isMaker = true
     /\ getFeeRate orderType isMaker = LIMIT_MAKER)
    \/ (~ (orderType = "LIMIT"%string /\ isMaker = true)
        /\ getFeeRate orderType isMaker = MARKET_TAKER).
Proof.
  intros orderType isMaker. apply getFeeRate_cases.
Qed.

Lemma batch_breakdown (orders : list Order) (acc : BatchFees) :
  batch_feeBreakdown (fold_left batch_iter orders acc)
  = batch_feeBreakdown acc
    ++ map (fun o => calculateOrderFee (order_type o) (order_isMaker o)
                                       (order_notional o)) orders.
Proof.
  revert acc. induction orders as [| o orders IH]; intros acc;
    cbn [fold_left map].
  - rewrite app_nil_r. reflexivity.
  - rewrite IH. cbn [batch_iter batch_feeBreakdown].
    rewrite <- app_assoc. reflexivity.
Qed.


(** The two loops add the same fees to their totals in the same order. *)
Lemma stats_total_follows_batch (orders : list Order) (sa : FeeStats * Q)
    (ba : BatchFees) :
  totalFees (fst sa) = batch_totalFees ba ->
  totalFees (fst (fold_left feeStats_iter orders sa))
  = batch_totalFees (fold_left batch_iter orders ba).
Proof.
  revert sa ba. induction orders as [| o orders IH]; intros sa ba H;
    cbn [fold_left].
  - exact H.
  - apply IH. destruct sa as [st tn]. cbn [fst] in H.
    cbn [feeStats_iter batch_iter fst totalFees batch_totalFees].
    rewrite H. reflexivity.
Qed.

(** When every order goes to the same bucket, that bucket follows the
    total and the other one is left alone. *)
Lemma all_maker_loop (orders : list Order) (sa : FeeStats * Q) :
  forallb order_isMaker orders = true ->
  makerFees (fst sa) = totalFees (fst sa) ->
  let r := fst (fold_left feeStats_iter orders sa) in
  makerFees r = totalFees r /\ takerFees r = takerFees (fst sa).
Proof.
  revert sa. induction orders as [| o orders IH]; intros sa Hall H;
    cbn [fold_left].
  - split; [exact H | reflexivity].
  - cbn [forallb] in Hall. apply andb_true_iff in Hall as [Ho Hall].
    destruct sa as [st tn]. cbn [fst] in H.
    destruct (IH (feeStats_iter (st, tn) o) Hall) as [H1 H2].
    + cbn [feeStats_iter calculateOrderFee isMaker fst makerFees totalFees].
      rewrite Ho, H. reflexivity.
    + split; [exact H1 |]. rewrite H2.
      cbn [feeStats_iter calculateOrderFee isMaker fst takerFees].
      rewrite Ho. reflexivity.
Qed.

Lemma all_taker_loop (orders : list Order) (sa : FeeStats * Q) :
  forallb (fun o => negb (order_isMaker o)) orders = true ->
  takerFees (fst sa) = totalFees (fst sa) ->
  let r := fst (fold_left feeStats_iter orders sa) in
  takerFees r = totalFees r /\ makerFees r = makerFees (fst sa).
Proof.
  revert sa. induction orders as [| o orders IH]; intros sa Hall H;
    cbn [fold_left].
  - split; [exact H | reflexivity].
  - cbn [forallb] in Hall. apply andb_true_iff in Hall as [Ho Hall].
    apply negb_true_iff in Ho.
    destruct sa as [st tn]. cbn [fst] in H.
    destruct (IH (feeStats_iter (st, tn) o) Hall) as [H1 H2].
    + cbn [feeStats_iter calculateOrderFee isMaker fst takerFees totalFees].
      rewrite Ho, H. reflexivity.
    + split; [exact H1 |]. rewrite H2.
      cbn [feeStats_iter calculateOrderFee isMaker fst makerFees].
      rewrite Ho. reflexivity.
Qed.

Lemma all_limit_loop (orders : list Order) (sa : FeeStats * Q) :
  forallb (fun o => String.eqb (order_type o) "LIMIT") orders = true ->
  limitOrderFees (fst sa) = totalFees (fst sa) ->
  let r := fst (fold_left feeStats_iter orders sa) in
  limitOrderFees r = totalFees r
  /\ marketOrderFees r = marketOrderFees (fst sa).
Proof.
  revert sa. induction orders as [| o orders IH]; intros sa Hall H;
    cbn [fold_left].
  - split; [exact H | reflexivity].
  - cbn [forallb] in Hall. apply andb_true_iff in Hall as [Ho Hall].
    destruct sa as [st tn]. cbn [fst] in H.
    destruct (IH (feeStats_iter (st, tn) o) Hall) as [H1 H2].
    + cbn [feeStats_iter fst limitOrderFees totalFees].
      rewrite Ho, H. reflexivity.
    + split; [exact H1 |]. rewrite H2.
      cbn [feeStats_iter fst marketOrderFees].
      rewrite Ho. reflexivity.
Qed.

Lemma no_limit_loop (orders : list Order) (sa : FeeStats * Q) :
  forallb (fun o => negb (String.eqb (order_type o) "LIMIT")) orders
  = true ->
  marketOrderFees (fst sa) = totalFees (fst sa) ->
  let r := fst (fold_left feeStats_iter orders sa) in
  marketOrderFees r = totalFees r
  /\ limitOrderFees r = limitOrderFees (fst sa).
Proof.
  revert sa. induction orders as [| o orders IH]; intros sa Hall H;
    cbn [fold_left].
  - split; [exact H | reflexivity].
  - cbn [forallb] in Hall. apply andb_true_iff in Hall as [Ho Hall].
    apply negb_true_iff in Ho.
    destruct sa as [st tn]. cbn [fst] in H.
    destruct (IH (feeStats_iter (st, tn) o) Hall) as [H1 H2].
    + cbn [feeStats_iter fst marketOrderFees totalFees].
      rewrite Ho, H. reflexivity.
    + split; [exact H1 |]. rewrite H2.
      cbn [feeStats_iter fst limitOrderFees].
      rewrite Ho. reflexivity.
Qed.

Lemma calculateFeeStats_fields (orders : list Order) :
  let r := fst (fold_left feeStats_iter orders
                          (mkFeeStats 0 0 0 0 0 0 [], 0)) in
  let stats := calculateFeeStats orders in
  totalFees stats = totalFees r
  /\ makerFees stats = makerFees r
  /\ takerFees stats = takerFees r
  /\ limitOrderFees stats = limitOrderFees r
  /\ marketOrderFees stats = marketOrderFees r.
Proof.
  cbv zeta. unfold calculateFeeStats.
  destruct (fold_left feeStats_iter orders (mkFeeStats 0 0 0 0 0 0 [], 0))
    as [st tn].
  repeat split.
Qed.

(** X13.  [calculateFeeStats] and [calculateBatchFees] add the fees of the
    orders to their totals in the same order, so the two totals are the
    same number; the breakdown of the batch has one entry per order, the
    fee of that order.  When all orders have one role the fees of that
    role are the total and those of the other role are 0, and likewise
    for the split into LIMIT orders and all other orders. *)
Theorem fee_stats_total_is_batch_total :
  forall orders : list Order,
    let stats := calculateFeeStats orders in
    let batch := calculateBatchFees orders in
    totalFees stats = batch_totalFees batch
    /\ batch_feeBreakdown batch
       = map (fun o => calculateOrderFee (order_type o) (order_isMaker o)
                                         (order_notional o)) orders
    /\ (forallb order_isMaker orders = true ->
        makerFees stats = totalFees stats /\ takerFees stats = 0)
    /\ (forallb (fun o => negb (order_isMaker o)) orders = true ->
        takerFees stats = totalFees stats /\ makerFees stats = 0)
    /\ (forallb (fun o => String.eqb (order_type o) "LIMIT") orders = true ->
        limitOrderFees stats = totalFees stats
        /\ marketOrderFees stats = 0)
    /\ (forallb (fun o => negb (String.eqb (order_type o) "LIMIT")) orders
        = true ->
        marketOrderFees stats = totalFees stats
        /\ limitOrderFees stats = 0).
Proof.
  intros orders stats batch.
  destruct (calculateFeeStats_fields orders) as [Et [Em [Ek [El Ea]]]].
  fold stats in Et, Em, Ek, El, Ea.
  rewrite Et, Em, Ek, El, Ea.
  set (start := (mkFeeStats 0 0 0 0 0 0 [], 0)).
  split; [| split; [| split; [| split; [| split]]]].
  - unfold batch, calculateBatchFees.
    apply stats_total_follows_batch. reflexivity.
  - unfold batch, calculateBatchFees. rewrite batch_breakdown. reflexivity.
  - intros H. apply (all_maker_loop orders start H). reflexivity.
  - intros H. apply (all_taker_loop orders start H). reflexivity.
  - intros H. apply (all_limit_loop orders start H). reflexivity.
  - intros H. apply (no_limit_loop orders start H). reflexivity.
Qed.
End FeeSchedule.

(** * Properties of the trade-fee helpers *)

Section TradeFeeHelpers.

Import TradeFees.



End TradeFeeHelpers.

(** * Properties of the strategy optimizer *)

Section StrategyOptimizer.

Import Optimizer.

Lemma clamp_range (lo hi x : Q) :
  lo <= hi -> lo <= Qmax lo (Qmin hi x) <= hi.
Proof.
  intros H. split; [apply Qmax_ge_l |].
  apply Q.max_lub; [exact H | apply Q.le_min_l].
Qed.

(** X17.  Whatever the volatility, balance and drawdown passed in, negative
    or huge values included, every parameter of the optimized
    configuration stays inside fixed bounds. *)
Theorem optimized_config_ranges :
  forall (volatility balance drawdown : option Q),
    let c := getOptimizedConfig volatility balance drawdown in
    (5 # 100000 <= bidOffset (maker c) <= 2 # 10000)
    /\ askOffset (maker c) = bidOffset (maker c)
    /\ (5 # 10000 <= tradeAmount (maker c) <= 1 # 1000)
    /\ (15 # 1000 <= lossLimit (maker c) <= 3 # 100)
    /\ (2000 <= refreshInterval (maker c) <= 3000)
    /\ (15 # 1000 <= trend_lossLimit (trend c) <= 3 # 100)
    /\ (1 # 10 <= trailingProfit (trend c) <= 2 # 10)
    /\ (5 # 100 <= profitLockTrigger (trend c) <= 1 # 10)
    /\ (25 # 1000 <= profitLockOffset (trend c) <= 5 # 100)
    /\ (5 # 10000 <= maxPositionSize (risk c) <= 5 # 1000)
    /\ maxDailyLoss (risk c) <= 5 # 100
    /\ (3 <= maxConsecutiveLosses (risk c) <= 5)
    /\ (30000 <= cooldownPeriod (risk c) <= 60000).
Proof.
  intros volatility balance drawdown c. unfold c, getOptimizedConfig.
  set (v := Qmax (5 # 10) (Qmin 2 (or_default volatility (2 # 100) / (2 # 100)))).
  set (b := Qmax (1 # 10) (Qmin 1 (or_default balance 1000 / 1000))).
  set (r := if JsCmp.gt (or_default drawdown 0) (5 # 100) then 5 # 10 else 1).
  assert (Hv : 5 # 10 <= v <= 2) by (apply clamp_range; lra).
  assert (Hb : 1 # 10 <= b <= 1) by (apply clamp_range; lra).
  assert (Hr : r == 5 # 10 \/ r == 1).
  { unfold r. destruct (JsCmp.gt _ _); [left | right]; reflexivity. }
  assert (Hbr : (1 # 20) <= b * r <= 1).
  { destruct Hr as [E | E]; rewrite E; split; lra. }
  cbn [maker trend risk bidOffset askOffset tradeAmount lossLimit
       refreshInterval trend_lossLimit trailingProfit profitLockTrigger
       profitLockOffset maxPositionSize maxDailyLoss maxConsecutiveLosses
       cooldownPeriod].
  assert (Hmax : forall lo x hi, lo <= hi -> x <= hi -> lo <= Qmax lo x <= hi).
  { intros lo x hi H1 H2. split; [apply Qmax_ge_l | apply Q.max_lub; lra]. }
  assert (Hmax' : forall lo x lo', lo' <= x -> lo' <= Qmax lo x).
  { intros lo x lo' H. eapply Qle_trans; [exact H | apply Qmax_ge_r]. }
  repeat split; try reflexivity.
  - lra.
  - lra.
  - apply Qmax_ge_l.
  - apply Q.max_lub; [lra |].
    assert (E : (1 # 1000) * b * r == (1 # 1000) * (b * r)) by ring. lra.
  - apply Hmax'. destruct Hr as [E | E]; rewrite E; lra.
  - apply Q.max_lub; [lra |]. destruct Hr as [E | E]; rewrite E; lra.
  - apply Qmax_ge_l.
  - apply Q.max_lub; lra.
  - apply Qmax_ge_l.
  - apply Q.max_lub; [lra |]. destruct Hr as [E | E]; rewrite E; lra.
  - apply Qmax_ge_l.
  - apply Q.max_lub; [lra |]. destruct Hr as [E | E]; rewrite E; lra.
  - apply Qmax_ge_l.
  - apply Q.max_lub; [lra |]. destruct Hr as [E | E]; rewrite E; lra.
  - apply Hmax'. destruct Hr as [E | E]; rewrite E; lra.
  - apply Q.max_lub; [lra |]. destruct Hr as [E | E]; rewrite E; lra.
  - apply Q.min_glb; lra.
  - eapply Qle_trans; [apply Q.le_min_r | lra].
  - apply Q.le_min_l.
  - apply Qmax_ge_l.
  - apply Q.max_lub; [lra |]. destruct Hr as [E | E]; rewrite E; lra.
  - apply Qmax_ge_l.
  - apply Q.max_lub; [lra |]. destruct Hr as [E | E]; rewrite E; lra.
Qed.


End StrategyOptimizer.

Section StrategyAnalysis.

Import Optimizer.




Lemma filter_length_le {A : Type} (f : A -> bool) (l : list A) :
  (length (filter f l) <= length l)%nat.
Proof.
  induction l as [| a l IH]; cbn; [lia |].
  destruct (f a); cbn; lia.
Qed.

Lemma wins_and_losses_disjoint (trades : list Risk.Trade) :
  (length (filter (fun t => JsCmp.gt (Risk.pnl t) 0) trades)
   + length (filter (fun t => JsCmp.lt (Risk.pnl t) 0) trades)
   <= length trades)%nat.
Proof.
  induction trades as [| t trades IH]; cbn; [lia |].
  destruct (JsCmp.gt (Risk.pnl t) 0) eqn:Eg,
           (JsCmp.lt (Risk.pnl t) 0) eqn:El; cbn; try lia.
  apply gt_true in Eg. apply lt_true in El. lra.
Qed.

Lemma pnl_sum_fold (l : list Risk.Trade) (acc : Q) :
  fold_left (fun sum t => sum + Risk.pnl t) l acc
  == acc + fold_left (fun sum t => sum + Risk.pnl t) l 0.
Proof.
  revert acc. induction l as [| t l IH]; intros acc; cbn.
  - lra.
  - rewrite (IH (acc + Risk.pnl t)), (IH (0 + Risk.pnl t)). lra.
Qed.

Lemma losing_sum_negative (trades : list Risk.Trade) :
  let losing := filter (fun t => JsCmp.lt (Risk.pnl t) 0) trades in
  (losing = [] /\ pnl_sum losing == 0)
  \/ (losing <> [] /\ pnl_sum losing < 0).
Proof.
  cbv zeta. induction trades as [| t trades IH]; cbn.
  - left. split; reflexivity.
  - destruct (JsCmp.lt (Risk.pnl t) 0) eqn:El; [| exact IH].
    right. split; [discriminate |].
    apply lt_true in El. unfold pnl_sum in *. cbn.
    rewrite pnl_sum_fold.
    destruct IH as [[_ H] | [_ H]]; lra.
Qed.

Lemma winning_sum_positive (trades : list Risk.Trade) :
  let winning := filter (fun t => JsCmp.gt (Risk.pnl t) 0) trades in
  (winning = [] /\ pnl_sum winning == 0)
  \/ (winning <> [] /\ 0 < pnl_sum winning).
Proof.
  cbv zeta. induction trades as [| t trades IH]; cbn.
  - left. split; reflexivity.
  - destruct (JsCmp.gt (Risk.pnl t) 0) eqn:El; [| exact IH].
    right. split; [discriminate |].
    apply gt_true in El. unfold pnl_sum in *. cbn.
    rewrite pnl_sum_fold.
    destruct IH as [[_ H] | [_ H]]; lra.
Qed.

(** X20.  In the analysis of a list of trades, trades with a PnL of 0 count
    neither as profitable nor as losing, so the two counts may fall
    short of the total; the win rate is a percentage between 0 and 100;
    and the profit factor is [Infinity] exactly when there is a
    profitable trade and no losing one, and otherwise a finite number
    that is not negative. *)
Theorem analysis_counts_and_profit_factor :
  forall (sqrt : Q -> Q) (trades : list Risk.Trade),
    let a := analyzeStrategy sqrt trades in
    totalTrades a = length trades
    /\ (profitableTrades a + losingTrades a <= totalTrades a)%nat
    /\ (0 <= winRate a <= 100)
    /\ (profitFactor a = Pnl.PosInf
        <-> (0 < profitableTrades a)%nat /\ losingTrades a = O)
    /\ (profitFactor a = Pnl.PosInf
        \/ exists q, profitFactor a = Pnl.Fin q /\ 0 <= q).
Proof.
  intros sqrt trades a. unfold a.
  destruct trades as [| t0 trades0].
  - cbn. repeat split; try lra; try lia; try discriminate.
    right. exists 0. split; [reflexivity | lra].
  - unfold analyzeStrategy.
    cbn [totalTrades profitableTrades losingTrades winRate profitFactor].
    set (trades := t0 :: trades0).
    set (winning := filter (fun t => JsCmp.gt (Risk.pnl t) 0) trades).
    set (losing := filter (fun t => JsCmp.lt (Risk.pnl t) 0) trades).
    pose proof (wins_and_losses_disjoint trades) as Hcount.
    fold winning losing in Hcount.
    pose proof (losing_sum_negative trades) as Hl. cbv zeta in Hl.
    fold losing in Hl.
    pose proof (winning_sum_positive trades) as Hw. cbv zeta in Hw.
    fold winning in Hw.
    assert (Hn : 0 < Risk.of_count (length trades)).
    { unfold Risk.of_count, trades. cbn [length].
      rewrite <- (Zlt_Qlt 0). lia. }
    assert (Hk : 0 <= Risk.of_count (length winning)
                 <= Risk.of_count (length trades)).
    { unfold Risk.of_count. split.
      - rewrite <- (Zle_Qle 0). lia.
      - rewrite <- Zle_Qle. lia. }
    split; [reflexivity |]. split; [exact Hcount |]. split.
    { set (k := Risk.of_count (length winning)) in *.
      set (n := Risk.of_count (length trades)) in *.
      assert (H0 : 0 <= k / n) by (apply Qle_shift_div_l; lra).
      assert (H1 : k / n <= 1) by (apply Qle_shift_div_r; lra).
      set (q := k / n) in *. split; lra. }
    assert (Hlen : forall l : list Risk.Trade, l = [] <-> length l = O).
    { intros l. destruct l; cbn; split; congruence. }
    destruct Hl as [[El Hs] | [El Hs]].
    + (* no losing trade: totalLoss = 0 *)
      assert (Hz : JsCmp.gt (Qabs (pnl_sum losing)) 0 = false).
      { apply gt_false. rewrite Hs. cbn. lra. }
      rewrite Hz.
      destruct Hw as [[Ew Hp] | [Ew Hp]].
      * assert (Hz' : JsCmp.gt (pnl_sum winning) 0 = false)
          by (apply gt_false; lra).
        rewrite Hz'. split.
        -- split; [discriminate |]. intros [H _].
           apply Hlen in Ew. lia.
        -- right. exists 0. split; [reflexivity | lra].
      * assert (Hz' : JsCmp.gt (pnl_sum winning) 0 = true)
          by (apply gt_true; lra).
        rewrite Hz'. split.
        -- split; [| reflexivity]. intros _. split.
           ++ destruct winning; [contradiction | cbn; lia].
           ++ apply Hlen. exact El.
        -- left. reflexivity.
    + (* some losing trade: totalLoss > 0 *)
      assert (Habs : 0 < Qabs (pnl_sum losing)).
      { rewrite Qabs_neg by lra. lra. }
      assert (Hz : JsCmp.gt (Qabs (pnl_sum losing)) 0 = true)
        by (apply gt_true; exact Habs).
      rewrite Hz. split.
      * split; [discriminate |]. intros [_ H].
        apply Hlen in H. contradiction.
      * right. eexists. split; [reflexivity |].
        apply Qle_shift_div_l; [exact Habs |].
        destruct Hw as [[_ Hp] | [_ Hp]]; lra.
Qed.

End StrategyAnalysis.

(** * Further properties of the volume controller *)

Section VolumeFurther.

Import Volume.

(** X21.  When [quickCloseThreshold <= maxDrawdownPerTrade], as with the
    defaults 0.001 and 0.002, the drawdown test of [shouldQuickClose]
    never decides: a loss that large has already passed the threshold
    test, so the result is "|pnl| at the threshold, or held too long". *)
Theorem quick_close_drawdown_test_is_covered :
  forall (o : VolumeStrategyOptimizer) (currentPnl hold : Q),
    quickCloseThreshold (config o) <= maxDrawdownPerTrade (config o) ->
    shouldQuickClose o currentPnl hold
    = JsCmp.ge (Qabs currentPnl) (quickCloseThreshold (config o))
      || JsCmp.ge hold (maxPositionHoldTime (config o)).
Proof.
  intros o currentPnl hold Hle. unfold shouldQuickClose.
  destruct (JsCmp.ge (Qabs currentPnl) (quickCloseThreshold (config o)))
    eqn:E1; [reflexivity |].
  destruct (JsCmp.ge hold (maxPositionHoldTime (config o))) eqn:E2;
    [reflexivity |].
  destruct (JsCmp.le currentPnl (- maxDrawdownPerTrade (config o))) eqn:E3;
    [| reflexivity].
  exfalso. apply ge_false in E1. apply le_true in E3.
  pose proof (Qle_Qabs (- currentPnl)) as Habs.
  rewrite Qabs_opp in Habs. lra.
Qed.

(** X22.  The suggested trade size always lies between 0.001 and 0.01; when
    the minute's cap is already used up it is 0.001, not 0, and
    [canExecuteTrade] refuses that very size on the volume cap once the
    minimum interval has passed. *)
Theorem suggested_size_is_clamped :
  forall (o : VolumeStrategyOptimizer) (now now' : Z),
    let size := getSuggestedTradeSize o now now' in
    (1 # 1000 <= size <= 1 # 100)
    /\ (maxVolumePerMinute (config o) <= getRecentVolume o now 60000 ->
        size == 1 # 1000
        /\ forall t : Z,
             minTradeInterval (config o) <= inject_Z (t - lastTradeTime o) ->
             rejected_on_volume (canExecuteTrade o t now size) = true).
Proof.
  intros o now now' size. unfold size, getSuggestedTradeSize.
  set (used := getRecentVolume o now 60000).
  set (cap := maxVolumePerMinute (config o)).
  set (left := (60000 - Z.rem (now' - sessionStartTime o) 60000)%Z).
  set (rate := (cap - used) / (inject_Z left / 1000)).
  split.
  - split; [apply Qmax_ge_l |].
    apply Q.max_lub; [lra | apply Q.le_min_l].
  - intros Hfull.
    assert (Hleft : (0 < left)%Z).
    { unfold left.
      pose proof (Z.rem_bound_abs (now' - sessionStartTime o) 60000).
      lia. }
    assert (Hden : 0 < inject_Z left / 1000).
    { apply Qlt_shift_div_l; [lra |].
      rewrite Qmult_0_l. rewrite <- (Zlt_Qlt 0). exact Hleft. }
    assert (Hrate : rate <= 0).
    { unfold rate. apply Qle_shift_div_r; [exact Hden | lra]. }
    assert (Hsize : Qmax (1 # 1000) (Qmin (1 # 100) (rate * 2)) == 1 # 1000).
    { pose proof (Q.le_min_r (1 # 100) (rate * 2)) as Hmin.
      destruct (Q.max_spec (1 # 1000) (Qmin (1 # 100) (rate * 2)))
        as [[H E] | [H E]]; rewrite E; lra. }
    split; [exact Hsize |].
    intros t Ht.
    destruct (canExecuteTrade_cases o t now
                (Qmax (1 # 1000) (Qmin (1 # 100) (rate * 2))))
      as [[Hi _] | [[_ [_ E]] | [_ [Hv _]]]].
    + lra.
    + rewrite E. reflexivity.
    + fold used cap in Hv. lra.
Qed.

Lemma volume_fold (l : list Trade) (acc : Q) :
  fold_left (fun sum t => sum + volume t) l acc
  == acc + fold_left (fun sum t => sum + volume t) l 0.
Proof.
  revert acc. induction l as [| t l IH]; intros acc; cbn.
  - lra.
  - rewrite (IH (acc + volume t)), (IH (0 + volume t)). lra.
Qed.

Lemma recent_after_record (o : VolumeStrategyOptimizer) (now t : Z)
    (v p h : Q) (mk : bool) :
  getRecentVolume (recordTrade o now v p h mk) t 60000
  == getRecentVolume o t 60000
     + (if JsCmp.le (inject_Z (t - now)) 60000 then v else 0).
Proof.
  unfold getRecentVolume, recordTrade. cbn [tradeHistory].
  rewrite filter_app, fold_left_app. cbn [filter timestamp].
  destruct (JsCmp.le (inject_Z (t - now)) 60000); cbn; lra.
Qed.

(** With volumes that are not negative, the volume inside the window
    can only shrink as time passes without trades. *)
Lemma recent_shrinks (o : VolumeStrategyOptimizer) (t t' : Z) :
  Forall (fun tr => 0 <= volume tr) (tradeHistory o) ->
  (t <= t')%Z ->
  getRecentVolume o t' 60000 <= getRecentVolume o t 60000.
Proof.
  unfold getRecentVolume. intros Hall Ht.
  induction Hall as [| tr l Hv _ IH]; cbn.
  - lra.
  - destruct (JsCmp.le (inject_Z (t' - timestamp tr)) 60000) eqn:E'.
    + assert (E : JsCmp.le (inject_Z (t - timestamp tr)) 60000 = true).
      { apply le_true in E'. apply le_true.
        eapply Qle_trans; [| exact E'].
        rewrite <- Zle_Qle. lia. }
      rewrite E. cbn.
      rewrite (volume_fold _ (0 + volume tr)).
      rewrite (volume_fold (filter _ l) (0 + volume tr)). lra.
    + destruct (JsCmp.le (inject_Z (t - timestamp tr)) 60000); cbn.
      * rewrite (volume_fold _ (0 + volume tr)).
        assert (Hnn : forall l0 : list Trade,
                   Forall (fun tr => 0 <= volume tr) l0 ->
                   0 <= fold_left (fun sum t0 => sum + volume t0) l0 0).
        { clear. induction 1 as [| x l0 Hx _ IH0]; cbn; [lra |].
          rewrite volume_fold. lra. }
        lra.
      * exact IH.
Qed.

(** X24.  In a session in which every recorded trade was first admitted for
    its volume, the volume inside the 60-second window never exceeds
    [maxVolumePerMinute], at the last clock reading and at every later
    one. *)
Theorem admitted_volume_stays_under_cap :
  forall (o : VolumeStrategyOptimizer) (t : Z),
    Session o t ->
    0 <= maxVolumePerMinute (config o) ->
    forall t' : Z,
      (t <= t')%Z ->
      getRecentVolume o t' 60000 <= maxVolumePerMinute (config o).
Proof.
  intros o t Hadm.
  assert (Hinv :
    0 <= maxVolumePerMinute (config o) ->
    Forall (fun tr => 0 <= volume tr) (tradeHistory o)
    /\ forall t', (t <= t')%Z ->
         getRecentVolume o t' 60000 <= maxVolumePerMinute (config o)).
  { induction Hadm as [c now | o t now _ _ _ | o t now v p h mk Hadm IH Ht Hv Hok];
      intros Hcap.
    - split; [constructor |]. intros t' _. exact Hcap.
    - split; [constructor |]. intros t' _. exact Hcap.
    - cbn [recordTrade config] in Hcap |- *.
      destruct (IH Hcap) as [Hall Hbound].
      split.
      + cbn [tradeHistory]. apply Forall_app. split; [exact Hall |].
        constructor; [exact Hv | constructor].
      + intros t' Ht'.
        rewrite recent_after_record.
        assert (Hfit : getRecentVolume o now 60000 + v
                       <= maxVolumePerMinute (config o)).
        { destruct (canExecuteTrade_cases o now now v)
            as [[_ E] | [[_ [_ E]] | [_ [Hfit _]]]];
            [rewrite E in Hok; discriminate Hok
            | rewrite E in Hok; discriminate Hok
            | exact Hfit]. }
        destruct (JsCmp.le (inject_Z (t' - now)) 60000).
        * pose proof (recent_shrinks o now t' Hall Ht'). lra.
        * assert (Hb := Hbound t' ltac:(lia)). lra. }
  intros Hcap. apply (proj2 (Hinv Hcap)).
Qed.

End VolumeFurther.

(** * Properties of the trade tracker *)

Section TradeTracker.

Import Tracker.

(** X25.  [getRecentTrades(0)] returns the whole history, not an empty list
    ([slice(-0)] is [slice(0)]); a positive count returns the last
    [min(count, length)] trades, in order; the default count is 10. *)
Theorem recent_trades_of_zero_is_everything :
  forall (t : TradeTracker),
    getRecentTrades t (Some 0%Z) = trades t
    /\ getRecentTrades t None = getRecentTrades t (Some 10%Z)
    /\ forall count : Z,
         (0 < count)%Z ->
         length (getRecentTrades t (Some count))
         = Nat.min (Z.to_nat count) (length (trades t))
         /\ exists older,
              trades t = older ++ getRecentTrades t (Some count).
Proof.
  intros t. split; [| split; [reflexivity |]].
  { unfold getRecentTrades, slice_from. cbn [Z.opp Z.ltb Z.compare].
    replace (Z.min 0 (Z.of_nat (length (trades t)))) with 0%Z by lia.
    reflexivity. }
  intros count Hc. unfold getRecentTrades, slice_from.
  replace (- count <? 0)%Z with true by (symmetry; apply Z.ltb_lt; lia).
  set (k := Z.to_nat (Z.max (Z.of_nat (length (trades t)) + - count) 0)).
  split.
  - rewrite length_skipn. unfold k. lia.
  - exists (firstn k (trades t)). symmetry. apply firstn_skipn.
Qed.



Lemma filter_none {A : Type} (f : A -> bool) (l : list A) :
  forallb (fun x => negb (f x)) l = true -> filter f l = [].
Proof.
  induction l as [| x l IH]; cbn [forallb filter]; intros H.
  - reflexivity.
  - apply andb_true_iff in H as [Hx Hl]. apply negb_true_iff in Hx.
    rewrite Hx. apply IH. exact Hl.
Qed.

(** X26.  The statistics of a tracker: the gross PnL is always 0 and the net
    PnL minus the total fees, the win rate is 100 as soon as there is a
    trade, and the fees of the orders that are neither LIMIT nor MARKET
    (stop orders, for one) are part of the total but of neither the
    limit-order nor the market-order fees: for a tracker that holds only
    such orders both are 0. *)
Theorem tracker_stats_shape :
  forall (t : TradeTracker),
    let stats := getStats t in
    let other r := negb (String.eqb (orderType r) "LIMIT")
                   && negb (String.eqb (orderType r) "MARKET") in
    totalTrades stats = length (trades t)
    /\ grossPnl stats = 0
    /\ netPnl stats == - totalFees stats
    /\ (trades t <> [] -> winRate stats == 100)
    /\ (forallb other (trades t) = true ->
        limitOrderFees stats = 0
        /\ marketOrderFees stats = 0
        /\ totalFees stats = fee_sum (trades t)).
Proof.
  intros t stats other. unfold stats, getStats.
  destruct (trades t) as [| r0 l0] eqn:Et.
  - cbn. repeat split; try lra. intros H. contradiction.
  - set (l := r0 :: l0).
    cbn [totalTrades grossPnl netPnl winRate makerFees takerFees
         limitOrderFees marketOrderFees totalFees].
    split; [reflexivity |]. split; [reflexivity |].
    split; [unfold calculateGrossPnl; lra |].
    split.
    { intros _.
      replace (filter (fun _ : TradeRecord => true) l) with l.
      - cbn [length Nat.ltb Nat.leb].
        set (n := Risk.of_count (S (length l0))).
        assert (Hn : 0 < n).
        { unfold n, Risk.of_count. rewrite <- (Zlt_Qlt 0). lia. }
        assert (E : n / n == 1) by (field; lra).
        unfold l. cbn [length]. fold n. rewrite E. reflexivity.
      - clear. induction l as [| r l IH]; cbn; [| rewrite <- IH];
          reflexivity. }
    intros Hall.
    assert (Hl : forallb (fun r => negb (String.eqb (orderType r) "LIMIT")) l
                 = true).
    { clear - Hall. unfold other in Hall.
      induction l as [| r l IH]; cbn [forallb] in *; [reflexivity |].
      apply andb_true_iff in Hall as [Hr Hrest].
      apply andb_true_iff in Hr as [H1 _]. rewrite H1. cbn. apply IH.
      exact Hrest. }
    assert (Hm : forallb (fun r => negb (String.eqb (orderType r) "MARKET")) l
                 = true).
    { clear - Hall. unfold other in Hall.
      induction l as [| r l IH]; cbn [forallb] in *; [reflexivity |].
      apply andb_true_iff in Hall as [Hr Hrest].
      apply andb_true_iff in Hr as [_ H2]. rewrite H2. cbn. apply IH.
      exact Hrest. }
    rewrite (filter_none _ l Hl), (filter_none _ l Hm).
    repeat split.
Qed.
End TradeTracker.

Section TradeTrackerFees.

Import Tracker.




End TradeTrackerFees.

(** * Further properties of the request layer *)

Section RequestsFurther.

Import Http.

(** Without a retry policy [safeFetch] is a single [fetch]: whatever
    comes back, a retryable status or a thrown error included, is
    handed on at once, and nothing is slept. *)
Theorem no_policy_means_single_attempt :
  forall (w : World) (fuel : nat),
    safeFetch (S fuel) w None = Some (mkRun (fetch w O) 1 []).
Proof.
  intros w fuel. unfold safeFetch. cbn [retry_loop policy_maxRetries
    fetches attempt slept].
  destruct (fetch w O) as [r | e].
  - cbn [Nat.ltb Nat.leb]. rewrite andb_false_r. reflexivity.
  - reflexivity.
Qed.

Lemma pow2_succ (n : nat) : pow2 (S n) == 2 * pow2 n.
Proof.
  rewrite !pow2_integral, Nat2Z.inj_succ, Z.pow_succ_r by lia.
  rewrite inject_Z_mult. reflexivity.
Qed.

Lemma pow2_ge_1 (n : nat) : 1 <= pow2 n.
Proof.
  rewrite pow2_integral. rewrite <- (Zle_Qle 1).
  pose proof (Z.pow_pos_nonneg 2 (Z.of_nat n)). lia.
Qed.

(** X28.  For a positive base delay and random values in [[0, 1)], a backoff
    delay never exceeds [maxDelayMs], is not negative when
    [maxDelayMs] is not, and never decreases from one retry to the
    next, the jitter notwithstanding. *)
Theorem backoff_bounded_and_growing :
  forall (w : World) (base mx : Q) (n : nat),
    0 < base ->
    (forall k, 0 <= random w k < 1) ->
    backoff w base mx n <= mx
    /\ (0 <= mx -> 0 <= backoff w base mx n)
    /\ backoff w base mx n <= backoff w base mx (S n).
Proof.
  intros w base mx n Hb Hr. unfold backoff, computeBackoff.
  pose proof (pow2_ge_1 n) as Hp. pose proof (pow2_succ n) as Hs.
  destruct (jitter_range (random w n) base Hb (Hr n)) as [Hj0 Hj1].
  destruct (jitter_range (random w (S n)) base Hb (Hr (S n))) as [Hk0 Hk1].
  assert (Hbp : base <= base * pow2 n).
  { assert (0 <= base * (pow2 n - 1)) by (apply Qmult_le_0_compat; lra).
    assert (base * (pow2 n - 1) == base * pow2 n - base) by ring. lra. }
  set (x := base * pow2 n + random w n * base).
  set (y := base * pow2 (S n) + random w (S n) * base).
  assert (Hxy : x <= y).
  { unfold x, y. rewrite Hs.
    assert (base * (2 * pow2 n) == base * pow2 n + base * pow2 n) by ring.
    lra. }
  assert (Hfl : inject_Z (Qfloor x) <= inject_Z (Qfloor y)).
  { rewrite <- Zle_Qle. apply Qfloor_resp_le. exact Hxy. }
  assert (Hx0 : 0 <= inject_Z (Qfloor x)).
  { rewrite <- (Zle_Qle 0). rewrite <- (Qfloor_Z 0).
    apply Qfloor_resp_le. unfold x. change (inject_Z 0) with 0. lra. }
  split; [apply Q.le_min_l |]. split.
  - intros Hmx. apply Q.min_glb; assumption.
  - apply Q.min_le_compat_l. exact Hfl.
Qed.

End RequestsFurther.

(** * Further properties of the position PnL *)

Section PnlFurther.

Import Pnl.

(** X29.  The guard of the PnL functions covers the price only: with a
    finite reference price, a position whose entry price or amount is
    [NaN] gives a [NaN] PnL, gross and net. *)
Theorem nan_position_gives_nan_pnl :
  forall (position : PositionSnapshot) (bestBid bestAsk : Arg)
         (totalFees : option Num),
    isFinite (if gt0 (positionAmt position) then bestBid else bestAsk) = true ->
    entryPrice position = NaN \/ positionAmt position = NaN ->
    computeGrossPnl position bestBid bestAsk = NaN
    /\ computePositionPnl position bestBid bestAsk totalFees = NaN.
Proof.
  intros [sym amt entry] bestBid bestAsk totalFees Hfin Hnan.
  unfold computeGrossPnl, computePositionPnl.
  cbn [positionAmt entryPrice] in *. rewrite Hfin. cbn [negb].
  destruct Hnan as [-> | ->].
  - destruct (gt0 amt);
      [destruct bestBid as [| | [p | | |]] | destruct bestAsk as [| | [p | | |]]];
      try discriminate Hfin; cbn; destruct (abs amt); split; reflexivity.
  - cbn [gt0] in *.
    destruct bestAsk as [| | [p | | |]]; try discriminate Hfin.
    cbn. destruct entry; split; reflexivity.
Qed.

(** A long and a short of the same size, entered and marked at the
    same prices, have opposite gross PnL, and the gross PnL at the
    entry price is 0. *)
Theorem long_and_short_mirror :
  forall (sym : string) (size entry mark : Q),
    0 < size ->
    exists g g',
      computeGrossPnl (mkPosition sym (Fin size) (Fin entry))
                      (Value (Fin mark)) (Value (Fin mark)) = Fin g
      /\ computeGrossPnl (mkPosition sym (Fin (- size)) (Fin entry))
                         (Value (Fin mark)) (Value (Fin mark)) = Fin g'
      /\ g + g' == 0
      /\ (mark == entry -> g == 0).
Proof.
  intros sym size entry mark Hs.
  assert (H1 : JsCmp.gt size 0 = true) by (apply gt_true; exact Hs).
  assert (H2 : JsCmp.gt (- size) 0 = false) by (apply gt_false; lra).
  exists ((mark - entry) * Qabs size), ((entry - mark) * Qabs (- size)).
  unfold computeGrossPnl.
  cbn [positionAmt entryPrice gt0 isFinite negb toNumber abs sub mul].
  rewrite H1, H2.
  split; [reflexivity | split; [reflexivity |]].
  pose proof (Qabs_opp size) as Eo. split.
  - rewrite Eo. ring.
  - intros E. rewrite E. ring.
Qed.

End PnlFurther.

(** * The further properties at concrete inputs *)

Section FurtherInstances.

(** A profit of 10 and a loss of 30 against [emergencyStopLoss = 25]:
    after a reset, a profit of 50 sets the latch again. *)
Lemma emergency_reset_undone_by_next_trade_witness :
  let lim := Risk.mkLimits 1 100 3 100 60000 25 in
  let m := Risk.run (Risk.new lim) [Risk.RecordTrade 1000 10 false;
                                    Risk.RecordTrade 2000 (-30) false] in
  Risk.emergencyStopTriggered
    (Risk.state (Risk.recordTrade (Risk.resetEmergencyStop m) 3000 50 false))
  = true.
Proof.
  cbv zeta.
  destruct (emergency_reset_undone_by_next_trade
              (Risk.mkLimits 1 100 3 100 60000 25)
              [Risk.RecordTrade 1000 10 false;
               Risk.RecordTrade 2000 (-30) false] 3000 50 false)
    as [_ H].
  - vm_compute. reflexivity.
  - exact H.
Defined.

(** Three losses open the cooldown at 3000; a win at 4000 restarts the
    window, so a call at 5000 is refused for cooldown. *)
Lemma trade_restarts_cooldown_witness :
  let lim := Risk.mkLimits 1 100 3 100 60000 1000 in
  let m := Risk.run (Risk.new lim) [Risk.RecordTrade 1000 (-1) false;
                                    Risk.RecordTrade 2000 (-1) false;
                                    Risk.RecordTrade 3000 (-1) false] in
  Risk.consecutiveLosses (Risk.state (Risk.recordTrade m 4000 5 false)) = O
  /\ Risk.canOpenPosition (Risk.recordTrade m 4000 5 false) 5000 (1 # 2)
     = Risk.reject Risk.Cooldown.
Proof.
  cbv zeta.
  set (m := Risk.run _ _).
  destruct (trade_restarts_cooldown m 4000 5000 5 (1 # 2) false)
    as [_ [_ [Hzero Hcool]]].
  - vm_compute. reflexivity.
  - split.
    + apply Hzero. discriminate.
    + apply Hcool; [vm_compute; reflexivity | reflexivity].
Defined.

(** A loss, a win, then two losses: the streak is 2. *)
Lemma consecutiveLosses_is_trailing_streak_witness :
  Risk.consecutiveLosses
    (Risk.state
       (Risk.run (Risk.new (Risk.mkLimits 1 100 5 100 60000 1000))
          [Risk.RecordTrade 1000 (-1) false; Risk.RecordTrade 2000 5 false;
           Risk.RecordTrade 3000 (-2) false; Risk.RecordTrade 4000 (-3) false]))
  = 2%nat.
Proof.
  rewrite (consecutiveLosses_is_trailing_streak
             (Risk.mkLimits 1 100 5 100 60000 1000)
             [Risk.RecordTrade 1000 (-1) false; Risk.RecordTrade 2000 5 false;
              Risk.RecordTrade 3000 (-2) false;
              Risk.RecordTrade 4000 (-3) false]).
  - reflexivity.
  - reflexivity.
Defined.


(** A drawdown of 30 against [maxDrawdown = 20]. *)
Lemma refusal_comes_with_advice_witness :
  let m := Risk.run (Risk.new (Risk.mkLimits 1 100 3 20 60000 1000))
             [Risk.RecordTrade 1000 10 false;
              Risk.RecordTrade 2000 (-30) false] in
  In Risk.DrawdownNearLimit (Risk.getRiskAdvice m 5000).
Proof.
  cbv zeta.
  set (m := Risk.run _ _).
  destruct (refusal_comes_with_advice m 5000 (1 # 2))
    as [_ [_ [_ [_ H]]]].
  apply H.
  - vm_compute. reflexivity.
  - reflexivity.
Defined.

(** The fallback switched off, a strategy started at 1000 and asked at
    70000, past the default timeout of 60000. *)
Lemma status_and_close_info_timeout_witness :
  let m := Close.startCloseStrategy
             (Close.new (Close.mkPartial None None (Some false))) 1000 in
  Close.status_isTimeout (Close.getStrategyStatus m 70000) = true
  /\ Close.remainingTime (Close.getStrategyStatus m 70000) == 0
  /\ Close.isTimeout
       (Close.calculateClosePrice m 70000 100 1 Close.SELL 101 102) = false.
Proof.
  cbv zeta.
  set (m := Close.startCloseStrategy _ _).
  destruct (status_and_close_info_timeout m 70000 100 1 Close.SELL 101 102)
    as [Hinfo [_ [Hst _]]].
  assert (Ht : Close.status_isTimeout (Close.getStrategyStatus m 70000) = true)
    by reflexivity.
  split; [exact Ht |]. split.
  - destruct (Hst Ht) as [_ [_ H]]. exact H.
  - rewrite Hinfo, Ht. reflexivity.
Defined.

(** The default configuration, started at 1000 and asked at 70000. *)
Lemma timeout_forces_market_close_witness :
  Close.shouldUseMarketClose
    (Close.startCloseStrategy (Close.new (Close.mkPartial None None None)) 1000)
    70000 100 1 Close.SELL 200 201 = true.
Proof.
  apply timeout_forces_market_close; reflexivity.
Defined.

(** A stop order flagged as maker pays the taker rate. *)
Lemma maker_rate_only_for_limit_makers_witness :
  Fee.getFeeRate "STOP_MARKET" true = Fee.MARKET_TAKER.
Proof.
  destruct (maker_rate_only_for_limit_makers "STOP_MARKET" true)
    as [[H _] | [_ E]].
  - discriminate H.
  - exact E.
Defined.



(** A win of 5 and a trade of 0: nothing was lost. *)
Lemma analysis_counts_and_profit_factor_witness :
  Optimizer.profitFactor
    (Optimizer.analyzeStrategy (fun x => x)
       [Risk.mkTrade 1000 5 false; Risk.mkTrade 2000 0 false])
  = Pnl.PosInf.
Proof.
  destruct (analysis_counts_and_profit_factor (fun x => x)
              [Risk.mkTrade 1000 5 false; Risk.mkTrade 2000 0 false])
    as [_ [_ [_ [Hiff _]]]].
  apply Hiff. split.
  - cbn. apply le_n.
  - reflexivity.
Defined.

(** The default thresholds, 0.001 and 0.002, and a loss of 0.003. *)
Lemma quick_close_drawdown_test_is_covered_witness :
  let o := Volume.new Volume.defaultConfig 0 in
  Volume.shouldQuickClose o (- (3 # 1000)) 0
  = JsCmp.ge (Qabs (- (3 # 1000))) (1 # 1000) || JsCmp.ge 0 30000.
Proof.
  cbv zeta.
  apply (quick_close_drawdown_test_is_covered
           (Volume.new Volume.defaultConfig 0) (- (3 # 1000)) 0).
  discriminate.
Defined.

(** The default cap of 100 used up by one trade. *)
Lemma suggested_size_is_clamped_witness :
  let o := Volume.recordTrade (Volume.new Volume.defaultConfig 0)
                              10000 100 0 500 true in
  Volume.getSuggestedTradeSize o 20000 20000 == 1 # 1000
  /\ Volume.rejected_on_volume
       (Volume.canExecuteTrade o 20000 20000
          (Volume.getSuggestedTradeSize o 20000 20000)) = true.
Proof.
  cbv zeta.
  set (o := Volume.recordTrade _ _ _ _ _ _).
  destruct (suggested_size_is_clamped o 20000 20000) as [_ H].
  destruct H as [Hsize Hrej].
  - apply Qle_bool_imp_le. vm_compute. reflexivity.
  - split; [exact Hsize |]. apply Hrej.
    apply Qle_bool_imp_le. vm_compute. reflexivity.
Defined.

(** One admitted trade of 40 at 10000, looked at from 30000. *)
Lemma admitted_volume_stays_under_cap_witness :
  let o := Volume.recordTrade (Volume.new Volume.defaultConfig 0)
                              10000 40 0 500 true in
  Volume.getRecentVolume o 30000 60000 <= 100.
Proof.
  cbv zeta.
  apply (admitted_volume_stays_under_cap
           (Volume.recordTrade (Volume.new Volume.defaultConfig 0)
                               10000 40 0 500 true) 10000).
  - apply (Volume.Session_trade (Volume.new Volume.defaultConfig 0) 0 10000
             40 0 500 true).
    + apply Volume.Session_new.
    + discriminate.
    + discriminate.
    + reflexivity.
  - discriminate.
  - discriminate.
Defined.

(** A tracker with three trades. *)
Lemma recent_trades_of_zero_is_everything_witness :
  let input := Tracker.mkInput "BTCUSDT" Close.BUY 100 1 true "LIMIT" "BNB"
                               7 None in
  let t := Tracker.add_all (Tracker.new None)
             (fun k => (1000, 1000, "salt"%string))%Z O
             [input; input; input] in
  length (Tracker.getRecentTrades t (Some 2%Z)) = 2%nat
  /\ length (Tracker.getRecentTrades t (Some 0%Z)) = 3%nat.
Proof.
  cbv zeta.
  set (t := Tracker.add_all _ _ _ _).
  destruct (recent_trades_of_zero_is_everything t) as [Hzero [_ Hpos]].
  split.
  - destruct (Hpos 2%Z) as [Hlen _]; [reflexivity |].
    rewrite Hlen. reflexivity.
  - rewrite Hzero. reflexivity.
Defined.

(** Three maker limit orders of notional 100: the maker fees and the
    limit-order fees are the total, which is the total of the batch. *)
Lemma fee_stats_total_is_batch_total_witness :
  let orders := [Fee.mkOrder "LIMIT" true 100; Fee.mkOrder "LIMIT" true 100;
                 Fee.mkOrder "LIMIT" true 100] in
  let stats := Fee.calculateFeeStats orders in
  Fee.makerFees stats = Fee.batch_totalFees (Fee.calculateBatchFees orders)
  /\ Fee.takerFees stats = 0
  /\ Fee.limitOrderFees stats = Fee.totalFees stats
  /\ Fee.marketOrderFees stats = 0.
Proof.
  cbv zeta.
  set (orders := [Fee.mkOrder "LIMIT" true 100; Fee.mkOrder "LIMIT" true 100;
                  Fee.mkOrder "LIMIT" true 100]).
  destruct (fee_stats_total_is_batch_total orders)
    as [Ht [_ [Hmaker [_ [Hlimit _]]]]].
  destruct Hmaker as [Hm Hk]; [reflexivity |].
  destruct Hlimit as [Hl Ho]; [reflexivity |].
  split; [rewrite Hm; exact Ht |].
  split; [exact Hk | split; [exact Hl | exact Ho]].
Defined.

(** A tracker with one stop order. *)
Lemma tracker_stats_shape_witness :
  let input := Tracker.mkInput "BTCUSDT" Close.SELL 100 1 false "STOP_MARKET"
                               "USDT" 7 None in
  let t := Tracker.add_all (Tracker.new None)
             (fun k => (1000, 1000, "salt"%string))%Z O [input] in
  Tracker.winRate (Tracker.getStats t) == 100
  /\ Tracker.limitOrderFees (Tracker.getStats t) = 0
  /\ Tracker.marketOrderFees (Tracker.getStats t) = 0
  /\ 0 < Tracker.totalFees (Tracker.getStats t).
Proof.
  cbv zeta.
  set (t := Tracker.add_all _ _ _ _).
  destruct (tracker_stats_shape t) as [_ [_ [_ [H Hother]]]].
  split; [apply H; discriminate |].
  destruct Hother as [Hl [Hm Ht]]; [reflexivity |].
  split; [exact Hl | split; [exact Hm |]].
  rewrite Ht. reflexivity.
Defined.
(** A base of 300 ms and random values of 0.5. *)
Lemma backoff_bounded_and_growing_witness :
  let w := Http.mkWorld (fun _ => Http.Threw (Http.mkError 0))
                        (fun _ => 1 # 2) in
  Http.backoff w 300 3000 1 <= 3000
  /\ Http.backoff w 300 3000 1 <= Http.backoff w 300 3000 2.
Proof.
  cbv zeta.
  set (w := Http.mkWorld _ _).
  destruct (backoff_bounded_and_growing w 300 3000 1) as [H1 [_ H2]].
  - reflexivity.
  - intros k. split; [discriminate | reflexivity].
  - split; [exact H1 | exact H2].
Defined.

(** A long whose entry price is [NaN], with a finite best bid. *)
Lemma nan_position_gives_nan_pnl_witness :
  Pnl.computePositionPnl
    (Pnl.mkPosition "BTCUSDT" (Pnl.Fin 2) Pnl.NaN)
    (Pnl.Value (Pnl.Fin 101)) Pnl.Null None
  = Pnl.NaN.
Proof.
  destruct (nan_position_gives_nan_pnl
              (Pnl.mkPosition "BTCUSDT" (Pnl.Fin 2) Pnl.NaN)
              (Pnl.Value (Pnl.Fin 101)) Pnl.Null None) as [_ H].
  - reflexivity.
  - left. reflexivity.
  - exact H.
Defined.

End FurtherInstances.
